(** * Execution tracer of the code visualizer

    A shallow embedding of the two execution engines of the repository:

    - [PyTracer]: the Python tracer script ([CodeTracer], [trace_code]) that
      is injected into Pyodide, and the [usePyodide] hook that calls it;
    - [CppEngine]: the [useCpp] hook that steps a JSCPP debugger.

    Python and JavaScript integers are unbounded in the ranges used here and
    are embedded as [Z]; text is embedded as [string]; Python dicts and
    JavaScript objects whose insertion order is observable in the JSON
    output are association lists with an in-place update. *)

From stdpp Require Import base strings list gmap.
From Stdlib Require Import ZArith Lia DecimalString.

Set Warnings "-register-all".
Local Open Scope Z_scope.

(** ** Text helpers shared by both engines *)

(** [s[:n]] in Python: the first [n] characters of [s], or all of [s]. *)
Fixpoint str_take (n : nat) (s : string) : string :=
  match n, s with
  | S n', String c s' => String c (str_take n' s')
  | _, _ => EmptyString
  end.

(** [hay.includes(needle)] in JavaScript. *)
Definition str_includes (needle hay : string) : bool :=
  match String.index 0 needle hay with
  | Some _ => true
  | None => false
  end.

(** Decimal text of an integer, as [str(n)] and string interpolation give. *)
Definition decimal (z : Z) : string := NilZero.string_of_int (Z.to_int z).

(** Insertion-ordered mapping update: [d[key] = v]. An existing key keeps its
    position and gets the new value, a new key goes to the end. *)
Fixpoint dict_set {V : Type} (key : string) (v : V) (d : list (string * V))
  : list (string * V) :=
  match d with
  | [] => [(key, v)]
  | (k, w) :: rest =>
      if String.eqb k key then (k, v) :: rest else (k, w) :: dict_set key v rest
  end.

(** ** Wire types shared by both engines ([types.ts]) *)

(** The [event] tag of a frame. *)
Inductive event_kind := EvCall | EvLine | EvReturn | EvException.

(** [TraceResult], over the engine's frame type. [error] is [None] for
    [null]. *)
Record TraceResult (F : Type) := {
  success : bool;
  error : option string;
  frames : list F
}.
Arguments success {F} _.
Arguments error {F} _.
Arguments frames {F} _.

(** ** The Python tracer *)
Module PyTracer.

(** A raised Python exception: the name of its type and [str(e)]. *)
Record pyexc := PyExc { exc_type_name : string; exc_text : string }.

(** Fallible Python code: a value, or an exception that propagates. *)
Inductive result (A : Type) : Type :=
| Ok (a : A)
| Raise (e : pyexc).
Arguments Ok {A} a.
Arguments Raise {A} e.

#[global] Instance result_ret : MRet result := fun A a => Ok a.
#[global] Instance result_bind : MBind result := fun A B f m =>
  match m with
  | Ok a => f a
  | Raise e => Raise e
  end.

(** A float is never inspected by the tracer; it is carried as its IEEE-754
    binary64 bit pattern. *)
Record pyfloat := PyFloatBits { float_bits : Z }.

(** A dict key, as far as the serializer looks at it: either already a
    [str], or any other object together with what [str(k)] does. *)
Inductive pykey :=
| KeyStr (s : string)
| KeyOther (str_of : result string).

(** Runtime values. Every object carries [id(value)]. [PyObj] is any object
    that is none of the built-in kinds the serializer dispatches on: the
    name of its type, what [str(value)] does, and [callable(value)]. A
    [str], [list], [tuple], [dict] or [set] value is an instance of the
    built-in type itself: an instance of a subclass that overrides what the
    serializer calls on it (slicing, [len], [items], iteration) is not
    among these values, and neither is an object whose type has no plain
    [__name__]. *)
Inductive pyvalue :=
| PyNone (oid : Z)
| PyBool (oid : Z) (b : bool)
| PyInt (oid : Z) (n : Z)
| PyFloat (oid : Z) (x : pyfloat)
| PyStr (oid : Z) (s : string)
| PyList (oid : Z) (items : list pyvalue)
| PyTuple (oid : Z) (items : list pyvalue)
| PyDict (oid : Z) (entries : list (pykey * pyvalue))
| PySet (oid : Z) (items : list pyvalue)
| PyObj (oid : Z) (type_name : string) (str_of : result string)
        (is_callable : bool).

(** [id(value)] *)
Definition id_of (value : pyvalue) : Z :=
  match value with
  | PyNone oid | PyBool oid _ | PyInt oid _ | PyFloat oid _ | PyStr oid _
  | PyList oid _ | PyTuple oid _ | PyDict oid _ | PySet oid _
  | PyObj oid _ _ _ => oid
  end.

(** [type(value).__name__] *)
Definition type_name_of (value : pyvalue) : string :=
  match value with
  | PyNone _ => "NoneType"
  | PyBool _ _ => "bool"
  | PyInt _ _ => "int"
  | PyFloat _ _ => "float"
  | PyStr _ _ => "str"
  | PyList _ _ => "list"
  | PyTuple _ _ => "tuple"
  | PyDict _ _ => "dict"
  | PySet _ _ => "set"
  | PyObj _ type_name _ _ => type_name
  end.

(** [callable(value)]: instances of the built-in data types are not. *)
Definition callable (value : pyvalue) : bool :=
  match value with
  | PyObj _ _ _ is_callable => is_callable
  | _ => false
  end.

(** [isinstance(value, (list, dict, set))] *)
Definition is_list_dict_set (value : pyvalue) : bool :=
  match value with
  | PyList _ _ | PyDict _ _ | PySet _ _ => true
  | _ => false
  end.

(** The dict that [serialize_value] returns, with its optional keys, and
    what its ["value"] entry may hold. *)
Inductive snapval :=
| VNone
| VBool (b : bool)
| VInt (n : Z)
| VFloat (x : pyfloat)
| VText (s : string)
| VItems (items : list snapshot)
| VEntries (entries : list (string * snapshot))
with snapshot :=
| Snapshot (value : snapval) (type : string) (id : Z)
           (length : option Z) (truncated : option bool).

Definition sv_value (s : snapshot) : snapval :=
  let 'Snapshot v _ _ _ _ := s in v.
Definition sv_type (s : snapshot) : string :=
  let 'Snapshot _ t _ _ _ := s in t.
Definition sv_id (s : snapshot) : Z :=
  let 'Snapshot _ _ i _ _ := s in i.
Definition sv_length (s : snapshot) : option Z :=
  let 'Snapshot _ _ _ l _ := s in l.
Definition sv_truncated (s : snapshot) : option bool :=
  let 'Snapshot _ _ _ _ t := s in t.

(** Class constants of [CodeTracer]. *)
Definition MAX_STEPS : Z := 1000.
Definition MAX_STRING_LENGTH : Z := 100.
Definition MAX_LIST_LENGTH : Z := 50.

Definition IGNORED_VARS : gset string :=
  {[ "__builtins__"; "__name__"; "__doc__"; "__package__";
     "__loader__"; "__spec__"; "__annotations__"; "__cached__";
     "__file__"; "__tracer__"; "CodeTracer"; "tracer"; "trace_code" ]}.

(** [len(value)] of text and of a collection. *)
Definition str_len (s : string) : Z := Z.of_nat (String.length s).
Definition len {A : Type} (l : list A) : Z := Z.of_nat (List.length l).

(** The loops of [serialize_value] over the elements of a collection, with
    the recursive call abstracted as [serialize_item]. *)
Section element_loops.
Variable serialize_item : pyvalue -> result snapshot.

(** [for item in value[:n]: serialized_items.append(serialize(item))] *)
Fixpoint serialize_first (n : nat) (items : list pyvalue)
  : result (list snapshot) :=
  match n, items with
  | S n', item :: rest =>
      s ← serialize_item item;
      ss ← serialize_first n' rest;
      mret (s :: ss)
  | _, _ => mret []
  end.

(** The dict loop: stops at 20 entries; [str(k)] runs before the value is
    serialized. *)
Fixpoint serialize_entries (count : Z)
    (serialized_dict : list (string * snapshot))
    (entries : list (pykey * pyvalue))
  : result (list (string * snapshot)) :=
  match entries with
  | [] => mret serialized_dict
  | (k, v) :: rest =>
      if 20 <=? count then mret serialized_dict
      else
        key_str ← match k with
                  | KeyStr s => Ok s
                  | KeyOther str_of => str_of
                  end;
        s ← serialize_item v;
        serialize_entries (count + 1) (dict_set key_str s serialized_dict)
                          rest
  end.
End element_loops.

(** [CodeTracer.serialize_value] *)
Fixpoint serialize_value (value : pyvalue) (depth : Z) {struct value}
  : result snapshot :=
  if 3 <? depth then
    Ok (Snapshot (VText "...") "truncated" (id_of value) None None)
  else
    let obj_id := id_of value in
    match value with
    | PyNone _ => Ok (Snapshot VNone "NoneType" obj_id None None)
    | PyBool _ b => Ok (Snapshot (VBool b) "bool" obj_id None None)
    | PyInt _ n => Ok (Snapshot (VInt n) "int" obj_id None None)
    | PyFloat _ x => Ok (Snapshot (VFloat x) "float" obj_id None None)
    | PyStr _ s =>
        let truncated := str_take (Z.to_nat MAX_STRING_LENGTH) s in
        let truncated :=
          if MAX_STRING_LENGTH <? str_len s then truncated +:+ "..."
          else truncated in
        Ok (Snapshot (VText truncated) "str" obj_id None None)
    | PyList _ items =>
        serialized_items ←
          serialize_first (fun item => serialize_value item (depth + 1))
                          (Z.to_nat MAX_LIST_LENGTH) items;
        Ok (Snapshot (VItems serialized_items) "list" obj_id
                     (Some (len items))
                     (if MAX_LIST_LENGTH <? len items then Some true
                      else None))
    | PyTuple _ items =>
        serialized_items ←
          serialize_first (fun item => serialize_value item (depth + 1))
                          (Z.to_nat MAX_LIST_LENGTH) items;
        Ok (Snapshot (VItems serialized_items) "tuple" obj_id
                     (Some (len items)) None)
    | PyDict _ entries =>
        serialized_dict ←
          serialize_entries (fun v => serialize_value v (depth + 1))
                            0 [] entries;
        Ok (Snapshot (VEntries serialized_dict) "dict" obj_id
                     (Some (len entries)) None)
    | PySet _ items =>
        serialized_items ←
          serialize_first (fun item => serialize_value item (depth + 1))
                          (Z.to_nat MAX_LIST_LENGTH) items;
        Ok (Snapshot (VItems serialized_items) "set" obj_id
                     (Some (len items)) None)
    | PyObj _ _ str_of _ =>
        match str_of with
        | Ok text =>
            let str_repr := str_take (Z.to_nat MAX_STRING_LENGTH) text in
            Ok (Snapshot (VText str_repr) (type_name_of value) obj_id
                         None None)
        | Raise _ =>
            Ok (Snapshot (VText "<unserializable>") (type_name_of value)
                         obj_id None None)
        end
    end.

(** One iteration of the loop of [capture_locals]; [Ok captured] unchanged
    is a [continue]. The inner test of the first [if] is kept as written. *)
Definition capture_binding (captured : list (string * snapshot))
    (name : string) (value : pyvalue) : result (list (string * snapshot)) :=
  if (String.prefix "_" name && negb (String.prefix "__" name))
     && String.prefix "__" name
  then Ok captured
  else if bool_decide (name ∈ IGNORED_VARS) then Ok captured
  else if callable value && negb (is_list_dict_set value) then Ok captured
  else
    s ← serialize_value value 0;
    Ok (dict_set name s captured).

Fixpoint capture_loop (captured : list (string * snapshot))
    (local_vars : list (string * pyvalue))
  : result (list (string * snapshot)) :=
  match local_vars with
  | [] => Ok captured
  | (name, value) :: rest =>
      captured' ← capture_binding captured name value;
      capture_loop captured' rest
  end.

(** [CodeTracer.capture_locals] *)
Definition capture_locals (local_vars : list (string * pyvalue))
  : result (list (string * snapshot)) :=
  capture_loop [] local_vars.

(** *** The frame recorder *)

(** The ["exception"] entry of a frame. *)
Record exception_info := ExceptionInfo {
  exc_type : string;
  exc_message : string
}.

(** A recorded frame. [return_value] is [None] when the dict has no such
    key, [Some None] when the key holds Python's [None], and
    [Some (Some s)] when it holds a snapshot. *)
Record frame := Frame {
  step : Z;
  line : Z;
  event : event_kind;
  function : string;
  depth : Z;
  variables : list (string * snapshot);
  return_value : option (option snapshot);
  exception : option exception_info
}.

(** The attributes of a [CodeTracer] instance. *)
Record CodeTracer := Tracer {
  self_frames : list frame;
  step_count : Z;
  target_filename : string;
  call_depth : Z
}.

(** [CodeTracer.__init__] *)
Definition init (target_filename : string) : CodeTracer :=
  {| self_frames := []; step_count := 0;
     target_filename := target_filename; call_depth := 0 |}.

(** What the trace function reads from the interpreter's frame object. *)
Record pyframe := PyFrame {
  co_filename : string;
  co_name : string;
  f_lineno : Z;
  f_locals : list (string * pyvalue)
}.

(** The [event] string together with its [arg]. For ["exception"],
    [exc_type] is the name of the exception type ([None] when the type
    object is falsy) and [exc_value] is what [str(exc_value)] does ([None]
    when the value is falsy). [OnOther] is any other event name. *)
Inductive trace_event :=
| OnCall
| OnLine
| OnReturn (arg : pyvalue)
| OnException (exc_type : option string) (exc_value : option (result string))
| OnOther (name : string).

(** What the trace function hands back to the interpreter. *)
Inductive trace_ret := ReturnNone | ReturnTraceFunction.

Definition with_step_count (self : CodeTracer) (n : Z) : CodeTracer :=
  {| self_frames := self_frames self; step_count := n;
     target_filename := target_filename self;
     call_depth := call_depth self |}.
Definition with_call_depth (self : CodeTracer) (d : Z) : CodeTracer :=
  {| self_frames := self_frames self; step_count := step_count self;
     target_filename := target_filename self; call_depth := d |}.
(** [self.frames.append(f)] *)
Definition append_frame (self : CodeTracer) (f : frame) : CodeTracer :=
  {| self_frames := self_frames self ++ [f];
     step_count := step_count self;
     target_filename := target_filename self;
     call_depth := call_depth self |}.

(** [CodeTracer.trace_function]. The tracer is returned as it is after the
    call, also when the call raises: the counters are updated before the
    bindings are serialized. *)
Definition trace_function (self : CodeTracer) (frame : pyframe)
    (event : trace_event) : CodeTracer * result trace_ret :=
  if MAX_STEPS <=? step_count self then (self, Ok ReturnNone)
  else
    let filename := co_filename frame in
    if negb (String.eqb filename (target_filename self)) then
      (self, Ok ReturnTraceFunction)
    else
      let func_name := co_name frame in
      let line_no := f_lineno frame in
      match event with
      | OnCall =>
          let self := with_call_depth self (call_depth self + 1) in
          let self := with_step_count self (step_count self + 1) in
          match capture_locals (f_locals frame) with
          | Raise e => (self, Raise e)
          | Ok vars =>
              (append_frame self
                 {| step := step_count self; line := line_no;
                    event := EvCall; function := func_name;
                    depth := call_depth self; variables := vars;
                    return_value := None; exception := None |},
               Ok ReturnTraceFunction)
          end
      | OnLine =>
          let self := with_step_count self (step_count self + 1) in
          match capture_locals (f_locals frame) with
          | Raise e => (self, Raise e)
          | Ok vars =>
              (append_frame self
                 {| step := step_count self; line := line_no;
                    event := EvLine; function := func_name;
                    depth := call_depth self; variables := vars;
                    return_value := None; exception := None |},
               Ok ReturnTraceFunction)
          end
      | OnReturn arg =>
          let self := with_step_count self (step_count self + 1) in
          let return_value :=
            match arg with
            | PyNone _ => Ok None
            | _ => s ← serialize_value arg 0; Ok (Some s)
            end in
          match return_value with
          | Raise e => (self, Raise e)
          | Ok return_value =>
              match capture_locals (f_locals frame) with
              | Raise e => (self, Raise e)
              | Ok vars =>
                  let self :=
                    append_frame self
                      {| step := step_count self; line := line_no;
                         event := EvReturn; function := func_name;
                         depth := call_depth self; variables := vars;
                         return_value := Some return_value;
                         exception := None |} in
                  (with_call_depth self (Z.max 0 (call_depth self - 1)),
                   Ok ReturnTraceFunction)
              end
          end
      | OnException exc_type exc_value =>
          let self := with_step_count self (step_count self + 1) in
          match capture_locals (f_locals frame) with
          | Raise e => (self, Raise e)
          | Ok vars =>
              let type := default "Unknown" exc_type in
              match default (Ok "") exc_value with
              | Raise e => (self, Raise e)
              | Ok message =>
                  (append_frame self
                     {| step := step_count self; line := line_no;
                        event := EvException; function := func_name;
                        depth := call_depth self; variables := vars;
                        return_value := None;
                        exception := Some (ExceptionInfo type message) |},
                   Ok ReturnTraceFunction)
              end
          end
      | OnOther _ => (self, Ok ReturnTraceFunction)
      end.

(** [CodeTracer.get_trace] *)
Definition get_trace (self : CodeTracer) : list frame := self_frames self.

(** *** Running a program under the tracer *)

(** How [exec] ends: normally, with an exception that [except Exception]
    catches, or with one that it does not catch ([SystemExit],
    [KeyboardInterrupt]). *)
Inductive exec_outcome :=
| Finished
| RaisesException (e : pyexc)
| RaisesBaseException (e : pyexc).

(** One execution of compiled code, as the tracer sees it: the events the
    interpreter reports to the installed trace function, in order, and how
    [exec] ends. The traced program is taken to leave the tracer alone: it
    can reach the object as [__tracer__], but between two events the tracer
    is as the trace function left it. *)
Record execution := Execution {
  events : list (pyframe * trace_event);
  outcome : exec_outcome
}.

(** What [compile(code, "<user_code>", "exec")] does: raise [SyntaxError]
    with [e.msg] and [e.lineno], or give code that runs as [execution]. *)
Inductive compile_result :=
| SyntaxError (msg : string) (lineno : option Z)
| Compiled (run : execution).

(** The interpreter calling the installed trace function event by event.
    An exception that leaves the trace function uninstalls it: no later
    event reaches the tracer. The result is the tracer at the end and that
    exception, if there was one. *)
Fixpoint deliver (tracer : CodeTracer) (evs : list (pyframe * trace_event))
  : CodeTracer * option pyexc :=
  match evs with
  | [] => (tracer, None)
  | (frame, event) :: rest =>
      match trace_function tracer frame event with
      | (tracer', Ok _) => deliver tracer' rest
      | (tracer', Raise e) => (tracer', Some e)
      end
  end.

(** The interpolation of [e.lineno] in an f-string. *)
Definition format_lineno (lineno : option Z) : string :=
  match lineno with
  | Some n => decimal n
  | None => "None"
  end.

(** [trace_code], up to [json.dumps]. It raises when [exec] ends with an
    exception that [except Exception] does not catch. *)
Definition trace_code (code : compile_result) : result (TraceResult frame) :=
  let tracer := init "<user_code>" in
  match code with
  | SyntaxError msg lineno =>
      Ok {| success := false;
            error := Some ("SyntaxError: " +:+ msg +:+ " at line "
                           +:+ format_lineno lineno);
            frames := [] |}
  | Compiled run =>
      let tracer := (deliver tracer (events run)).1 in
      match outcome run with
      | Finished =>
          Ok {| success := true; error := None;
                frames := get_trace tracer |}
      | RaisesException e =>
          Ok {| success := false;
                error := Some (exc_type_name e +:+ ": " +:+ exc_text e);
                frames := get_trace tracer |}
      | RaisesBaseException e => Raise e
      end
  end.

(** *** From Python to JavaScript

    [trace_code] returns the text that [json.dumps] writes for its result,
    and the hook reads that text with [JSON.parse]. The text itself is not
    modelled, only what the two calls do to the result: [json.dumps] raises
    [ValueError] on an integer of more digits than the interpreter converts
    to text; it writes a float that is not finite as [NaN], [Infinity] or
    [-Infinity], on which [JSON.parse] throws a [SyntaxError]; and
    [JSON.parse] reads every number as the nearest double. *)

(** [sys.int_info.default_max_str_digits] of the interpreter. *)
Definition int_max_str_digits : Z := 4300.

(** [json.dumps] can write the integer: it has no more digits than that. *)
Definition dumps_int (n : Z) : bool :=
  Z.of_nat (String.length (decimal (Z.abs n))) <=? int_max_str_digits.

(** The float is finite: its exponent bits are not all set. *)
Definition finite (x : pyfloat) : bool :=
  negb (Z.land (Z.shiftr (float_bits x) 52) 2047 =? 2047).

(** The integer nearest to [n] that a double holds, when the double is
    finite: 53 significant bits, ties to the even one. *)
Definition to_double (n : Z) : Z :=
  let a := Z.abs n in
  let e := Z.log2 a - 52 in
  if e <=? 0 then n
  else
    let q := Z.shiftr a e in
    let r := a - Z.shiftl q e in
    let half := Z.shiftl 1 (e - 1) in
    let q := if (half <? r) || ((r =? half) && Z.odd q) then q + 1 else q in
    Z.sgn n * Z.shiftl q e.

(** The bit patterns of the two infinities. *)
Definition infinity_bits (negative : bool) : Z :=
  if negative then 18442240474082181120 else 9218868437227405312.

(** What [JSON.parse] reads from the decimal text of [n]: the nearest
    double, which is an infinity from [2 ^ 1024] on. *)
Definition read_int (n : Z) : snapval :=
  let d := to_double n in
  if 2 ^ 1024 <=? Z.abs d then VFloat (PyFloatBits (infinity_bits (n <? 0)))
  else VInt d.

(** A test on every number inside the value of a snapshot. *)
Fixpoint numbers (int_ok : Z -> bool) (float_ok : pyfloat -> bool)
    (v : snapval) : bool :=
  match v with
  | VInt n => int_ok n
  | VFloat x => float_ok x
  | VItems items =>
      forallb (fun s => match s with
                        | Snapshot v' _ _ _ _ => numbers int_ok float_ok v'
                        end) items
  | VEntries entries =>
      forallb (fun entry : string * snapshot =>
                 match entry.2 with
                 | Snapshot v' _ _ _ _ => numbers int_ok float_ok v'
                 end) entries
  | _ => true
  end.

(** The value of a snapshot as [JSON.parse] gives it back. An object is
    given by its entries in the order of the text; the order in which
    JavaScript enumerates them is not modelled. *)
Fixpoint parsed_value (v : snapval) : snapval :=
  match v with
  | VInt n => read_int n
  | VItems items =>
      VItems (List.map (fun s => match s with
                                 | Snapshot v' t i l tr =>
                                     Snapshot (parsed_value v') t i l tr
                                 end) items)
  | VEntries entries =>
      VEntries (List.map (fun entry : string * snapshot =>
                            match entry.2 with
                            | Snapshot v' t i l tr =>
                                (entry.1, Snapshot (parsed_value v') t i l tr)
                            end) entries)
  | _ => v
  end.

Definition parsed_snapshot (s : snapshot) : snapshot :=
  match s with
  | Snapshot v t i l tr => Snapshot (parsed_value v) t i l tr
  end.

(** The snapshots of a frame: its variables and its return value. *)
Definition frame_snapshots (f : frame) : list snapshot :=
  (variables f).*2
  ++ match return_value f with
     | Some (Some s) => [s]
     | _ => []
     end.

(** A frame as [JSON.parse] gives it back. The step number, line and depth
    of a frame and the id and length of a snapshot are counters, line
    numbers, addresses and sizes of the interpreter, far below [2 ^ 53]:
    they are read back as they are. *)
Definition parsed_frame (f : frame) : frame :=
  {| step := step f; line := line f; event := event f;
     function := function f; depth := depth f;
     variables := List.map (fun entry : string * snapshot =>
                              (entry.1, parsed_snapshot entry.2))
                           (variables f);
     return_value := option_map (option_map parsed_snapshot)
                                (return_value f);
     exception := exception f |}.

(** [json.dumps] on the result of [trace_code] returns. *)
Definition dumps_returns (result : TraceResult frame) : bool :=
  forallb (fun f => forallb (fun s => numbers dumps_int (fun _ => true)
                                              (sv_value s))
                            (frame_snapshots f))
          (frames result).

(** [JSON.parse] on the text written for the result returns. *)
Definition parse_returns (result : TraceResult frame) : bool :=
  forallb (fun f => forallb (fun s => numbers (fun _ => true) finite
                                              (sv_value s))
                            (frame_snapshots f))
          (frames result).

(** The object that [JSON.parse] returns. *)
Definition parsed (result : TraceResult frame) : TraceResult frame :=
  {| success := success result; error := error result;
     frames := List.map parsed_frame (frames result) |}.

(** *** The [usePyodide] hook *)

(** The three characters that [runCode] escapes. *)
Definition backslash : Ascii.ascii := Ascii.ascii_of_nat 92.
Definition double_quote : Ascii.ascii := Ascii.ascii_of_nat 34.
Definition line_feed : Ascii.ascii := Ascii.ascii_of_nat 10.

(** The first [replace]: every backslash is doubled. *)
Fixpoint escape_backslashes (s : string) : string :=
  match s with
  | EmptyString => EmptyString
  | String ch rest =>
      if Ascii.eqb ch backslash
      then String backslash (String backslash (escape_backslashes rest))
      else String ch (escape_backslashes rest)
  end.

(** The second [replace]: every run of three double quotes, found from the
    left and without overlap, gets a backslash before each of the three. *)
Fixpoint escape_triple_quotes (s : string) : string :=
  match s with
  | EmptyString => EmptyString
  | String c1 s1 =>
      match s1 with
      | String c2 (String c3 rest) =>
          if Ascii.eqb c1 double_quote && Ascii.eqb c2 double_quote
             && Ascii.eqb c3 double_quote
          then String backslash (String double_quote
                 (String backslash (String double_quote
                    (String backslash (String double_quote
                       (escape_triple_quotes rest))))))
          else String c1 (escape_triple_quotes s1)
      | _ => String c1 (escape_triple_quotes s1)
      end
  end.

(** The third [replace]: every line feed becomes a backslash and an [n]. *)
Fixpoint escape_line_feeds (s : string) : string :=
  match s with
  | EmptyString => EmptyString
  | String ch rest =>
      if Ascii.eqb ch line_feed
      then String backslash (String (Ascii.ascii_of_nat 110)
                                    (escape_line_feeds rest))
      else String ch (escape_line_feeds rest)
  end.

Definition escapedCode (code : string) : string :=
  escape_line_feeds (escape_triple_quotes (escape_backslashes code)).

Definition triple_quote : string :=
  String double_quote (String double_quote (String double_quote EmptyString)).

(** The text handed to [runPython]: a call of [trace_code] on a literal in
    triple quotes. *)
Definition pythonCall (code : string) : string :=
  "trace_code(" +:+ triple_quote +:+ escapedCode code +:+ triple_quote
  +:+ ")".

(** Why the [try] block of [runCode] is left for its [catch]: [runPython]
    throws a [PythonError] for the exception that left the call, among them
    the [ValueError] of [json.dumps], or [JSON.parse] throws a
    [SyntaxError]. *)
Inductive hook_error :=
| CallError (e : pyexc)
| DumpError
| ParseError.

(** A loaded Pyodide instance with the tracer script injected, and the
    JavaScript engine it runs on.
    - [read_call] is Python reading the text of the call: the exception it
      raises when the text is no Python, or the text that the literal
      stands for, which [trace_code] is called with. The escaping does not
      make the two agree for every source: the quotes that end a source
      meet the quotes that close the literal.
    - [interpret] is what [compile] and [exec] make of that text.
    - [message] is [err.message] of what running the text of a call throws,
      when that is an [Error]: the text Pyodide gives its [PythonError],
      which is the traceback of the exception, or the text the engine gives
      its [SyntaxError]. *)
Record PyodideInstance := {
  read_call : string -> result string;
  interpret : string -> compile_result;
  message : string -> hook_error -> option string
}.

(** How a [try] block ends. *)
Inductive try_outcome :=
| TryReturns (result : TraceResult frame)
| TryThrows (err : hook_error).

(** [JSON.parse(resultJson)], from the result that [trace_code] dumps. *)
Definition through_json (result : TraceResult frame) : try_outcome :=
  if negb (dumps_returns result) then TryThrows DumpError
  else if negb (parse_returns result) then TryThrows ParseError
  else TryReturns (parsed result).

(** The [try] block of [runCode], up to [setFrames]: the value of [result]
    when it is reached. *)
Definition try_block (pyodide : PyodideInstance) (code : string)
  : try_outcome :=
  match read_call pyodide (pythonCall code) with
  | Raise e => TryThrows (CallError e)
  | Ok source =>
      match trace_code (interpret pyodide source) with
      | Raise e => TryThrows (CallError e)
      | Ok result => through_json result
      end
  end.

(** [err instanceof Error ? err.message : 'Unknown error running code'] *)
Definition errorMessage (pyodide : PyodideInstance) (code : string)
    (err : hook_error) : string :=
  default "Unknown error running code"
          (message pyodide (pythonCall code) err).

(** [runCode] of [usePyodide]; [pyodideRef] is [pyodideRef.current]. *)
Definition runCode (pyodideRef : option PyodideInstance) (code : string)
  : TraceResult frame :=
  match pyodideRef with
  | None =>
      {| success := false; error := Some "Pyodide is not initialized";
         frames := [] |}
  | Some pyodide =>
      match try_block pyodide code with
      | TryReturns result => result
      | TryThrows err =>
          {| success := false; error := Some (errorMessage pyodide code err);
             frames := [] |}
      end
  end.

End PyTracer.

(** ** The C engine ([useCpp]) *)
Module CppEngine.

(** A JavaScript number, as far as [Number.isInteger] and truthiness see it.
    [Frac] is a finite double that is not an integer, by its bit pattern. *)
Inductive jsnum :=
| Int (n : Z)
| Frac (bits : Z)
| NaN
| Infinity (negative : bool).

(** A thrown value: an [Error] with its message, or anything else. *)
Inductive thrown :=
| ThrowError (message : string)
| ThrowOther.

(** JavaScript code that may throw. *)
Inductive completion (A : Type) : Type :=
| Returns (a : A)
| Throws (e : thrown).
Arguments Returns {A} a.
Arguments Throws {A} e.

#[global] Instance completion_ret : MRet completion := fun A a => Returns a.
#[global] Instance completion_bind : MBind completion := fun A B f m =>
  match m with
  | Returns a => f a
  | Throws e => Throws e
  end.

(** The values the debugger can hand to the hook (type [any]). An object is
    its properties in enumeration order, together with what
    [JSON.stringify] with the replacer of [serializeValue] does on it; a
    property holds a value or is an accessor whose read throws. *)
Inductive jsvalue :=
| JsNull
| JsUndefined
| JsFunction
| JsNumber (n : jsnum)
| JsString (s : string)
| JsBoolean (b : bool)
| JsSymbol (description : string)
| JsBigInt (n : Z)
| JsArray (items : list jsvalue)
| JsObject (props : list (string * jsprop)) (json : completion string)
with jsprop :=
| Data (v : jsvalue)
| Getter (e : thrown).

(** [typeof value] *)
Definition typeof (value : jsvalue) : string :=
  match value with
  | JsUndefined => "undefined"
  | JsNull | JsArray _ | JsObject _ _ => "object"
  | JsFunction => "function"
  | JsNumber _ => "number"
  | JsString _ => "string"
  | JsBoolean _ => "boolean"
  | JsSymbol _ => "symbol"
  | JsBigInt _ => "bigint"
  end.

(** Truthiness: [!!value] *)
Definition truthy (value : jsvalue) : bool :=
  match value with
  | JsNull | JsUndefined => false
  | JsNumber (Int n) => negb (n =? 0)
  | JsNumber NaN => false
  | JsString s => negb (String.eqb s "")
  | JsBoolean b => b
  | JsBigInt n => negb (n =? 0)
  | _ => true
  end.

(** [value === null] *)
Definition is_null (value : jsvalue) : bool :=
  match value with
  | JsNull => true
  | _ => false
  end.

(** [Array.isArray(value)] *)
Definition isArray (value : jsvalue) : bool :=
  match value with
  | JsArray _ => true
  | _ => false
  end.

(** [Number.isInteger(n)] *)
Definition isInteger (n : jsnum) : bool :=
  match n with
  | Int _ => true
  | _ => false
  end.

(** Property lookup with the continuation for the found property inlined, so
    that a value read from an object is a part of that object. *)
Section with_prop.
Context {R : Type} (key : string) (found : jsprop -> R) (missing : R).

Fixpoint with_prop (props : list (string * jsprop)) : R :=
  match props with
  | [] => missing
  | (k, p) :: rest => if String.eqb k key then found p else with_prop rest
  end.
End with_prop.

(** [key in value], for a value with [typeof value === 'object'] that is not
    [null]; an array has none of the names the hook asks for. *)
Definition has_prop (key : string) (value : jsvalue) : bool :=
  match value with
  | JsObject props _ => with_prop key (fun _ => true) false props
  | _ => false
  end.

(** [value.key]: reading a property of [null] or [undefined] throws a
    [TypeError]; a primitive or an array has none of the names the hook
    reads ([v], [t], [name], [type], [target]), and the [name] of a function
    value is taken as absent. *)
Definition get_prop (key : string) (value : jsvalue) : completion jsvalue :=
  match value with
  | JsNull =>
      Throws (ThrowError ("Cannot read properties of null (reading '"
                          +:+ key +:+ "')"))
  | JsUndefined =>
      Throws (ThrowError ("Cannot read properties of undefined (reading '"
                          +:+ key +:+ "')"))
  | JsObject props _ =>
      with_prop key (fun p => match p with
                              | Data v => Returns v
                              | Getter e => Throws e
                              end)
                (Returns JsUndefined) props
  | _ => Returns JsUndefined
  end.

(** [value?.key] *)
Definition get_prop_opt (key : string) (value : jsvalue)
  : completion jsvalue :=
  match value with
  | JsNull | JsUndefined => Returns JsUndefined
  | _ => get_prop key value
  end.

(** [String(value)] for the values that reach it. *)
Definition String_ (value : jsvalue) : string :=
  match value with
  | JsSymbol description => "Symbol(" +:+ description +:+ ")"
  | JsBigInt n => decimal n
  | JsString s => s
  | _ => ""
  end.

(** What [serializeValue] puts under [value]: [null], text, a number, or the
    entries built for an array, which hold the raw element. *)
Record item_entry := {
  item_value : jsvalue;
  item_type : string;
  item_id : Z
}.

Inductive payload :=
| PNull
| PText (s : string)
| PNumber (n : jsnum)
| PItems (items : list item_entry).

(** [SerializedValue]; the hook never sets [truncated]. *)
Record SerializedValue := {
  sv_value : payload;
  sv_type : string;
  sv_id : Z;
  sv_length : option Z
}.

(** [ExecutionFrame], with the fields the hook sets. *)
Record ExecutionFrame := {
  step : Z;
  line : Z;
  event : event_kind;
  function : string;
  depth : Z;
  variables : list (string * SerializedValue);
  return_value : option SerializedValue
}.

Definition MAX_STEPS : Z := 1000.

Definition STDLIB_FUNCTIONS : gset string :=
  {[ "printf"; "sprintf"; "fprintf"; "snprintf";
     "scanf"; "sscanf"; "fscanf";
     "getchar"; "putchar"; "gets"; "puts";
     "malloc"; "calloc"; "realloc"; "free";
     "strlen"; "strcpy"; "strcat"; "strcmp"; "strncpy";
     "memset"; "memcpy"; "memmove";
     "abs"; "sqrt"; "pow"; "floor"; "ceil";
     "rand"; "srand"; "exit"; "atoi"; "atof";
     "cout"; "cin"; "endl"; "cerr"; "clog";
     "std"; "using"; "namespace" ]}.

(** The double quote character as text. *)
Definition dquote : string := String (Ascii.ascii_of_nat 34) EmptyString.

(** [name || type], for a [name] that is text whenever it is truthy, as the
    declared type [string] of the parameter it is passed for has it. *)
Definition name_or (name : jsvalue) (type : string) : string :=
  match name with
  | JsString s => if String.eqb s "" then type else s
  | _ => type
  end.

(** The type tag of an array element. *)
Definition item_type_of (itemValue : jsvalue) : string :=
  match itemValue with
  | JsNumber n => if isInteger n then "int" else "float"
  | _ => typeof itemValue
  end.

(** The callback of [value.map] in the array branch. *)
Definition serialize_item (id : Z) (item : jsvalue) (idx : Z)
  : completion item_entry :=
  itemValue ← (if String.eqb (typeof item) "object"
                  && negb (is_null item) && has_prop "v" item
               then get_prop "v" item else Returns item);
  Returns {| item_value := itemValue; item_type := item_type_of itemValue;
             item_id := id + idx + 1 |}.

(** [value.map(callback)] of the array branch, from index [idx] on. *)
Fixpoint serialize_items (id : Z) (items : list jsvalue) (idx : Z)
  : completion (list item_entry) :=
  match items with
  | [] => Returns []
  | item :: rest =>
      entry ← serialize_item id item idx;
      entries ← serialize_items id rest (idx + 1);
      Returns (entry :: entries)
  end.

(** [name?.includes('function')] as a condition: text is searched, an array
    is searched for the element ['function'], [null] and [undefined] give
    [undefined]; any other value has no such method (an object is taken to
    have none) and the call throws. *)
Definition includes_function (name : jsvalue) : completion bool :=
  match name with
  | JsNull | JsUndefined => Returns false
  | JsString s => Returns (str_includes "function" s)
  | JsArray items =>
      Returns (existsb (fun item => match item with
                                    | JsString s => String.eqb s "function"
                                    | _ => false
                                    end) items)
  | _ => Throws (ThrowError "typeInfo.name?.includes is not a function")
  end.

(** [isFunction] of [runCode] *)
Definition isFunction (varData : jsvalue) : completion bool :=
  if negb (truthy varData) || negb (String.eqb (typeof varData) "object")
  then Returns false
  else
    v_is_function ←
      (if has_prop "v" varData
       then v ← get_prop "v" varData;
            Returns (String.eqb (typeof v) "function")
       else Returns false);
    if v_is_function : bool then Returns true
    else
      name_is_string ←
        (if has_prop "name" varData
         then name ← get_prop "name" varData;
              Returns (String.eqb (typeof name) "string")
         else Returns false);
      if name_is_string : bool then Returns true
      else
        has_type_info ←
          (if has_prop "t" varData
           then t ← get_prop "t" varData; Returns (truthy t)
           else Returns false);
        if has_type_info : bool then
          typeInfo ← get_prop "t" varData;
          type ← get_prop "type" typeInfo;
          if match type with
             | JsString s => String.eqb s "function"
             | _ => false
             end
          then Returns true
          else
            name ← get_prop "name" typeInfo;
            included ← includes_function name;
            Returns included
        else Returns false.

(** [Object.entries(allVars)]: reading an accessor property throws. *)
Fixpoint entries_of_props (props : list (string * jsprop))
  : completion (list (string * jsvalue)) :=
  match props with
  | [] => Returns []
  | (k, Data v) :: rest =>
      entries ← entries_of_props rest; Returns ((k, v) :: entries)
  | (_, Getter e) :: _ => Throws e
  end.

Fixpoint entries_of_items (items : list jsvalue) (idx : Z)
  : list (string * jsvalue) :=
  match items with
  | [] => []
  | item :: rest => (decimal idx, item) :: entries_of_items rest (idx + 1)
  end.

Definition Object_entries (o : jsvalue)
  : completion (list (string * jsvalue)) :=
  match o with
  | JsObject props _ => entries_of_props props
  | JsArray items => Returns (entries_of_items items 0)
  | _ => Returns []
  end.

(** White space that [trim] removes, among the characters of [string]. *)
Definition is_white_space (c : Ascii.ascii) : bool :=
  let n := Ascii.nat_of_ascii c in
  ((9 <=? n) && (n <=? 13) || (n =? 32) || (n =? 160))%nat.

Fixpoint trim_start (s : string) : string :=
  match s with
  | String c s' => if is_white_space c then trim_start s' else s
  | EmptyString => EmptyString
  end.

Fixpoint trim_end (s : string) : string :=
  match s with
  | EmptyString => EmptyString
  | String c s' =>
      match trim_end s' with
      | EmptyString => if is_white_space c then EmptyString
                       else String c EmptyString
      | t => String c t
      end
  end.

(** [s.trim()] *)
Definition trim (s : string) : string := trim_end (trim_start s).

(** The random source of the host: [random_id n] is what
    [Math.floor(Math.random() * 1000000000)] gives at its [n]-th evaluation
    (from 0). *)
Section host.
Variable random_id : nat -> Z.

(** [serializeValue]; [draws] counts the random numbers drawn so far. The
    whole body after the draw of [id] is inside [try], with [on_error] as its
    [catch]. *)
Fixpoint serializeValue (value : jsvalue) (type : string) (draws : nat)
    {struct value} : SerializedValue * nat :=
  let id := random_id draws in
  let draws := S draws in
  let simple (v : payload) (t : string) :=
    ({| sv_value := v; sv_type := t; sv_id := id; sv_length := None |},
     draws) in
  let on_error := simple (PText "[error]") "error" in
  let struct_ (json : completion string) :=
    let jsonStr := match json with
                   | Returns s => s
                   | Throws _ => "[object]"
                   end in
    simple (PText jsonStr) "struct" in
  match value with
  | JsNull | JsUndefined => simple PNull "null"
  | JsFunction => simple (PText "[function]") "function"
  | JsObject props json =>
      with_prop "v"
        (fun p =>
           match p with
           | Getter _ => on_error
           | Data actualValue =>
               if String.eqb (typeof actualValue) "function"
               then simple (PText "[function]") "function"
               else
                 match t ← get_prop "t" value; get_prop_opt "name" t with
                 | Throws _ => on_error
                 | Returns name =>
                     let actualType := name_or name type in
                     serializeValue actualValue actualType draws
                 end
           end)
        (with_prop "target"
           (fun p =>
              match p with
              | Getter _ => on_error
              | Data target =>
                  if truthy target && isArray target
                  then serializeValue target "array" draws
                  else struct_ json
              end)
           (struct_ json) props)
        props
  | JsArray items =>
      match serialize_items id items 0 with
      | Throws _ => on_error
      | Returns entries =>
          ({| sv_value := PItems entries; sv_type := "array"; sv_id := id;
              sv_length := Some (Z.of_nat (List.length items)) |}, draws)
      end
  | JsNumber n => simple (PNumber n) (if isInteger n then "int" else "float")
  | JsString s => simple (PText s) "char*"
  | JsBoolean b => simple (PNumber (Int (if b then 1 else 0))) "bool"
  | JsSymbol _ | JsBigInt _ =>
      simple (PText (String_ value))
             (if String.eqb type "" then "unknown" else type)
  end.

(** The test that drops an empty or function-like struct. *)
Definition is_skipped_struct (serialized : SerializedValue) : bool :=
  String.eqb (sv_type serialized) "struct"
  && match sv_value serialized with
     | PText strValue =>
         str_includes "function" strValue
         || String.eqb strValue "{}"
         || str_includes (dquote +:+ "name" +:+ dquote) strValue
     | _ => false
     end.

(** The [for] loop over [Object.entries(allVars)]. A throw of [isFunction]
    leaves the loop and keeps what [variables] holds by then. *)
Fixpoint capture_loop (variables : list (string * SerializedValue))
    (draws : nat) (entries : list (string * jsvalue))
  : list (string * SerializedValue) * nat :=
  match entries with
  | [] => (variables, draws)
  | (name, varData) :: rest =>
      if String.prefix "_" name || String.eqb name "this"
      then capture_loop variables draws rest
      else if bool_decide (name ∈ STDLIB_FUNCTIONS)
      then capture_loop variables draws rest
      else
        match isFunction varData with
        | Throws _ => (variables, draws)
        | Returns true => capture_loop variables draws rest
        | Returns false =>
            let '(serialized, draws) :=
              serializeValue varData "unknown" draws in
            if is_skipped_struct serialized
            then capture_loop variables draws rest
            else if String.eqb (sv_type serialized) "null"
            then capture_loop variables draws rest
            else capture_loop (dict_set name serialized variables) draws rest
        end
  end.

(** The [try] block that fills [variables] from [debugger.variable()]. *)
Definition capture_variables (variable : completion jsvalue) (draws : nat)
  : list (string * SerializedValue) * nat :=
  match variable with
  | Throws _ => ([], draws)
  | Returns allVars =>
      if truthy allVars && String.eqb (typeof allVars) "object" then
        match Object_entries allVars with
        | Throws _ => ([], draws)
        | Returns entries => capture_loop [] draws entries
        end
      else ([], draws)
  end.

(** *** Stepping the debugger *)

(** What [debugger.next()] returns: [false] while there is more to do, or
    the exit code. *)
Inductive next_result :=
| StepFalse
| StepExit (v : Z).

(** What the hook observes at one iteration of its loop: the call of
    [next()], the text that call passes to [stdio.write], and then
    [nextNode()] (its [sLine], or [None] for [null]), [variable()] and
    [done]. *)
Record observation := {
  next : completion next_result;
  written : string;
  nextNode : option Z;
  variable : completion jsvalue;
  done : bool
}.

(** A debugger instance: what the [n]-th call of [next()] (from 0) and the
    reads that follow it give. *)
Definition JSCPPDebugger : Type := nat -> observation.

(** The local variables of [runCode]. *)
Record run_state := {
  capturedFrames : list ExecutionFrame;
  stepCount : Z;
  output : string;
  lastLine : Z;
  random_draws : nat
}.

Definition initial_state (draws : nat) : run_state :=
  {| capturedFrames := []; stepCount := 0; output := ""; lastLine := 0;
     random_draws := draws |}.

(** How the [do ... while] loop is left: by [break] or its condition, by a
    throw of [next()], or not within the iterations allowed. *)
Inductive loop_exit :=
| LoopLeft
| LoopThrew (e : thrown)
| LoopRunning.

(** The [do ... while] loop, for at most [fuel] iterations. *)
Fixpoint stepping (fuel : nat) (debuggerInstance : JSCPPDebugger)
    (st : run_state) : run_state * loop_exit :=
  match fuel with
  | O => (st, LoopRunning)
  | S fuel' =>
      let obs := debuggerInstance (Z.to_nat (stepCount st)) in
      let output := output st +:+ written obs in
      match next obs with
      | Throws e =>
          ({| capturedFrames := capturedFrames st; stepCount := stepCount st;
              output := output; lastLine := lastLine st;
              random_draws := random_draws st |}, LoopThrew e)
      | Returns stepResult =>
          let stepCount := stepCount st + 1 in
          if MAX_STEPS <? stepCount then
            ({| capturedFrames := capturedFrames st; stepCount := stepCount;
                output := output; lastLine := lastLine st;
                random_draws := random_draws st |}, LoopLeft)
          else
            let currentLine := default (lastLine st) (nextNode obs) in
            let lastLine := default (lastLine st) (nextNode obs) in
            let '(variables, draws) :=
              capture_variables (variable obs) (random_draws st) in
            let capturedFrames :=
              if (0 <? currentLine) || (0 <? Z.of_nat (List.length variables))
              then capturedFrames st ++
                   [{| step := stepCount; line := currentLine;
                       event := EvLine; function := "main"; depth := 1;
                       variables := variables; return_value := None |}]
              else capturedFrames st in
            let st := {| capturedFrames := capturedFrames;
                         stepCount := stepCount; output := output;
                         lastLine := lastLine; random_draws := draws |} in
            match stepResult with
            | StepFalse =>
                if negb (done obs) then stepping fuel' debuggerInstance st
                else (st, LoopLeft)
            | StepExit _ => (st, LoopLeft)
            end
      end
  end.

(** What [jscpp.run(code, '', config)] returns: an exit code, or a debugger
    when debug mode is on. *)
Inductive run_value :=
| ExitCode (n : Z)
| Debugger (debuggerInstance : JSCPPDebugger).

(** The JSCPP module: what [run] does with a source text. *)
Record JSCPPModule := { run : string -> completion run_value }.

(** [loadJSCPP]: [JSCPP] is the module-level cache and [import_JSCPP] what
    the dynamic import gives when it is needed. *)
Definition loadJSCPP (JSCPP : option JSCPPModule)
    (import_JSCPP : completion JSCPPModule) : completion JSCPPModule :=
  match JSCPP with
  | Some module => Returns module
  | None => import_JSCPP
  end.

(** [err instanceof Error ? err.message : 'Unknown error running C code'] *)
Definition errorMessage (err : thrown) : string :=
  match err with
  | ThrowError message => message
  | ThrowOther => "Unknown error running C code"
  end.

(** The frame pushed after the loop when [output] is not empty. *)
Definition final_frame (st : run_state) : ExecutionFrame :=
  {| step := stepCount st + 1; line := 0; event := EvReturn;
     function := "main"; depth := 0; variables := [];
     return_value := Some {| sv_value := PText (trim (output st));
                             sv_type := "stdout"; sv_id := 0;
                             sv_length := None |} |}.

(** The iterations [runCode] can make: the loop breaks once [stepCount]
    exceeds [MAX_STEPS]. *)
Definition loop_bound : nat := Z.to_nat (MAX_STEPS + 1).

(** [isReady] of [useCpp]: the state is created as [true] and has no
    setter. *)
Definition isReady : bool := true.

(** [runCode] of [useCpp]. *)
Definition runCode (JSCPP : option JSCPPModule)
    (import_JSCPP : completion JSCPPModule) (code : string) (draws : nat)
  : TraceResult ExecutionFrame :=
  match loadJSCPP JSCPP import_JSCPP with
  | Throws err =>
      {| success := false; error := Some (errorMessage err); frames := [] |}
  | Returns jscpp =>
      match run jscpp code with
      | Throws err =>
          {| success := false; error := Some (errorMessage err);
             frames := [] |}
      | Returns (ExitCode _) =>
          {| success := false;
             error := Some "Debug mode is not available. Check JSCPP configuration.";
             frames := [] |}
      | Returns (Debugger debuggerInstance) =>
          match stepping loop_bound debuggerInstance (initial_state draws) with
          | (st, LoopThrew err) =>
              {| success := false; error := Some (errorMessage err);
                 frames := capturedFrames st |}
          | (st, _) =>
              let capturedFrames :=
                if negb (String.eqb (output st) "")
                then capturedFrames st ++ [final_frame st]
                else capturedFrames st in
              {| success := true; error := None; frames := capturedFrames |}
          end
      end
  end.

End host.

End CppEngine.

(** ** Routing between the engines ([useCodeRunner]) *)

Inductive Language := python | c.

(** What [usePyodide] exposes to the router: its [isReady] state and the
    instance its [runCode] closes over. *)
Record PyodideHook := {
  isReady : bool;
  pyodideRef : option PyTracer.PyodideInstance
}.

(** What [useCpp] exposes to the router, with the host it runs on. *)
Record CppHook := {
  random_id : nat -> Z;
  JSCPP : option CppEngine.JSCPPModule;
  import_JSCPP : CppEngine.completion CppEngine.JSCPPModule;
  random_draws : nat
}.

(** [runCode] of [useCodeRunner] *)
Definition runCode (pyodide : PyodideHook) (cpp : CppHook) (code : string)
    (language : Language)
  : TraceResult PyTracer.frame + TraceResult CppEngine.ExecutionFrame :=
  match language with
  | python =>
      if negb (isReady pyodide) then
        inl {| success := false;
               error := Some "Python engine (Pyodide) is not ready yet. Please wait...";
               frames := [] |}
      else inl (PyTracer.runCode (pyodideRef pyodide) code)
  | c =>
      inr (CppEngine.runCode (random_id cpp) (JSCPP cpp) (import_JSCPP cpp)
             code (random_draws cpp))
  end.

(** ** Notions used to state the properties *)

(** Step numbers count from one without a gap: [frames[i].step == i + 1]. *)
Definition steps_from_one {F : Type} (step : F -> Z) (fs : list F) : Prop :=
  ∀ (i : nat) (f : F), fs !! i = Some f → step f = Z.of_nat i + 1.

(** Step numbers are strictly increasing along the trace. *)
Definition steps_increasing {F : Type} (step : F -> Z) (fs : list F) : Prop :=
  ∀ (i j : nat) (f g : F),
    (i < j)%nat → fs !! i = Some f → fs !! j = Some g → step f < step g.


(** An event that the Python recorder turns into a frame when it is below
    the ceiling: one of the four kinds it handles, raised in the target
    file. *)
Definition recordable (target : string)
    (ev : PyTracer.pyframe * PyTracer.trace_event) : bool :=
  String.eqb (PyTracer.co_filename ev.1) target
  && match ev.2 with
     | PyTracer.OnOther _ => false
     | _ => true
     end.


(** A binding that passes the filter of [capture_locals]: its name is not
    on the denylist and its value is not a callable other than a list, dict
    or set. *)
Definition kept (name : string) (value : PyTracer.pyvalue) : bool :=
  negb (bool_decide (name ∈ PyTracer.IGNORED_VARS))
  && negb (PyTracer.callable value && negb (PyTracer.is_list_dict_set value)).

(** The counter of the Python tracer is the number of frames recorded, and
    the frames are numbered from one. *)
Definition counted (self : PyTracer.CodeTracer) : Prop :=
  PyTracer.step_count self = PyTracer.len (PyTracer.self_frames self)
  ∧ steps_from_one PyTracer.step (PyTracer.self_frames self).

(** The text passed to [stdio.write] by the first [n] calls of [next()]. *)
Fixpoint accumulated (dbg : CppEngine.JSCPPDebugger) (n : nat) : string :=
  match n with
  | O => ""
  | S k => accumulated dbg k +:+ CppEngine.written (dbg k)
  end.

(** The shape of a frame pushed inside the stepping loop of the C engine. *)
Definition stepping_frame (f : CppEngine.ExecutionFrame) : Prop :=
  CppEngine.event f = EvLine ∧ CppEngine.function f = "main"
  ∧ CppEngine.depth f = 1 ∧ CppEngine.return_value f = None.

(** The shape of the frame pushed after the loop for the output [out]. *)
Definition stdout_frame (out : string) (f : CppEngine.ExecutionFrame) : Prop :=
  CppEngine.event f = EvReturn ∧ CppEngine.function f = "main"
  ∧ CppEngine.depth f = 0 ∧ CppEngine.line f = 0
  ∧ CppEngine.variables f = []
  ∧ CppEngine.return_value f
    = Some {| CppEngine.sv_value := CppEngine.PText (CppEngine.trim out);
              CppEngine.sv_type := "stdout"; CppEngine.sv_id := 0;
              CppEngine.sv_length := None |}.

(** What holds of the variables of [runCode] between two iterations of the
    stepping loop. *)
Record stepped (st : CppEngine.run_state) : Prop := {
  stepped_count : 0 ≤ CppEngine.stepCount st;
  stepped_frames :
    Forall (λ f, stepping_frame f
                 ∧ 1 ≤ CppEngine.step f ≤ CppEngine.stepCount st
                 ∧ CppEngine.step f ≤ CppEngine.MAX_STEPS)
           (CppEngine.capturedFrames st);
  stepped_increasing :
    steps_increasing CppEngine.step (CppEngine.capturedFrames st)
}.


(** The stepping loop makes [n + 1] calls of [next()]: every call before
    the last returns [false] and leaves the debugger not done, and the last
    is call number [MAX_STEPS + 1], or throws, or returns an exit code, or
    leaves the debugger done. *)
Definition last_call (dbg : CppEngine.JSCPPDebugger) (n : nat) : Prop :=
  (∀ k : nat, (k < n)%nat →
     CppEngine.next (dbg k) = CppEngine.Returns CppEngine.StepFalse
     ∧ CppEngine.done (dbg k) = false)
  ∧ Z.of_nat n ≤ CppEngine.MAX_STEPS
  ∧ (Z.of_nat n = CppEngine.MAX_STEPS
     ∨ CppEngine.next (dbg n) ≠ CppEngine.Returns CppEngine.StepFalse
     ∨ CppEngine.done (dbg n) = true).


(** What the return branch of the trace function puts under
    [return_value]: Python's [None] for a returned [None], the snapshot of
    the value otherwise. *)
Definition returned (arg : PyTracer.pyvalue)
  : PyTracer.result (option PyTracer.snapshot) :=
  match arg with
  | PyTracer.PyNone _ => PyTracer.Ok None
  | _ => s ← PyTracer.serialize_value arg 0; PyTracer.Ok (Some s)
  end.

(** The effect of one call of the Python trace function on the tracer. *)
Inductive trace_effect (self : PyTracer.CodeTracer)
  : PyTracer.CodeTracer * PyTracer.result PyTracer.trace_ret -> Prop :=
| effect_ignored rt :
    trace_effect self (self, PyTracer.Ok rt)
| effect_raised self' e :
    PyTracer.self_frames self' = PyTracer.self_frames self ->
    PyTracer.target_filename self' = PyTracer.target_filename self ->
    trace_effect self (self', PyTracer.Raise e)
| effect_recorded self' f rt :
    PyTracer.step_count self < PyTracer.MAX_STEPS ->
    PyTracer.self_frames self' = PyTracer.self_frames self ++ [f] ->
    PyTracer.step f = PyTracer.step_count self + 1 ->
    PyTracer.step_count self' = PyTracer.step_count self + 1 ->
    PyTracer.target_filename self' = PyTracer.target_filename self ->
    trace_effect self (self', PyTracer.Ok rt).

(** ** Sample runs

    Concrete inputs on which the properties below are evaluated. *)

(** A random source: the [n]-th draw is [n]. *)
Definition sample_random (n : nat) : Z := Z.of_nat n.

(** A JSCPP [int] variable holding [n]: [{t: {type, name: 'int'}, v: n}]. *)
Definition int_variable (n : Z) : CppEngine.jsvalue :=
  CppEngine.JsObject
    [("t", CppEngine.Data
             (CppEngine.JsObject
                [("type", CppEngine.Data (CppEngine.JsString "primitive"));
                 ("name", CppEngine.Data (CppEngine.JsString "int"))]
                (CppEngine.Returns "{}")));
     ("v", CppEngine.Data (CppEngine.JsNumber (CppEngine.Int n)))]
    (CppEngine.Returns "{}").

(** A debugger whose first step has no node and no variable, and whose
    second step stops at line 3 with [x = 5] and finishes. *)
Definition skipping_debugger : CppEngine.JSCPPDebugger := fun n =>
  match n with
  | O => {| CppEngine.next := CppEngine.Returns CppEngine.StepFalse;
            CppEngine.written := "";
            CppEngine.nextNode := None;
            CppEngine.variable :=
              CppEngine.Returns
                (CppEngine.JsObject [] (CppEngine.Returns "{}"));
            CppEngine.done := false |}
  | S _ => {| CppEngine.next := CppEngine.Returns (CppEngine.StepExit 0);
              CppEngine.written := "";
              CppEngine.nextNode := Some 3;
              CppEngine.variable :=
                CppEngine.Returns
                  (CppEngine.JsObject
                     [("x", CppEngine.Data (int_variable 5));
                      ("printf", CppEngine.Data CppEngine.JsFunction)]
                     (CppEngine.Returns "{}"));
              CppEngine.done := true |}
  end.

(** A debugger of a program that loops forever on line 2, writing ["x"] at
    every step, with [i = 5]. *)
Definition printing_debugger : CppEngine.JSCPPDebugger := fun _ =>
  {| CppEngine.next := CppEngine.Returns CppEngine.StepFalse;
     CppEngine.written := "x";
     CppEngine.nextNode := Some 2;
     CppEngine.variable :=
       CppEngine.Returns
         (CppEngine.JsObject [("i", CppEngine.Data (int_variable 5))]
            (CppEngine.Returns "{}"));
     CppEngine.done := false |}.

(** A JSCPP module that runs every source under the given debugger. *)
Definition module_of (dbg : CppEngine.JSCPPDebugger) : CppEngine.JSCPPModule :=
  {| CppEngine.run := fun _ => CppEngine.Returns (CppEngine.Debugger dbg) |}.

(** A text of 101 characters, all [a]. *)
Definition long_text : string :=
  Nat.iter 101 (String (Ascii.ascii_of_nat 97)) "".

(** A dict with one key whose [str(k)] raises [ValueError]. *)
Definition unprintable_key_dict : PyTracer.pyvalue :=
  PyTracer.PyDict 21
    [(PyTracer.KeyOther (PyTracer.Raise (PyTracer.PyExc "ValueError" "no text")),
      PyTracer.PyInt 11 1)].






(** The frame object of a line of module-level user code with [x = 1]. *)
Definition user_frame (line_no : Z) : PyTracer.pyframe :=
  {| PyTracer.co_filename := "<user_code>"; PyTracer.co_name := "<module>";
     PyTracer.f_lineno := line_no;
     PyTracer.f_locals := [("x", PyTracer.PyInt 11 1)] |}.

(** A program that reports 1001 line events and ends normally. *)
Definition looping_run : PyTracer.execution :=
  {| PyTracer.events := repeat (user_frame 2, PyTracer.OnLine) 1001;
     PyTracer.outcome := PyTracer.Finished |}.

(** The events of a program that enters a function and is still in it
    when the ceiling is reached: one call and 999 lines. *)
Definition deep_events : list (PyTracer.pyframe * PyTracer.trace_event) :=
  (user_frame 1, PyTracer.OnCall)
  :: repeat (user_frame 2, PyTracer.OnLine) 999.

(** A program of one call, one line and one return of the value 7. *)
Definition short_run : PyTracer.execution :=
  {| PyTracer.events :=
       [(user_frame 1, PyTracer.OnCall); (user_frame 1, PyTracer.OnLine);
        (user_frame 1, PyTracer.OnReturn (PyTracer.PyInt 12 7))];
     PyTracer.outcome := PyTracer.Finished |}.

(** How Python reads the call for a source without backslash, double quote
    or line break: the text between the triple quotes. *)
Definition plain_source (pythonCall : string) : PyTracer.result string :=
  PyTracer.Ok (String.substring 14 (String.length pythonCall - 18)
                                pythonCall).

(** Messages for what the hook catches. *)
Definition sample_message (pythonCall : string) (err : PyTracer.hook_error)
  : option string :=
  Some match err with
       | PyTracer.CallError e =>
           "Traceback (most recent call last): " +:+ PyTracer.exc_type_name e
           +:+ ": " +:+ PyTracer.exc_text e
       | PyTracer.DumpError =>
           "Traceback (most recent call last): ValueError: Exceeds the limit for integer string conversion"
       | PyTracer.ParseError => "Unexpected token N in JSON"
       end.

(** An instance on which every source compiles and runs as [code]. *)
Definition instance_of (code : PyTracer.compile_result)
  : PyTracer.PyodideInstance :=
  {| PyTracer.read_call := plain_source;
     PyTracer.interpret := fun _ => code;
     PyTracer.message := sample_message |}.

(** An interpreter that rejects every source at line 1. *)
Definition rejecting_pyodide : PyTracer.PyodideInstance :=
  instance_of (PyTracer.SyntaxError "invalid syntax" (Some 1)).

(** ** The hooks as state, and the application

    The parts of the hooks and of [App] that the definitions above leave
    out: what the hooks keep between calls, how the router combines them,
    and the cursor of the application over a result. A [useState] value is
    what it holds once the updates made by a call are applied; a ref and a
    module-level variable change at once. *)

(** Building and reading a [TraceResult] where its field names are taken. *)
Definition trace_result {F : Type} (ok : bool) (message : option string)
    (fs : list F) : TraceResult F :=
  {| success := ok; error := message; frames := fs |}.
Definition result_success {F : Type} (r : TraceResult F) : bool := success r.
Definition result_frames {F : Type} (r : TraceResult F) : list F := frames r.

(** *** [usePyodide] *)
Module UsePyodide.

(** What the awaited part of [initialize] comes to: the instance with the
    tracer script injected, or what one of its three steps threw. *)
Inductive init_outcome :=
| Initialized (pyodide : PyTracer.PyodideInstance)
| InitFailed (err : CppEngine.thrown).

(** The state of the hook: four [useState] values and two refs. *)
Record hook := {
  isLoading : bool;
  isReady : bool;
  error : option string;
  frames : option (list PyTracer.frame);
  pyodideRef : option PyTracer.PyodideInstance;
  initializingRef : bool
}.

(** The hook when the component mounts. *)
Definition mounted : hook :=
  {| isLoading := true; isReady := false; error := None; frames := None;
     pyodideRef := None; initializingRef := false |}.

(** [initialize] up to its first [await]: [None] when the guard returns at
    once. *)
Definition initialize_begin (h : hook) : option hook :=
  if initializingRef h || bool_decide (is_Some (pyodideRef h)) then None
  else Some {| isLoading := true; isReady := isReady h; error := None;
               frames := frames h; pyodideRef := pyodideRef h;
               initializingRef := true |}.

(** [err instanceof Error ? err.message : 'Unknown error initializing
    Pyodide'] *)
Definition errorMessage (err : CppEngine.thrown) : string :=
  match err with
  | CppEngine.ThrowError message => message
  | CppEngine.ThrowOther => "Unknown error initializing Pyodide"
  end.

(** [initialize] after its awaits: the [try] body or the [catch], then the
    [finally]. *)
Definition initialize_settle (h : hook) (outcome : init_outcome) : hook :=
  match outcome with
  | Initialized pyodide =>
      {| isLoading := false; isReady := true; error := error h;
         frames := frames h; pyodideRef := Some pyodide;
         initializingRef := false |}
  | InitFailed err =>
      {| isLoading := false; isReady := isReady h;
         error := Some (errorMessage err); frames := frames h;
         pyodideRef := pyodideRef h; initializingRef := false |}
  end.

(** A call of [initialize] that nothing interleaves with. *)
Definition initialize (h : hook) (outcome : init_outcome) : hook :=
  match initialize_begin h with
  | None => h
  | Some started => initialize_settle started outcome
  end.

(** [runCode] with the state it leaves: [setFrames] is reached when
    [JSON.parse] has returned, and the [catch] sets no state. *)
Definition runCode (h : hook) (code : string)
  : TraceResult PyTracer.frame * hook :=
  match pyodideRef h with
  | None => (trace_result false (Some "Pyodide is not initialized") [], h)
  | Some pyodide =>
      match PyTracer.try_block pyodide code with
      | PyTracer.TryReturns result =>
          (result,
           {| isLoading := isLoading h; isReady := isReady h;
              error := error h; frames := Some (result_frames result);
              pyodideRef := pyodideRef h;
              initializingRef := initializingRef h |})
      | PyTracer.TryThrows err =>
          (trace_result false (Some (PyTracer.errorMessage pyodide code err))
                        [], h)
      end
  end.

(** [reinitialize], with nothing interleaved. *)
Definition reinitialize (h : hook) (outcome : init_outcome) : hook :=
  initialize {| isLoading := isLoading h; isReady := false;
                error := error h; frames := None; pyodideRef := None;
                initializingRef := false |} outcome.

End UsePyodide.

(** *** [useCpp] *)
Module UseCpp.

(** The two [useState] values that [runCode] sets besides [isLoading], the
    module-level cache [JSCPP], and how many random numbers have been drawn
    on the page. *)
Record hook := {
  isLoading : bool;
  error : option string;
  frames : option (list CppEngine.ExecutionFrame);
  JSCPP : option CppEngine.JSCPPModule;
  draws : nat
}.

(** The cache after [loadJSCPP]. *)
Definition cache_after (cache : option CppEngine.JSCPPModule)
    (import_JSCPP : CppEngine.completion CppEngine.JSCPPModule)
  : option CppEngine.JSCPPModule :=
  match cache with
  | Some module => Some module
  | None =>
      match import_JSCPP with
      | CppEngine.Returns module => Some module
      | CppEngine.Throws _ => None
      end
  end.

(** [runCode] with the state it leaves. The [catch] sets [error] and
    [frames]; the return for a missing debug mode sets neither. *)
Definition runCode (random_id : nat -> Z) (h : hook)
    (import_JSCPP : CppEngine.completion CppEngine.JSCPPModule)
    (code : string) : TraceResult CppEngine.ExecutionFrame * hook :=
  let cache := cache_after (JSCPP h) import_JSCPP in
  let caught (err : CppEngine.thrown)
      (capturedFrames : list CppEngine.ExecutionFrame) (drawn : nat) :=
    (trace_result false (Some (CppEngine.errorMessage err)) capturedFrames,
     {| isLoading := false; error := Some (CppEngine.errorMessage err);
        frames := Some capturedFrames; JSCPP := cache; draws := drawn |}) in
  match CppEngine.loadJSCPP (JSCPP h) import_JSCPP with
  | CppEngine.Throws err => caught err [] (draws h)
  | CppEngine.Returns jscpp =>
      match CppEngine.run jscpp code with
      | CppEngine.Throws err => caught err [] (draws h)
      | CppEngine.Returns (CppEngine.ExitCode _) =>
          (trace_result false
             (Some "Debug mode is not available. Check JSCPP configuration.")
             [],
           {| isLoading := false; error := None; frames := frames h;
              JSCPP := cache; draws := draws h |})
      | CppEngine.Returns (CppEngine.Debugger debuggerInstance) =>
          match CppEngine.stepping random_id CppEngine.loop_bound
                  debuggerInstance (CppEngine.initial_state (draws h)) with
          | (st, CppEngine.LoopThrew err) =>
              caught err (CppEngine.capturedFrames st)
                     (CppEngine.random_draws st)
          | (st, _) =>
              let capturedFrames :=
                if negb (String.eqb (CppEngine.output st) "")
                then CppEngine.capturedFrames st
                     ++ [CppEngine.final_frame st]
                else CppEngine.capturedFrames st in
              (trace_result true None capturedFrames,
               {| isLoading := false; error := None;
                  frames := Some capturedFrames; JSCPP := cache;
                  draws := CppEngine.random_draws st |})
          end
      end
  end.

End UseCpp.

(** *** What [useCodeRunner] returns besides [runCode] *)
Module UseCodeRunner.

(** [pyodide.frames || cpp.frames]: an array is truthy, also when empty. *)
Definition frames (pyodide : UsePyodide.hook) (cpp : UseCpp.hook)
  : option (list PyTracer.frame + list CppEngine.ExecutionFrame) :=
  match UsePyodide.frames pyodide with
  | Some fs => Some (inl fs)
  | None =>
      match UseCpp.frames cpp with
      | Some fs => Some (inr fs)
      | None => None
      end
  end.

(** [pyodide.isLoading || cpp.isLoading] *)
Definition isLoading (pyodide : UsePyodide.hook) (cpp : UseCpp.hook) : bool :=
  UsePyodide.isLoading pyodide || UseCpp.isLoading cpp.

End UseCodeRunner.

(** *** [App]: the result on display and its cursor *)
Module App.

(** A result of either engine, as [runCode] of the router returns it. *)
Definition trace : Type :=
  (TraceResult PyTracer.frame + TraceResult CppEngine.ExecutionFrame)%type.

(** [result.frames.length] *)
Definition frame_count (r : trace) : Z :=
  match r with
  | inl r => Z.of_nat (List.length (result_frames r))
  | inr r => Z.of_nat (List.length (result_frames r))
  end.

(** [result.success] *)
Definition succeeded (r : trace) : bool :=
  match r with
  | inl r => result_success r
  | inr r => result_success r
  end.

(** The [useState] values of the component. *)
Record state := {
  language : Language;
  code : string;
  result : option trace;
  currentStep : Z
}.

(** [SAMPLE_CODES[language][0].code] is taken as [first_sample language];
    the text of the samples plays no part below. *)
Section samples.
Variable first_sample : Language -> string.

(** The component when it mounts. *)
Definition initial : state :=
  {| language := python; code := first_sample python; result := None;
     currentStep := 0 |}.

Definition handleLanguageChange (newLanguage : Language) (st : state)
  : state :=
  {| language := newLanguage; code := first_sample newLanguage;
     result := None; currentStep := 0 |}.

(** [setCode], from the text area or a sample button. *)
Definition setCode (text : string) (st : state) : state :=
  {| language := language st; code := text; result := result st;
     currentStep := currentStep st |}.

(** [handleRunCode] on the hooks as they are when the button is pressed. *)
Definition handleRunCode (pyodide : PyodideHook) (cpp : CppHook)
    (st : state) : state :=
  let traceResult := runCode pyodide cpp (code st) (language st) in
  {| language := language st; code := code st; result := Some traceResult;
     currentStep := 0 |}.

(** [result && result.frames.length > 0]: the condition under which the
    timeline buttons and the slider exist. *)
Definition timeline_shown (st : state) : bool :=
  match result st with
  | Some r => 0 <? frame_count r
  | None => false
  end.

(** [setCurrentStep] from a control of the timeline; without the control
    nothing can be pressed. *)
Definition setCurrentStep (update : Z -> Z -> Z) (st : state) : state :=
  match result st with
  | Some r =>
      if 0 <? frame_count r then
        {| language := language st; code := code st; result := result st;
           currentStep := update (frame_count r) (currentStep st) |}
      else st
  | None => st
  end.

(** The four buttons and the slider; the slider hands over the number its
    range input holds. *)
Definition pressStart : state -> state := setCurrentStep (fun _ _ => 0).
Definition pressPrev : state -> state :=
  setCurrentStep (fun _ s => Z.max 0 (s - 1)).
Definition pressNext : state -> state :=
  setCurrentStep (fun length s => Z.min (length - 1) (s + 1)).
Definition pressEnd : state -> state :=
  setCurrentStep (fun length _ => length - 1).
Definition moveSlider (value : Z) : state -> state :=
  setCurrentStep (fun _ _ => value).

(** What the user can do. *)
Inductive action :=
| LanguageChange (newLanguage : Language)
| SetCode (text : string)
| RunCode (pyodide : PyodideHook) (cpp : CppHook)
| Start
| Prev
| Next
| End_
| Slider (value : Z).

Definition handle (st : state) (a : action) : state :=
  match a with
  | LanguageChange newLanguage => handleLanguageChange newLanguage st
  | SetCode text => setCode text st
  | RunCode pyodide cpp => handleRunCode pyodide cpp st
  | Start => pressStart st
  | Prev => pressPrev st
  | Next => pressNext st
  | End_ => pressEnd st
  | Slider value => moveSlider value st
  end.

(** The range input of the slider holds a number between its [min], 0, and
    its [max], [result.frames.length - 1]. *)
Definition in_range (st : state) (a : action) : Prop :=
  match a, result st with
  | Slider value, Some r => 0 ≤ value ≤ frame_count r - 1
  | _, _ => True
  end.

(** The states the component can get into. *)
Inductive reachable : state -> Prop :=
| reachable_initial : reachable initial
| reachable_handle st a :
    reachable st -> in_range st a -> reachable (handle st a).

End samples.

(** [result?.frames[currentStep]] *)
Definition currentFrame (st : state)
  : option (PyTracer.frame + CppEngine.ExecutionFrame) :=
  if currentStep st <? 0 then None
  else
    match result st with
    | Some (inl r) => inl <$> result_frames r !! Z.to_nat (currentStep st)
    | Some (inr r) => inr <$> result_frames r !! Z.to_nat (currentStep st)
    | None => None
    end.

(** The condition of the error box:
    [result && !result.success && result.frames.length === 0]. *)
Definition error_box_shown (st : state) : bool :=
  match result st with
  | Some r => negb (succeeded r) && (frame_count r =? 0)
  | None => false
  end.

(** The cursor points into the frames on display, and is 0 without any. *)
Definition cursor_in_range (st : state) : Prop :=
  match result st with
  | Some r =>
      if 0 <? frame_count r then 0 ≤ currentStep st < frame_count r
      else currentStep st = 0
  | None => currentStep st = 0
  end.

End App.

(** ** More notions *)


(** The presence rules of a frame of the Python recorder: a depth that is
    not negative, [return_value] on return frames only, [exception] on
    exception frames only. *)
Definition well_formed (f : PyTracer.frame) : Prop :=
  0 ≤ PyTracer.depth f
  ∧ (is_Some (PyTracer.return_value f) ↔ PyTracer.event f = EvReturn)
  ∧ (is_Some (PyTracer.exception f) ↔ PyTracer.event f = EvException).

(** A name that the variable loop of the C engine lets through. *)
Definition shown_name (name : string) : bool :=
  negb (String.prefix "_" name || String.eqb name "this")
  && negb (bool_decide (name ∈ CppEngine.STDLIB_FUNCTIONS)).

(** A variable as the C engine stores it: a name it lets through, with a
    snapshot that is neither [null] nor a dropped struct. *)
Definition shown_variable (v : string * CppEngine.SerializedValue) : Prop :=
  shown_name v.1 = true
  ∧ CppEngine.sv_type v.2 ≠ "null"
  ∧ CppEngine.is_skipped_struct v.2 = false.

(** ** Text and list facts *)

Lemma str_take_length (n : nat) (s : string) :
  String.length (str_take n s) = Nat.min n (String.length s).
Proof.
  revert s; induction n as [|n IH]; intros [|c s]; simpl; auto.
Qed.

Lemma steps_from_one_nil {F : Type} (step : F -> Z) : steps_from_one step [].
Proof. intros i f H. rewrite lookup_nil in H. discriminate. Qed.

Lemma steps_from_one_snoc {F : Type} (step : F -> Z) (fs : list F) (f : F) :
  steps_from_one step fs →
  step f = Z.of_nat (List.length fs) + 1 →
  steps_from_one step (fs ++ [f]).
Proof.
  intros Hfs Hf i g Hi.
  destruct (decide (i < List.length fs)%nat) as [Hlt|Hge].
  - rewrite lookup_app_l in Hi by exact Hlt. eauto.
  - rewrite lookup_app_r in Hi by lia.
    destruct (i - List.length fs)%nat as [|k] eqn:Hk; simpl in Hi;
      [|rewrite lookup_nil in Hi; discriminate].
    injection Hi as <-. rewrite Hf. f_equal. lia.
Qed.

(** ** The Python recorder: one call of the trace function *)
Section python_recorder.
Import PyTracer.

Lemma trace_function_effect (self : CodeTracer) (fr : pyframe)
    (ev : trace_event) :
  trace_effect self (trace_function self fr ev).
Proof.
  unfold trace_function.
  destruct (Z.leb_spec MAX_STEPS (step_count self)) as [Hceil|Hbelow];
    [constructor|].
  destruct (negb _); [constructor|].
  destruct ev as [| |arg|ty val|name]; simpl.
  - destruct (capture_locals _); [|by constructor].
    by econstructor.
  - destruct (capture_locals _); [|by constructor].
    by econstructor.
  - destruct (match arg with PyNone _ => _ | _ => _ end);
      [|by constructor].
    destruct (capture_locals _); [|by constructor].
    by econstructor.
  - destruct (capture_locals _); [|by constructor].
    destruct (default _ val); [|by constructor].
    by econstructor.
  - constructor.
Qed.


(** *** The recorder over a whole run *)

Lemma init_counted (target : string) : counted (init target).
Proof. split; [reflexivity|apply steps_from_one_nil]. Qed.

Lemma deliver_steps (self : CodeTracer) (evs : list (pyframe * trace_event)) :
  counted self → steps_from_one step (self_frames (deliver self evs).1).
Proof.
  revert self; induction evs as [|[fr ev] evs IH]; intros self [Hc Hs];
    simpl; [exact Hs|].
  destruct (trace_function_effect self fr ev)
    as [rt|self' e Hfr _|self' f rt _ Hfr Hstep Hcount _].
  - apply IH. by split.
  - simpl. by rewrite Hfr.
  - apply IH. split.
    + rewrite Hcount, Hfr, Hc. unfold len. rewrite length_app. simpl. lia.
    + rewrite Hfr. apply steps_from_one_snoc; [exact Hs|].
      rewrite Hstep, Hc. reflexivity.
Qed.


End python_recorder.

(** ** The stepping loop of the C engine *)

Lemma steps_increasing_nil {F : Type} (step : F -> Z) :
  steps_increasing step [].
Proof. intros i j f g _ H. rewrite lookup_nil in H. discriminate. Qed.

Lemma steps_increasing_snoc {F : Type} (step : F -> Z) (fs : list F)
    (g : F) :
  steps_increasing step fs →
  Forall (λ f, step f < step g) fs →
  steps_increasing step (fs ++ [g]).
Proof.
  intros Hinc Hall i j f h Hij Hi Hj.
  assert (Hjlen : (j < List.length (fs ++ [g]))%nat)
    by (eapply lookup_lt_Some; eauto).
  rewrite length_app in Hjlen; simpl in Hjlen.
  rewrite lookup_app_l in Hi by lia.
  destruct (decide (j < List.length fs)%nat) as [Hlt|Hge].
  - rewrite lookup_app_l in Hj by exact Hlt. eauto.
  - assert (j = List.length fs) as -> by lia.
    rewrite lookup_app_r, Nat.sub_diag in Hj by lia.
    injection Hj as <-.
    rewrite Forall_forall in Hall. apply Hall.
    eapply list_elem_of_lookup_2; eauto.
Qed.

(** A strictly increasing numbering that starts at one or later never falls
    behind the index. *)
Lemma steps_increasing_bound {F : Type} (step : F -> Z) (fs : list F) :
  steps_increasing step fs →
  Forall (λ f, 1 ≤ step f) fs →
  ∀ (i : nat) (f : F), fs !! i = Some f → Z.of_nat i + 1 ≤ step f.
Proof.
  intros Hinc Hall i; induction i as [|i IH]; intros f Hi.
  - rewrite Forall_forall in Hall.
    assert (1 ≤ step f); [|lia].
    apply Hall. eapply list_elem_of_lookup_2; eauto.
  - destruct (fs !! i) as [g|] eqn:Hg.
    + specialize (IH g eq_refl).
      assert (step g < step f) by (eapply (Hinc i (S i)); eauto; lia).
      lia.
    + apply lookup_ge_None in Hg. apply lookup_lt_Some in Hi. lia.
Qed.

Section cpp_stepping.
Import CppEngine.
Context (random_id : nat → Z).

Lemma initial_state_stepped (draws : nat) : stepped (initial_state draws).
Proof.
  split; simpl; [lia|constructor|apply steps_increasing_nil].
Qed.

Lemma accumulated_next (dbg : JSCPPDebugger) (count : Z) :
  0 ≤ count →
  accumulated dbg (Z.to_nat count) +:+ written (dbg (Z.to_nat count))
  = accumulated dbg (Z.to_nat (count + 1)).
Proof.
  intros H. replace (Z.to_nat (count + 1)) with (S (Z.to_nat count)) by lia.
  reflexivity.
Qed.

(** Raising the counter keeps the frames recorded so far in range. *)
Lemma stepped_count_up (st : run_state) (out : string) (last : Z)
    (draws : nat) :
  stepped st →
  stepped {| capturedFrames := capturedFrames st;
             stepCount := stepCount st + 1; output := out;
             lastLine := last; random_draws := draws |}.
Proof.
  intros [Hc Hf Hi]; split; simpl; [lia| |exact Hi].
  eapply Forall_impl; [exact Hf|]. simpl. intros f (? & ? & ?).
  split; [assumption|lia].
Qed.

(** Pushing the frame of the current step keeps the numbering increasing. *)
Lemma stepped_push (st : run_state) (out : string) (last : Z) (draws : nat)
    (l : Z) (vars : list (string * SerializedValue)) :
  stepped st →
  stepCount st + 1 ≤ MAX_STEPS →
  stepped {| capturedFrames :=
               capturedFrames st ++
               [{| step := stepCount st + 1; line := l; event := EvLine;
                   function := "main"; depth := 1; variables := vars;
                   return_value := None |}];
             stepCount := stepCount st + 1; output := out;
             lastLine := last; random_draws := draws |}.
Proof.
  intros [Hc Hf Hi] Hle; split; simpl; [lia| |].
  - apply Forall_app; split.
    + eapply Forall_impl; [exact Hf|]. simpl. intros f (? & ? & ?).
      split; [assumption|lia].
    + constructor; [|constructor]. unfold stepping_frame; simpl.
      repeat split; lia.
  - apply steps_increasing_snoc; [exact Hi|].
    eapply Forall_impl; [exact Hf|]. simpl. intros f (? & ? & ?). lia.
Qed.

Lemma stepping_spec (dbg : JSCPPDebugger) (fuel : nat)
    (st st' : run_state) (exit : loop_exit) :
  stepped st →
  output st = accumulated dbg (Z.to_nat (stepCount st)) →
  stepCount st ≤ MAX_STEPS →
  (Z.to_nat (MAX_STEPS + 1 - stepCount st) ≤ fuel)%nat →
  stepping random_id fuel dbg st = (st', exit) →
  exit ≠ LoopRunning
  ∧ stepped st'
  ∧ output st'
    = accumulated dbg (Z.to_nat (stepCount st')
                       + (if exit is LoopThrew _ then 1 else 0))%nat.
Proof.
  revert st; induction fuel as [|fuel IH]; intros st Hst Hout Hle Hfuel.
  { unfold MAX_STEPS in *. lia. }
  assert (Hc : 0 ≤ stepCount st) by apply Hst.
  cbn [CppEngine.stepping].
  destruct (next (dbg (Z.to_nat (stepCount st)))) as [r|e].
  2:{ intros [= <- <-]. split; [discriminate|]. split.
      - destruct Hst; split; assumption.
      - simpl. rewrite Hout, Nat.add_1_r. reflexivity. }
  destruct (Z.ltb_spec MAX_STEPS (stepCount st + 1)) as [Hbreak|Hbelow].
  { intros [= <- <-]. split; [discriminate|]. split.
    - by apply stepped_count_up.
    - simpl. rewrite Hout, Nat.add_0_r. by apply accumulated_next. }
  destruct (capture_variables _ _ _) as [vars draws].
  set (fs := if _ || _ then _ else _).
  set (st1 := {| capturedFrames := fs |}).
  assert (Hst1 : stepped st1).
  { subst st1 fs. destruct (_ || _).
    - by apply stepped_push.
    - by apply stepped_count_up. }
  assert (Hout1 : output st1 = accumulated dbg (Z.to_nat (stepCount st1))).
  { subst st1. simpl. rewrite Hout. by apply accumulated_next. }
  assert (Hleft : ∀ st' exit, (st1, LoopLeft) = (st', exit) →
            exit ≠ LoopRunning ∧ stepped st'
            ∧ output st'
              = accumulated dbg (Z.to_nat (stepCount st')
                     + (if exit is LoopThrew _ then 1 else 0))%nat).
  { intros ? ? [= <- <-]. split; [discriminate|]. split; [exact Hst1|].
    rewrite Nat.add_0_r. exact Hout1. }
  destruct r as [|v]; [|apply Hleft].
  destruct (negb (done _)); [|apply Hleft].
  apply IH; [exact Hst1|exact Hout1|exact Hbelow|].
  subst st1; simpl. unfold MAX_STEPS in *. lia.
Qed.

End cpp_stepping.

(** ** A whole run of the C engine *)
Section cpp_run.
Import CppEngine.
Context (random_id : nat → Z).

(** The three ways a run that got a debugger can end, with the state the
    stepping loop leaves. *)
Lemma runCode_debugger (cache : option JSCPPModule)
    (imp : completion JSCPPModule) (code : string) (draws : nat)
    (jscpp : JSCPPModule) (dbg : JSCPPDebugger) :
  loadJSCPP cache imp = Returns jscpp →
  run jscpp code = Returns (Debugger dbg) →
  ∃ (st : run_state) (calls : nat),
    stepped st ∧ output st = accumulated dbg calls
    ∧ ((∃ err, runCode random_id cache imp code draws
               = {| success := false; error := Some (errorMessage err);
                    frames := capturedFrames st |})
       ∨ (output st = ""
          ∧ runCode random_id cache imp code draws
            = {| success := true; error := None;
                 frames := capturedFrames st |})
       ∨ (output st ≠ ""
          ∧ runCode random_id cache imp code draws
            = {| success := true; error := None;
                 frames := capturedFrames st ++ [final_frame st] |})).
Proof.
  intros Hload Hrun. unfold runCode. rewrite Hload, Hrun.
  destruct (stepping random_id loop_bound dbg (initial_state draws))
    as [st exit] eqn:Hloop.
  destruct (stepping_spec random_id dbg loop_bound _ st exit
              (initial_state_stepped draws) eq_refl)
    as (Hexit & Hst & Hout); [by unfold MAX_STEPS|done|exact Hloop|].
  exists st, (Z.to_nat (stepCount st)
              + (if exit is LoopThrew _ then 1 else 0))%nat.
  split; [exact Hst|]. split; [exact Hout|].
  destruct exit as [|err|]; [|left; by exists err|done].
  right. destruct (String.eqb_spec (output st) "") as [Hempty|Hfull]; simpl.
  - left. by split.
  - right. by split.
Qed.

(** Without a debugger the run records nothing. *)
Lemma runCode_no_debugger (cache : option JSCPPModule)
    (imp : completion JSCPPModule) (code : string) (draws : nat) :
  (∀ jscpp dbg, loadJSCPP cache imp = Returns jscpp →
                run jscpp code ≠ Returns (Debugger dbg)) →
  success (runCode random_id cache imp code draws) = false
  ∧ frames (runCode random_id cache imp code draws) = [].
Proof.
  intros Hno. unfold runCode.
  destruct (loadJSCPP cache imp) as [jscpp|err]; [|done].
  destruct (run jscpp code) as [[n|dbg]|err] eqn:Hrun; [done| |done].
  by destruct (Hno jscpp dbg).
Qed.

Lemma final_frame_stdout (st : run_state) :
  stdout_frame (output st) (final_frame st).
Proof. by repeat split. Qed.

Lemma stepped_frames_shape (st : run_state) :
  stepped st → Forall stepping_frame (capturedFrames st).
Proof.
  intros [_ Hf _]. eapply Forall_impl; [exact Hf|]. by intros f [? _].
Qed.

Lemma stepped_frames_positive (st : run_state) :
  stepped st → Forall (λ f, 1 ≤ step f) (capturedFrames st).
Proof.
  intros [_ Hf _]. eapply Forall_impl; [exact Hf|]. simpl.
  intros f (_ & ? & _). lia.
Qed.

(** The frames of a run, with or without the final frame, are numbered
    increasingly from one or later. *)
Lemma stepped_with_final (st : run_state) :
  stepped st →
  steps_increasing step (capturedFrames st ++ [final_frame st])
  ∧ Forall (λ f, 1 ≤ step f) (capturedFrames st ++ [final_frame st]).
Proof.
  intros Hst. split.
  - apply steps_increasing_snoc; [apply Hst|].
    destruct Hst as [_ Hf _]. eapply Forall_impl; [exact Hf|]. simpl.
    intros f (_ & ? & _). lia.
  - apply Forall_app. split; [by apply stepped_frames_positive|].
    constructor; [|constructor]. simpl. destruct Hst as [? _ _]. lia.
Qed.

Lemma runCode_steps (cache : option JSCPPModule)
    (imp : completion JSCPPModule) (code : string) (draws : nat) :
  steps_increasing step (frames (runCode random_id cache imp code draws))
  ∧ Forall (λ f, 1 ≤ step f)
           (frames (runCode random_id cache imp code draws)).
Proof.
  destruct (loadJSCPP cache imp) as [jscpp|err] eqn:Hload.
  2:{ unfold runCode. rewrite Hload. simpl.
      split; [apply steps_increasing_nil|constructor]. }
  destruct (run jscpp code) as [[n|dbg]|err] eqn:Hrun.
  2:{ destruct (runCode_debugger cache imp code draws jscpp dbg Hload Hrun)
        as (st & calls & Hst & _ & [[err ->]|[[_ ->]|[_ ->]]]); simpl.
      - split; [apply Hst|by apply stepped_frames_positive].
      - split; [apply Hst|by apply stepped_frames_positive].
      - by apply stepped_with_final. }
  all: unfold runCode; rewrite Hload, Hrun; simpl;
    (split; [apply steps_increasing_nil|constructor]).
Qed.

End cpp_run.

(** ** The C engine at the step ceiling *)
Section cpp_ceiling.
Import CppEngine.
Context (random_id : nat → Z).

Lemma stepped_length (st : run_state) :
  stepped st → Z.of_nat (List.length (capturedFrames st)) ≤ MAX_STEPS.
Proof.
  intros Hst.
  destruct (capturedFrames st) as [|f0 fs] eqn:Hfs using rev_ind;
    [by unfold MAX_STEPS|].
  clear IHfs.
  assert (Hlast : (fs ++ [f0]) !! List.length fs = Some f0).
  { rewrite lookup_app_r, Nat.sub_diag by lia. reflexivity. }
  rewrite <- Hfs in Hlast.
  pose proof (steps_increasing_bound step _ (stepped_increasing _ Hst)
                (stepped_frames_positive _ Hst) _ _ Hlast) as Hlow.
  assert (Hup : step f0 ≤ MAX_STEPS).
  { destruct Hst as [_ Hf _]. rewrite Forall_forall in Hf.
    apply (Hf f0). eapply list_elem_of_lookup_2; eauto. }
  rewrite length_app. simpl. lia.
Qed.



End cpp_ceiling.

(** ** The result on its way through [JSON.parse] *)
Section python_hook.
Import PyTracer.

(** What [JSON.parse] gives back has the frames that were dumped, each with
    its step number, event, depth and optional keys. *)
Lemma parsed_frames_steps (fs : list frame) :
  steps_from_one step fs → steps_from_one step (List.map parsed_frame fs).
Proof.
  intros Hfs i f Hi. change (List.map parsed_frame fs) with
    (parsed_frame <$> fs) in Hi.
  rewrite list_lookup_fmap in Hi.
  destruct (fs !! i) as [g|] eqn:Hg; [|discriminate].
  injection Hi as <-. exact (Hfs i g Hg).
Qed.

(** A run that reaches [setFrames] has read the call, and has the result of
    [trace_code] as [JSON.parse] gives it back. *)
Lemma try_block_returns (pyodide : PyodideInstance) (code : string)
    (result : TraceResult frame) :
  try_block pyodide code = TryReturns result →
  ∃ source traced,
    read_call pyodide (pythonCall code) = Ok source
    ∧ trace_code (interpret pyodide source) = Ok traced
    ∧ dumps_returns traced = true ∧ parse_returns traced = true
    ∧ result = parsed traced.
Proof.
  unfold try_block, through_json.
  destruct (read_call _ _) as [source|e] eqn:Hread; [|discriminate].
  destruct (trace_code _) as [traced|e] eqn:Htraced; [|discriminate].
  destruct (dumps_returns traced) eqn:Hdumps; [|discriminate].
  destruct (parse_returns traced) eqn:Hparse; [|discriminate].
  intros [= <-]. by exists source, traced.
Qed.

(** The frames a run of the hook returns are none, or the frames of a
    result of [trace_code] as [JSON.parse] gives them back. *)
Lemma runCode_frames (pyodideRef : option PyodideInstance) (code : string) :
  frames (runCode pyodideRef code) = []
  ∨ ∃ compiled traced,
      trace_code compiled = Ok traced
      ∧ frames (runCode pyodideRef code)
        = List.map parsed_frame (frames traced).
Proof.
  unfold runCode. destruct pyodideRef as [pyodide|]; [|by left].
  destruct (try_block pyodide code) as [result|err] eqn:Htry; [|by left].
  apply try_block_returns in Htry
    as (source & traced & _ & Htraced & _ & _ & ->).
  right. by exists (interpret pyodide source), traced.
Qed.

End python_hook.

(** * The claims *)

(** C1, as stated, fails on the C engine: a step with no node and no
    variable is counted but not recorded, so the first frame of this run
    carries step 2. *)
Lemma C1_cpp_first_frame_is_step_two :
  let r := CppEngine.runCode sample_random None
             (CppEngine.Returns (module_of skipping_debugger))
             "int main() { int x = 5; }" 0 in
  (∃ f, frames r !! 0%nat = Some f ∧ CppEngine.step f = 2)
  ∧ ¬ steps_from_one CppEngine.step (frames r).
Proof.
  split.
  - eexists. split; reflexivity.
  - intros H. specialize (H 0%nat _ eq_refl). discriminate H.
Qed.

(** C1 (amended): every trace of the Python engine is numbered
    [frames[i].step = i + 1]; in every trace of the C engine the step
    numbers are strictly increasing and [frames[i].step >= i + 1]. *)
Theorem C1_step_numbering :
  (∀ (code : PyTracer.compile_result) (r : TraceResult PyTracer.frame),
     PyTracer.trace_code code = PyTracer.Ok r →
     steps_from_one PyTracer.step (frames r))
  ∧ (∀ (pyodideRef : option PyTracer.PyodideInstance) (code : string),
       steps_from_one PyTracer.step
                      (frames (PyTracer.runCode pyodideRef code)))
  ∧ (∀ (random_id : nat → Z) (cache : option CppEngine.JSCPPModule)
       (imp : CppEngine.completion CppEngine.JSCPPModule) (code : string)
       (draws : nat),
       let r := CppEngine.runCode random_id cache imp code draws in
       steps_increasing CppEngine.step (frames r)
       ∧ ∀ (i : nat) (f : CppEngine.ExecutionFrame),
           frames r !! i = Some f → Z.of_nat i + 1 ≤ CppEngine.step f).
Proof.
  assert (Hpy : ∀ code r, PyTracer.trace_code code = PyTracer.Ok r →
                          steps_from_one PyTracer.step (frames r)).
  { intros [msg lineno|run] r; simpl.
    - intros [= <-]. apply steps_from_one_nil.
    - pose proof (deliver_steps (PyTracer.init "<user_code>")
                    (PyTracer.events run)
                    (init_counted "<user_code>")) as Hsteps.
      destruct (PyTracer.outcome run); intros [= <-]; exact Hsteps. }
  split; [exact Hpy|]. split.
  - intros pyodideRef code.
    destruct (runCode_frames pyodideRef code)
      as [->|(compiled & traced & Htraced & ->)];
      [apply steps_from_one_nil|].
    apply parsed_frames_steps. by eapply Hpy.
  - intros random_id cache imp code draws r.
    destruct (runCode_steps random_id cache imp code draws) as [Hinc Hpos].
    split; [exact Hinc|]. by apply steps_increasing_bound.
Qed.

Lemma C1_step_numbering_witness :
  (∃ r, PyTracer.trace_code (PyTracer.Compiled short_run) = PyTracer.Ok r
        ∧ steps_from_one PyTracer.step (frames r))
  ∧ (∃ f, frames (CppEngine.runCode sample_random None
                    (CppEngine.Returns (module_of skipping_debugger))
                    "int main() { int x = 5; }" 0) !! 0%nat = Some f
          ∧ Z.of_nat 0 + 1 ≤ CppEngine.step f).
Proof.
  split.
  - eexists. split; [reflexivity|].
    apply (proj1 C1_step_numbering (PyTracer.Compiled short_run)).
    reflexivity.
  - eexists. split; [reflexivity|].
    apply (proj2 (proj2 (proj2 C1_step_numbering) sample_random None
                    (CppEngine.Returns (module_of skipping_debugger))
                    "int main() { int x = 5; }" 0%nat) 0%nat).
    reflexivity.
Defined.









(** ** The Python serializer on sequences and text *)
Section python_serializer.
Import PyTracer.

(** The element loop is the serialization, in order, of the slice
    [items[:n]]. *)
Lemma serialize_first_mapM (f : pyvalue → result snapshot) (n : nat)
    (items : list pyvalue) :
  serialize_first f n items = mapM f (take n items).
Proof.
  revert items; induction n as [|n IH]; intros [|item rest]; simpl;
    try reflexivity.
  destruct (f item) as [s|e]; simpl; [|reflexivity].
  by rewrite IH.
Qed.

Lemma serialize_first_length (f : pyvalue → result snapshot) (n : nat)
    (items : list pyvalue) (shown : list snapshot) :
  serialize_first f n items = Ok shown →
  List.length shown = Nat.min n (List.length items).
Proof.
  revert items shown; induction n as [|n IH]; intros [|item rest] shown;
    simpl; try (intros [= <-]; reflexivity).
  destruct (f item) as [s|e]; simpl; [|discriminate].
  destruct (serialize_first f n rest) as [ss|e] eqn:Hrest; simpl;
    [|discriminate].
  intros [= <-]. simpl. f_equal. by apply IH.
Qed.

Lemma serialize_value_list (oid : Z) (items : list pyvalue) (depth : Z) :
  depth ≤ 3 →
  serialize_value (PyList oid items) depth
  = (serialized_items ←
       serialize_first (λ item, serialize_value item (depth + 1))
                       (Z.to_nat MAX_LIST_LENGTH) items;
     Ok (Snapshot (VItems serialized_items) "list" oid (Some (len items))
                  (if MAX_LIST_LENGTH <? len items then Some true
                   else None))).
Proof.
  intros Hdepth. cbn [serialize_value].
  destruct (Z.ltb_spec 3 depth) as [?|_]; [lia|reflexivity].
Qed.

Lemma serialize_value_tuple (oid : Z) (items : list pyvalue) (depth : Z) :
  depth ≤ 3 →
  serialize_value (PyTuple oid items) depth
  = (serialized_items ←
       serialize_first (λ item, serialize_value item (depth + 1))
                       (Z.to_nat MAX_LIST_LENGTH) items;
     Ok (Snapshot (VItems serialized_items) "tuple" oid (Some (len items))
                  None)).
Proof.
  intros Hdepth. cbn [serialize_value].
  destruct (Z.ltb_spec 3 depth) as [?|_]; [lia|reflexivity].
Qed.

(** The list branch: a list longer than the cap is cut to the cap, reports
    its true length and is flagged. *)
Lemma serialize_value_long_list (oid : Z) (items : list pyvalue) (depth : Z)
    (s : snapshot) :
  depth ≤ 3 →
  MAX_LIST_LENGTH < len items →
  serialize_value (PyList oid items) depth = Ok s →
  sv_type s = "list" ∧ sv_id s = oid
  ∧ sv_length s = Some (len items)
  ∧ sv_truncated s = Some true
  ∧ ∃ shown, sv_value s = VItems shown
             ∧ len shown = MAX_LIST_LENGTH
             ∧ mapM (λ item, serialize_value item (depth + 1))
                    (take (Z.to_nat MAX_LIST_LENGTH) items) = Ok shown.
Proof.
  intros Hdepth Hlong. rewrite serialize_value_list by exact Hdepth.
  destruct (serialize_first _ _ items) as [shown|e] eqn:Hshown; simpl;
    [|discriminate].
  intros [= <-]. simpl.
  destruct (Z.ltb_spec MAX_LIST_LENGTH (len items)) as [_|?]; [|lia].
  repeat split. exists shown. split; [reflexivity|]. split.
  - unfold len in *. rewrite (serialize_first_length _ _ _ _ Hshown).
    unfold MAX_LIST_LENGTH in *. lia.
  - by rewrite <- serialize_first_mapM.
Qed.

(** The tuple branch never sets the flag. *)
Lemma serialize_value_tuple_unflagged (oid : Z) (items : list pyvalue)
    (depth : Z) (s : snapshot) :
  depth ≤ 3 →
  serialize_value (PyTuple oid items) depth = Ok s →
  sv_length s = Some (len items) ∧ sv_truncated s = None.
Proof.
  intros Hdepth. rewrite serialize_value_tuple by exact Hdepth.
  destruct (serialize_first _ _ items) as [shown|e]; simpl; [|discriminate].
  by intros [= <-].
Qed.

End python_serializer.

(** C4, evaluated on a tuple of 51 integers: the snapshot holds the first
    50 elements and the length 51, but carries no [truncated] flag, whereas
    the list of the same elements is flagged. *)
Theorem C4_long_tuple_is_not_flagged :
  let items := repeat (PyTracer.PyInt 1 0) 51 in
  ∃ shown,
    List.length shown = 50%nat
    ∧ PyTracer.serialize_value (PyTracer.PyTuple 7 items) 0
      = PyTracer.Ok (PyTracer.Snapshot (PyTracer.VItems shown) "tuple" 7
                                       (Some 51) None)
    ∧ PyTracer.serialize_value (PyTracer.PyList 7 items) 0
      = PyTracer.Ok (PyTracer.Snapshot (PyTracer.VItems shown) "list" 7
                                       (Some 51) (Some true)).
Proof.
  eexists. split; [|split]; [|vm_compute; reflexivity..].
  reflexivity.
Qed.

(** C5, as stated, fails: the snapshot of a text of 101 characters has no
    [length] entry, and its value is the first 100 characters followed by
    three dots, 103 characters in all. *)
Lemma C5_long_text_has_no_length :
  PyTracer.str_len long_text = 101
  ∧ ∃ text,
      PyTracer.serialize_value (PyTracer.PyStr 7 long_text) 0
      = PyTracer.Ok (PyTracer.Snapshot (PyTracer.VText text) "str" 7
                                       None None)
      ∧ PyTracer.str_len text = 103.
Proof.
  split; [reflexivity|]. eexists. split; [vm_compute; reflexivity|].
  reflexivity.
Qed.

(** C5 (amended): for a text longer than the cap the Python serializer
    returns a snapshot of type [str] whose value is the first
    [MAX_STRING_LENGTH] characters followed by the marker ["..."], with no
    [length] and no [truncated] entry; the C serializer returns the text
    unchanged, with type [char*] and no [length]. *)
Theorem C5_text_truncation :
  (∀ (oid : Z) (s : string) (depth : Z),
     depth ≤ 3 →
     PyTracer.MAX_STRING_LENGTH < PyTracer.str_len s →
     let shown := str_take (Z.to_nat PyTracer.MAX_STRING_LENGTH) s in
     PyTracer.serialize_value (PyTracer.PyStr oid s) depth
     = PyTracer.Ok (PyTracer.Snapshot (PyTracer.VText (shown +:+ "..."))
                                      "str" oid None None)
     ∧ PyTracer.str_len shown = PyTracer.MAX_STRING_LENGTH)
  ∧ (∀ (random_id : nat → Z) (s type : string) (draws : nat),
       CppEngine.serializeValue random_id (CppEngine.JsString s) type draws
       = ({| CppEngine.sv_value := CppEngine.PText s;
             CppEngine.sv_type := "char*";
             CppEngine.sv_id := random_id draws;
             CppEngine.sv_length := None |}, S draws)).
Proof.
  split; [|reflexivity].
  intros oid s depth Hdepth Hlong shown. cbn [PyTracer.serialize_value].
  destruct (Z.ltb_spec 3 depth) as [?|_]; [lia|].
  destruct (Z.ltb_spec PyTracer.MAX_STRING_LENGTH (PyTracer.str_len s))
    as [_|?]; [|lia].
  split; [reflexivity|].
  subst shown. unfold PyTracer.str_len in *. rewrite str_take_length.
  unfold PyTracer.MAX_STRING_LENGTH in *. lia.
Qed.

Lemma C5_text_truncation_witness :
  PyTracer.serialize_value (PyTracer.PyStr 7 long_text) 0
  = PyTracer.Ok
      (PyTracer.Snapshot
         (PyTracer.VText
            (str_take (Z.to_nat PyTracer.MAX_STRING_LENGTH) long_text
             +:+ "..."))
         "str" 7 None None)
  ∧ PyTracer.str_len
      (str_take (Z.to_nat PyTracer.MAX_STRING_LENGTH) long_text)
    = PyTracer.MAX_STRING_LENGTH.
Proof.
  apply (proj1 C5_text_truncation 7 long_text 0); [lia|].
  vm_compute. reflexivity.
Defined.

(** ** The binding filter of the Python recorder *)
Section python_bindings.
Import PyTracer.

(** The inner test of the first [if] of the loop can never hold, so the
    first [if] never skips a binding. *)
Lemma underscore_test_never_skips (name : string) :
  (String.prefix "_" name && negb (String.prefix "__" name))
  && String.prefix "__" name = false.
Proof. by destruct (String.prefix "__" name), (String.prefix "_" name). Qed.

Lemma capture_binding_kept (captured : list (string * snapshot))
    (name : string) (value : pyvalue) :
  capture_binding captured name value
  = if kept name value
    then (s ← serialize_value value 0; Ok (dict_set name s captured))
    else Ok captured.
Proof.
  unfold capture_binding, kept.
  rewrite underscore_test_never_skips.
  destruct (bool_decide _); [reflexivity|].
  by destruct (callable value && negb (is_list_dict_set value)).
Qed.

End python_bindings.

(** C6, evaluated on the binding [__x = 1]: the name starts with a double
    underscore and is not on the denylist, and the filter keeps it, because
    the test that should drop it can never hold. *)
Theorem C6_dunder_binding_is_kept :
  String.prefix "__" "__x" = true
  ∧ ("__x" ∉ PyTracer.IGNORED_VARS)
  ∧ PyTracer.capture_locals [("__x", PyTracer.PyInt 11 1)]
    = PyTracer.Ok [("__x", PyTracer.Snapshot (PyTracer.VInt 1) "int" 11
                                             None None)]
  ∧ ∀ name : string,
      (String.prefix "_" name && negb (String.prefix "__" name))
      && String.prefix "__" name = false.
Proof.
  split; [reflexivity|]. split; [by vm_compute|]. split; [reflexivity|].
  apply underscore_test_never_skips.
Qed.

(** ** Return events of the Python recorder *)
Section python_return.
Import PyTracer.

Lemma snoc_not_self {A : Type} (l : list A) (x : A) : l ≠ l ++ [x].
Proof.
  intros H. apply (f_equal List.length) in H.
  rewrite length_app in H. simpl in H. lia.
Qed.

(** What the conditional expression for [return_value] yields. *)
Lemma return_value_cases (arg : pyvalue) (rv : option snapshot) :
  match arg with
  | PyNone _ => Ok None
  | _ => s ← serialize_value arg 0; Ok (Some s)
  end = Ok rv →
  match arg with
  | PyNone _ => rv = None
  | _ => ∃ s, serialize_value arg 0 = Ok s ∧ rv = Some s
  end.
Proof.
  intros H. destruct arg; [by injection H as <-|..];
    (destruct (serialize_value _ 0) as [shot|exn];
     [injection H as <-; eauto|discriminate]).
Qed.

End python_return.

(** C7, as stated, fails in two ways. A return event that comes when the
    step counter has reached the ceiling appends no frame and leaves the
    call depth as it is: after one call and 999 lines the depth is 1, and it
    is still 1 after the return. And a return of [None], which is what the
    end of the module and of every function without a [return] statement
    give, appends a frame whose [return_value] is [None], where the
    serializer has a snapshot for [None]. *)
Lemma C7_return_at_the_ceiling_is_dropped :
  let self :=
    (PyTracer.deliver (PyTracer.init "<user_code>") deep_events).1 in
  PyTracer.step_count self = PyTracer.MAX_STEPS
  ∧ PyTracer.call_depth self = 1
  ∧ PyTracer.trace_function self (user_frame 2)
      (PyTracer.OnReturn (PyTracer.PyInt 12 7))
    = (self, PyTracer.Ok PyTracer.ReturnNone)
  ∧ PyTracer.call_depth self ≠ Z.max 0 (PyTracer.call_depth self - 1)
  ∧ ∃ self' f,
      PyTracer.trace_function (PyTracer.init "<user_code>") (user_frame 1)
        (PyTracer.OnReturn (PyTracer.PyNone 1))
      = (self', PyTracer.Ok PyTracer.ReturnTraceFunction)
      ∧ PyTracer.self_frames self' = [f]
      ∧ PyTracer.return_value f = Some None
      ∧ PyTracer.serialize_value (PyTracer.PyNone 1) 0
        = PyTracer.Ok (PyTracer.Snapshot PyTracer.VNone "NoneType" 1
                                         None None).
Proof.
  intros self.
  split; [vm_compute; reflexivity|]. split; [vm_compute; reflexivity|].
  split; [vm_compute; reflexivity|]. split; [vm_compute; discriminate|].
  eexists _, _. repeat split.
Qed.

(** C7 (amended): what a return event does, case by case. When it makes the
    recorder append a frame, that frame is tagged [return], carries the
    depth before the event and the return value (the snapshot of the value
    returned, or [None] when the value returned is [None]), and the call
    depth after the event is [max(0, depth - 1)]; a return event of the
    target file below the ceiling whose values serialize does append such a
    frame. A return event at the ceiling or of another file changes
    nothing, and one whose values make the serializer raise moves the
    counter only: neither appends a frame nor changes the call depth. *)
Theorem C7_return_depth (self : PyTracer.CodeTracer) (fr : PyTracer.pyframe)
    (arg : PyTracer.pyvalue) :
  (∀ (self' : PyTracer.CodeTracer) (r : PyTracer.result PyTracer.trace_ret)
     (f : PyTracer.frame),
     PyTracer.trace_function self fr (PyTracer.OnReturn arg) = (self', r) →
     PyTracer.self_frames self' = PyTracer.self_frames self ++ [f] →
     PyTracer.event f = EvReturn
     ∧ PyTracer.step f = PyTracer.step_count self + 1
     ∧ PyTracer.depth f = PyTracer.call_depth self
     ∧ (∃ rv, PyTracer.return_value f = Some rv
              ∧ match arg with
                | PyTracer.PyNone _ => rv = None
                | _ => ∃ s, PyTracer.serialize_value arg 0 = PyTracer.Ok s
                            ∧ rv = Some s
                end)
     ∧ PyTracer.call_depth self'
       = Z.max 0 (PyTracer.call_depth self - 1))
  ∧ (∀ (vars : list (string * PyTracer.snapshot))
       (rv : option PyTracer.snapshot),
       PyTracer.step_count self < PyTracer.MAX_STEPS →
       PyTracer.co_filename fr = PyTracer.target_filename self →
       PyTracer.capture_locals (PyTracer.f_locals fr) = PyTracer.Ok vars →
       returned arg = PyTracer.Ok rv →
       PyTracer.trace_function self fr (PyTracer.OnReturn arg)
       = ({| PyTracer.self_frames :=
               PyTracer.self_frames self ++
               [{| PyTracer.step := PyTracer.step_count self + 1;
                   PyTracer.line := PyTracer.f_lineno fr;
                   PyTracer.event := EvReturn;
                   PyTracer.function := PyTracer.co_name fr;
                   PyTracer.depth := PyTracer.call_depth self;
                   PyTracer.variables := vars;
                   PyTracer.return_value := Some rv;
                   PyTracer.exception := None |}];
             PyTracer.step_count := PyTracer.step_count self + 1;
             PyTracer.target_filename := PyTracer.target_filename self;
             PyTracer.call_depth :=
               Z.max 0 (PyTracer.call_depth self - 1) |},
          PyTracer.Ok PyTracer.ReturnTraceFunction))
  ∧ (PyTracer.MAX_STEPS ≤ PyTracer.step_count self
     ∨ PyTracer.co_filename fr ≠ PyTracer.target_filename self →
     ∃ rt, PyTracer.trace_function self fr (PyTracer.OnReturn arg)
           = (self, PyTracer.Ok rt))
  ∧ (∀ e : PyTracer.pyexc,
       PyTracer.step_count self < PyTracer.MAX_STEPS →
       PyTracer.co_filename fr = PyTracer.target_filename self →
       returned arg = PyTracer.Raise e
       ∨ ((∃ rv, returned arg = PyTracer.Ok rv)
          ∧ PyTracer.capture_locals (PyTracer.f_locals fr)
            = PyTracer.Raise e) →
       PyTracer.trace_function self fr (PyTracer.OnReturn arg)
       = (PyTracer.with_step_count self (PyTracer.step_count self + 1),
          PyTracer.Raise e)).
Proof.
  split; [|split; [|split]].
  - intros self' r f. unfold PyTracer.trace_function.
    destruct (Z.leb_spec PyTracer.MAX_STEPS (PyTracer.step_count self))
      as [Hceil|Hbelow].
    { intros [= <- _] Hfr. by destruct (snoc_not_self _ _ Hfr). }
    destruct (negb _).
    { intros [= <- _] Hfr. by destruct (snoc_not_self _ _ Hfr). }
    simpl.
    destruct (match arg with PyTracer.PyNone _ => _ | _ => _ end)
      as [rv|e] eqn:Hrv.
    2:{ intros [= <- _] Hfr. by destruct (snoc_not_self _ _ Hfr). }
    destruct (PyTracer.capture_locals _) as [vars|e].
    2:{ intros [= <- _] Hfr. by destruct (snoc_not_self _ _ Hfr). }
    intros [= <- _]. simpl. intros Hfr.
    apply app_inj_tail in Hfr as [_ <-]. simpl.
    repeat split. exists rv. split; [reflexivity|].
    by apply return_value_cases.
  - intros vars rv Hbelow Hfile Hvars Hrv. unfold PyTracer.trace_function.
    destruct (Z.leb_spec PyTracer.MAX_STEPS (PyTracer.step_count self))
      as [?|_]; [lia|].
    rewrite Hfile, String.eqb_refl. simpl.
    unfold returned in Hrv. rewrite Hrv, Hvars. reflexivity.
  - intros Hskip. unfold PyTracer.trace_function.
    destruct (Z.leb_spec PyTracer.MAX_STEPS (PyTracer.step_count self))
      as [_|Hbelow]; [by eexists|].
    destruct Hskip as [?|Hfile]; [lia|].
    destruct (String.eqb_spec (PyTracer.co_filename fr)
                              (PyTracer.target_filename self)) as [?|_];
      [done|]. by eexists.
  - intros e Hbelow Hfile Hraise. unfold PyTracer.trace_function.
    destruct (Z.leb_spec PyTracer.MAX_STEPS (PyTracer.step_count self))
      as [?|_]; [lia|].
    rewrite Hfile, String.eqb_refl. simpl. unfold returned in Hraise.
    destruct Hraise as [->|[[rv ->] ->]]; reflexivity.
Qed.

Lemma C7_return_depth_witness :
  let self := {| PyTracer.self_frames := []; PyTracer.step_count := 0;
                 PyTracer.target_filename := "<user_code>";
                 PyTracer.call_depth := 0 |} in
  (∃ self' f,
     PyTracer.trace_function self (user_frame 1)
       (PyTracer.OnReturn (PyTracer.PyInt 12 7))
     = (self', PyTracer.Ok PyTracer.ReturnTraceFunction)
     ∧ PyTracer.self_frames self' = [f]
     ∧ PyTracer.depth f = 0
     ∧ PyTracer.call_depth self' = Z.max 0 (0 - 1))
  ∧ (∃ rt, PyTracer.trace_function self
             {| PyTracer.co_filename := "<frozen importlib>";
                PyTracer.co_name := "f"; PyTracer.f_lineno := 7;
                PyTracer.f_locals := [] |}
             (PyTracer.OnReturn (PyTracer.PyInt 12 7))
           = (self, PyTracer.Ok rt))
  ∧ PyTracer.trace_function self
      {| PyTracer.co_filename := "<user_code>";
         PyTracer.co_name := "<module>"; PyTracer.f_lineno := 3;
         PyTracer.f_locals := [("d", unprintable_key_dict)] |}
      (PyTracer.OnReturn (PyTracer.PyInt 12 7))
    = (PyTracer.with_step_count self 1,
       PyTracer.Raise (PyTracer.PyExc "ValueError" "no text")).
Proof.
  intros self. split; [|split].
  - pose proof (proj1 (proj2 (C7_return_depth self (user_frame 1)
                                (PyTracer.PyInt 12 7)))
                  [("x", PyTracer.Snapshot (PyTracer.VInt 1) "int" 11
                                           None None)]
                  (Some (PyTracer.Snapshot (PyTracer.VInt 7) "int" 12
                                           None None))
                  eq_refl eq_refl eq_refl eq_refl) as Hrun.
    eexists _, _. split; [exact Hrun|].
    split; [reflexivity|].
    pose proof (proj1 (C7_return_depth self (user_frame 1)
                         (PyTracer.PyInt 12 7)) _ _ _ Hrun eq_refl)
      as (_ & _ & Hdepth & _ & Hafter).
    split; [exact Hdepth|exact Hafter].
  - apply (proj1 (proj2 (proj2 (C7_return_depth self _ _)))).
    right. discriminate.
  - apply (proj2 (proj2 (proj2 (C7_return_depth self
             {| PyTracer.co_filename := "<user_code>";
                PyTracer.co_name := "<module>"; PyTracer.f_lineno := 3;
                PyTracer.f_locals := [("d", unprintable_key_dict)] |}
             (PyTracer.PyInt 12 7))))
             (PyTracer.PyExc "ValueError" "no text"));
      [reflexivity|reflexivity|].
    right. split; [by eexists|reflexivity].
Defined.

(** ** What a frame of the Python recorder holds *)
Section python_frame_bindings.
Import PyTracer.

Lemma dict_set_same {V : Type} (key : string) (v : V)
    (d : list (string * V)) :
  (key, v) ∈ dict_set key v d.
Proof.
  induction d as [|[k w] d IH]; simpl; [by left|].
  destruct (String.eqb_spec k key) as [->|_]; [by left|by right].
Qed.

Lemma dict_set_other {V : Type} (key k : string) (v w : V)
    (d : list (string * V)) :
  k ≠ key → (k, w) ∈ d → (k, w) ∈ dict_set key v d.
Proof.
  intros Hne. induction d as [|[k' w'] d IH]; simpl; [by intros ?%elem_of_nil|].
  intros [[= <- <-]|Hin]%elem_of_cons.
  - destruct (String.eqb_spec k key) as [?|_]; [done|by left].
  - destruct (String.eqb_spec k' key) as [_|_]; right; auto.
Qed.

(** A binding already captured stays as it is while the names that follow
    differ from its name. *)
Lemma capture_loop_preserves (lv : list (string * pyvalue))
    (acc vars : list (string * snapshot)) (n : string) (s : snapshot) :
  capture_loop acc lv = Ok vars →
  (n, s) ∈ acc → n ∉ lv.*1 → (n, s) ∈ vars.
Proof.
  revert acc; induction lv as [|[name value] rest IH]; intros acc; simpl.
  { by intros [= <-]. }
  rewrite capture_binding_kept. intros Hloop Hin Hnot.
  apply not_elem_of_cons in Hnot as [Hne Hnot].
  destruct (kept name value); simpl in Hloop; [|by eapply IH].
  destruct (serialize_value value 0) as [shot|exn]; simpl in Hloop;
    [|discriminate].
  eapply IH; [exact Hloop| |exact Hnot]. by apply dict_set_other.
Qed.

(** Every binding that passes the filter is in the captured variables with
    its snapshot. *)
Lemma capture_loop_records (lv : list (string * pyvalue))
    (acc vars : list (string * snapshot)) (n : string) (v : pyvalue) :
  NoDup lv.*1 →
  capture_loop acc lv = Ok vars →
  (n, v) ∈ lv → kept n v = true →
  ∃ s, serialize_value v 0 = Ok s ∧ (n, s) ∈ vars.
Proof.
  revert acc; induction lv as [|[name value] rest IH]; intros acc; simpl.
  { by intros _ _ ?%elem_of_nil. }
  rewrite capture_binding_kept.
  intros [Hfresh Hdup]%NoDup_cons Hloop [[= <- <-]|Hin]%elem_of_cons Hkept.
  - rewrite Hkept in Hloop. simpl in Hloop.
    destruct (serialize_value v 0) as [shot|exn]; simpl in Hloop;
      [|discriminate].
    exists shot. split; [reflexivity|].
    eapply capture_loop_preserves; [exact Hloop|apply dict_set_same|done].
  - destruct (kept name value); simpl in Hloop; [|by eapply IH].
    destruct (serialize_value value 0) as [shot|exn]; simpl in Hloop;
      [|discriminate].
    by eapply IH.
Qed.

Lemma dict_set_keys {V : Type} (key n : string) (v : V)
    (d : list (string * V)) :
  n ∈ (dict_set key v d).*1 → n = key ∨ n ∈ d.*1.
Proof.
  induction d as [|[k w] d IH]; simpl.
  { intros ?%list_elem_of_singleton. by left. }
  destruct (String.eqb_spec k key) as [->|_]; simpl.
  - intros [->|Hin]%elem_of_cons; [by left|right; by right].
  - intros [->|Hin]%elem_of_cons; [right; by left|].
    destruct (IH Hin) as [->|?]; [by left|right; by right].
Qed.

(** Only bindings that pass the filter are captured: names on the denylist
    and callables that are not containers are dropped. *)
Lemma capture_loop_keys (lv : list (string * pyvalue))
    (acc vars : list (string * snapshot)) (n : string) :
  capture_loop acc lv = Ok vars →
  n ∈ vars.*1 →
  n ∈ acc.*1 ∨ ∃ v, (n, v) ∈ lv ∧ kept n v = true.
Proof.
  revert acc; induction lv as [|[name value] rest IH]; intros acc; simpl.
  { intros [= <-]. by left. }
  rewrite capture_binding_kept. intros Hloop Hin.
  assert (Hrest : ∀ acc', capture_loop acc' rest = Ok vars →
            n ∈ acc'.*1 ∨ ∃ v, (n, v) ∈ (name, value) :: rest
                               ∧ kept n v = true).
  { intros acc' Hloop'. destruct (IH acc' Hloop' Hin) as [?|(v & ? & ?)];
      [by left|]. right. exists v. split; [by right|done]. }
  destruct (kept name value) eqn:Hkept; simpl in Hloop; [|by apply Hrest].
  destruct (serialize_value value 0) as [shot|exn]; simpl in Hloop;
    [|discriminate].
  destruct (Hrest _ Hloop) as [Hacc|?]; [|by right].
  apply dict_set_keys in Hacc as [->|?]; [|by left].
  right. exists value. split; [by left|done].
Qed.

Lemma capture_locals_drops_denylisted (lv : list (string * pyvalue))
    (vars : list (string * snapshot)) (n : string) :
  n ∈ IGNORED_VARS → capture_locals lv = Ok vars → n ∉ vars.*1.
Proof.
  intros Hden Hcap Hin.
  destruct (capture_loop_keys lv [] vars n Hcap Hin)
    as [?%elem_of_nil|(v & _ & Hkept)]; [done|].
  unfold kept in Hkept. by rewrite bool_decide_eq_true_2 in Hkept.
Qed.



End python_frame_bindings.

(** ** Errors inside the C serializer *)
Section cpp_serializer_errors.
Import CppEngine.
Context (random_id : nat → Z).








End cpp_serializer_errors.




(** C9, as stated, fails on the C engine: the hook reports ready from the
    start, and a run made while the JSCPP module is not loaded yet is not
    rejected: it loads the module and traces the program. *)
Lemma C9_cpp_run_before_load_is_not_rejected :
  CppEngine.isReady = true
  ∧ ∃ r, runCode {| isReady := false; pyodideRef := None |}
                 {| random_id := sample_random; JSCPP := None;
                    import_JSCPP :=
                      CppEngine.Returns (module_of skipping_debugger);
                    random_draws := 0 |}
                 "int main() { int x = 5; }" c = inr r
         ∧ success r = true ∧ error r = None
         ∧ List.length (frames r) = 1%nat.
Proof. split; [reflexivity|]. eexists. repeat split. Qed.

(** C9 (amended): a run on the Python engine made before Pyodide has
    finished initializing is rejected at once, by the hook and by the
    router, with [success = false], a message saying so and no frames. The
    C engine has no such state: it is ready from the start, and a run made
    before the JSCPP module is loaded gives what the same run gives once it
    is loaded. *)
Theorem C9_engine_not_ready :
  (∀ code : string,
     PyTracer.runCode None code
     = {| success := false; error := Some "Pyodide is not initialized";
          frames := [] |})
  ∧ (∀ (pyodide : PyodideHook) (cpp : CppHook) (code : string),
       isReady pyodide = false →
       runCode pyodide cpp code python
       = inl {| success := false;
                error := Some "Python engine (Pyodide) is not ready yet. Please wait...";
                frames := [] |})
  ∧ CppEngine.isReady = true
  ∧ (∀ (random_id : nat → Z) (module : CppEngine.JSCPPModule)
       (code : string) (draws : nat),
       CppEngine.runCode random_id None (CppEngine.Returns module) code draws
       = CppEngine.runCode random_id (Some module) (CppEngine.Returns module)
                           code draws).
Proof.
  split; [reflexivity|]. split; [|split; reflexivity].
  intros pyodide cpp code Hready. unfold runCode. by rewrite Hready.
Qed.

Lemma C9_engine_not_ready_witness :
  runCode {| isReady := false; pyodideRef := None |}
          {| random_id := sample_random; JSCPP := None;
             import_JSCPP := CppEngine.Returns (module_of skipping_debugger);
             random_draws := 0 |}
          "x = 1" python
  = inl {| success := false;
           error := Some "Python engine (Pyodide) is not ready yet. Please wait...";
           frames := [] |}.
Proof.
  apply (proj1 (proj2 C9_engine_not_ready)). reflexivity.
Defined.

(** ** The shape of the frames of the C engine *)
Section cpp_frame_shapes.
Import CppEngine.
Context (random_id : nat → Z).

(** Every debugger has a last call, and only one. *)
Lemma last_call_exists (dbg : JSCPPDebugger) : ∃ n, last_call dbg n.
Proof.
  assert (Hsearch : ∀ m k : nat,
            (k + m = Z.to_nat MAX_STEPS)%nat →
            (∀ j : nat, (j < k)%nat →
               next (dbg j) = Returns StepFalse ∧ done (dbg j) = false) →
            ∃ n, last_call dbg n).
  { induction m as [|m IH]; intros k Hk Hbefore.
    - exists k. split; [exact Hbefore|]. unfold MAX_STEPS in *.
      split; [lia|left; lia].
    - assert (Hstop : ∀ P : Prop, P → 
                next (dbg k) ≠ Returns StepFalse ∨ done (dbg k) = true →
                ∃ n, last_call dbg n).
      { intros _ _ Hlast. exists k. split; [exact Hbefore|].
        unfold MAX_STEPS in *. split; [lia|by right]. }
      destruct (next (dbg k)) as [[|v]|e] eqn:Hnext;
        [|by apply (Hstop True I); left
         |by apply (Hstop True I); left].
      destruct (done (dbg k)) eqn:Hdone;
        [by apply (Hstop True I); right|].
      apply (IH (S k)); [lia|].
      intros j Hj. destruct (decide (j = k)) as [->|Hne]; [done|].
      apply Hbefore. lia. }
  apply (Hsearch (Z.to_nat MAX_STEPS) 0%nat); [lia|]. intros j Hj. lia.
Qed.

Lemma last_call_unique (dbg : JSCPPDebugger) (n m : nat) :
  last_call dbg n → last_call dbg m → n = m.
Proof.
  assert (Hlt : ∀ a b : nat, last_call dbg a → last_call dbg b →
                             ¬ (a < b)%nat).
  { intros a b (_ & _ & Hlast) (Hbefore & Hmax & _) Hab.
    destruct (Hbefore a Hab) as [Hnext Hdone].
    destruct Hlast as [?|[?|?]]; [lia|done|congruence]. }
  intros Hn Hm. pose proof (Hlt n m Hn Hm). pose proof (Hlt m n Hm Hn).
  lia.
Qed.

(** The stepping loop stops at the last call: by its throw, or with the
    counter at the number of calls made. *)
Lemma stepping_last_call (dbg : JSCPPDebugger) (n fuel : nat)
    (st st' : run_state) (exit : loop_exit) :
  last_call dbg n →
  0 ≤ stepCount st ≤ Z.of_nat n →
  (n - Z.to_nat (stepCount st) < fuel)%nat →
  stepping random_id fuel dbg st = (st', exit) →
  match next (dbg n) with
  | Throws e => exit = LoopThrew e ∧ stepCount st' = Z.of_nat n
  | Returns _ => exit = LoopLeft ∧ stepCount st' = Z.of_nat n + 1
  end.
Proof.
  intros (Hbefore & Hmax & Hlast).
  revert st; induction fuel as [|fuel IH]; intros st Hc Hfuel; [lia|].
  cbn [stepping].
  destruct (decide (Z.to_nat (stepCount st) < n)%nat) as [Hlt|Hge].
  - destruct (Hbefore _ Hlt) as [-> ->].
    destruct (Z.ltb_spec MAX_STEPS (stepCount st + 1)) as [?|_]; [lia|].
    destruct (capture_variables _ _ _) as [vars draws].
    cbn [negb]. apply IH; simpl; lia.
  - assert (Z.to_nat (stepCount st) = n) as -> by lia.
    destruct (next (dbg n)) as [r|e] eqn:Hnext.
    2:{ intros [= <- <-]. simpl. split; [reflexivity|lia]. }
    destruct (Z.ltb_spec MAX_STEPS (stepCount st + 1)) as [_|Hbelow].
    { intros [= <- <-]. simpl. split; [reflexivity|lia]. }
    destruct (capture_variables _ _ _) as [vars draws].
    destruct r as [|v]; [|intros [= <- <-]; simpl; split; [reflexivity|lia]].
    destruct Hlast as [?|[?| ->]]; [lia|done|].
    intros [= <- <-]. simpl. split; [reflexivity|lia].
Qed.

(** A run that got a debugger, by its last call. *)
Lemma runCode_last_call (cache : option JSCPPModule)
    (imp : completion JSCPPModule) (code : string) (draws : nat)
    (jscpp : JSCPPModule) (dbg : JSCPPDebugger) (n : nat) :
  loadJSCPP cache imp = Returns jscpp →
  run jscpp code = Returns (Debugger dbg) →
  last_call dbg n →
  ∃ st : run_state,
    stepped st
    ∧ output st = accumulated dbg (S n)
    ∧ match next (dbg n) with
      | Throws err =>
          runCode random_id cache imp code draws
          = {| success := false; error := Some (errorMessage err);
               frames := capturedFrames st |}
      | Returns _ =>
          stepCount st = Z.of_nat n + 1
          ∧ runCode random_id cache imp code draws
            = {| success := true; error := None;
                 frames := if negb (String.eqb (output st) "")
                           then capturedFrames st ++ [final_frame st]
                           else capturedFrames st |}
      end.
Proof.
  intros Hload Hrun Hlast. unfold runCode. rewrite Hload, Hrun.
  destruct (stepping random_id loop_bound dbg (initial_state draws))
    as [st exit] eqn:Hloop.
  destruct (stepping_spec random_id dbg loop_bound _ st exit
              (initial_state_stepped draws) eq_refl)
    as (_ & Hst & Hout); [by unfold MAX_STEPS|done|exact Hloop|].
  pose proof (stepping_last_call dbg n loop_bound (initial_state draws)
                st exit Hlast) as Hend.
  destruct Hlast as (_ & Hmax & _).
  specialize (Hend ltac:(simpl; lia)
                   ltac:(simpl; unfold loop_bound, MAX_STEPS in *; lia)
                   Hloop).
  exists st. split; [exact Hst|].
  destruct (next (dbg n)) as [r|err]; destruct Hend as [-> Hcount].
  - split; [|by split]. rewrite Hout, Hcount. f_equal. lia.
  - split; [|reflexivity]. rewrite Hout, Hcount. f_equal. lia.
Qed.

End cpp_frame_shapes.

Lemma printing_debugger_last_call :
  last_call printing_debugger (Z.to_nat CppEngine.MAX_STEPS).
Proof. split; [by intros k _|]. split; [by vm_compute|by left]. Defined.

(** C10: a run of the C engine that got a debugger makes the calls of
    [next()] up to the last call of that debugger. Its frames are the frames
    of the stepping loop, each with event [line], function [main] and depth
    1, followed, exactly when the last call did not throw and the calls made
    wrote some text, by one frame with event [return], depth 0 and the text
    that those calls wrote, trimmed, as [return_value]; when the last call
    throws, the run fails with the frames of the loop alone. In any run a
    frame with event [return] is the last frame, of a run that succeeded,
    and has that shape; a run without a debugger has no frame. *)
Theorem C10_cpp_frame_shapes (random_id : nat → Z)
    (cache : option CppEngine.JSCPPModule)
    (imp : CppEngine.completion CppEngine.JSCPPModule) (code : string)
    (draws : nat) :
  let r := CppEngine.runCode random_id cache imp code draws in
  (∀ (jscpp : CppEngine.JSCPPModule) (dbg : CppEngine.JSCPPDebugger),
     CppEngine.loadJSCPP cache imp = CppEngine.Returns jscpp →
     CppEngine.run jscpp code = CppEngine.Returns (CppEngine.Debugger dbg) →
     (∃ n, last_call dbg n)
     ∧ ∀ n : nat, last_call dbg n →
         let out := accumulated dbg (S n) in
         ∃ stepping_frames : list CppEngine.ExecutionFrame,
           Forall stepping_frame stepping_frames
           ∧ match CppEngine.next (dbg n) with
             | CppEngine.Throws err =>
                 r = {| success := false;
                        error := Some (CppEngine.errorMessage err);
                        frames := stepping_frames |}
             | CppEngine.Returns _ =>
                 success r = true ∧ error r = None
                 ∧ ((out = "" ∧ frames r = stepping_frames)
                    ∨ (out ≠ ""
                       ∧ ∃ f, frames r = stepping_frames ++ [f]
                              ∧ stdout_frame out f
                              ∧ CppEngine.step f = Z.of_nat n + 2))
             end)
  ∧ (∀ (i : nat) (f : CppEngine.ExecutionFrame),
       frames r !! i = Some f → CppEngine.event f = EvReturn →
       S i = List.length (frames r)
       ∧ success r = true
       ∧ ∃ jscpp dbg n,
           CppEngine.loadJSCPP cache imp = CppEngine.Returns jscpp
           ∧ CppEngine.run jscpp code
             = CppEngine.Returns (CppEngine.Debugger dbg)
           ∧ last_call dbg n
           ∧ accumulated dbg (S n) ≠ ""
           ∧ stdout_frame (accumulated dbg (S n)) f)
  ∧ ((∀ jscpp dbg, CppEngine.loadJSCPP cache imp = CppEngine.Returns jscpp →
                   CppEngine.run jscpp code
                   ≠ CppEngine.Returns (CppEngine.Debugger dbg)) →
     frames r = []).
Proof.
  intros r.
  assert (Hrun : ∀ jscpp dbg n,
    CppEngine.loadJSCPP cache imp = CppEngine.Returns jscpp →
    CppEngine.run jscpp code = CppEngine.Returns (CppEngine.Debugger dbg) →
    last_call dbg n →
    ∃ stepping_frames : list CppEngine.ExecutionFrame,
      Forall stepping_frame stepping_frames
      ∧ match CppEngine.next (dbg n) with
        | CppEngine.Throws err =>
            r = {| success := false;
                   error := Some (CppEngine.errorMessage err);
                   frames := stepping_frames |}
        | CppEngine.Returns _ =>
            success r = true ∧ error r = None
            ∧ ((accumulated dbg (S n) = "" ∧ frames r = stepping_frames)
               ∨ (accumulated dbg (S n) ≠ ""
                  ∧ ∃ f, frames r = stepping_frames ++ [f]
                         ∧ stdout_frame (accumulated dbg (S n)) f
                         ∧ CppEngine.step f = Z.of_nat n + 2))
        end).
  { intros jscpp dbg n Hload Hdbg Hlast.
    destruct (runCode_last_call random_id cache imp code draws jscpp dbg n
                Hload Hdbg Hlast) as (st & Hst & Hout & Hend).
    exists (CppEngine.capturedFrames st).
    split; [by apply stepped_frames_shape|].
    destruct (CppEngine.next (dbg n)) as [res|err]; [|exact Hend].
    destruct Hend as [Hcount Hr]. subst r. rewrite Hr, <- Hout. simpl.
    split; [reflexivity|]. split; [reflexivity|].
    destruct (String.eqb_spec (CppEngine.output st) "") as [Hempty|Hfull];
      simpl; [by left|].
    right. split; [exact Hfull|]. exists (CppEngine.final_frame st).
    split; [reflexivity|]. split; [apply final_frame_stdout|].
    simpl. lia. }
  split; [|split].
  - intros jscpp dbg Hload Hdbg. split; [apply last_call_exists|].
    intros n Hlast out. by apply (Hrun jscpp dbg n).
  - intros i f Hi Hev.
    destruct (CppEngine.loadJSCPP cache imp) as [jscpp|err] eqn:Hload.
    2:{ subst r. unfold CppEngine.runCode in Hi. rewrite Hload in Hi.
        simpl in Hi. by rewrite lookup_nil in Hi. }
    destruct (CppEngine.run jscpp code) as [[code_|dbg]|err] eqn:Hdbg.
    1,3: subst r; unfold CppEngine.runCode in Hi; rewrite Hload, Hdbg in Hi;
      simpl in Hi; by rewrite lookup_nil in Hi.
    destruct (last_call_exists dbg) as [n Hlast].
    destruct (Hrun jscpp dbg n eq_refl Hdbg Hlast) as (fs & Hshape & Hend).
    assert (Hline : ∀ j, fs !! j = Some f → False).
    { intros j Hj. rewrite Forall_forall in Hshape.
      destruct (Hshape f) as (Hline & _);
        [by eapply list_elem_of_lookup_2|congruence]. }
    destruct (CppEngine.next (dbg n)) as [res|err].
    2:{ rewrite Hend in Hi. simpl in Hi. by destruct (Hline i). }
    destruct Hend as (Hok & _ & [[_ Hfr]|(Hout & g & Hfr & Hg & _)]);
      rewrite Hfr in Hi |- *; [by destruct (Hline i)|].
    destruct (decide (i < List.length fs)%nat) as [Hlt|Hge].
    { rewrite lookup_app_l in Hi by exact Hlt. by destruct (Hline i). }
    rewrite lookup_app_r in Hi by lia.
    destruct (i - List.length fs)%nat as [|k] eqn:Hk; simpl in Hi;
      [|by rewrite lookup_nil in Hi].
    injection Hi as <-. split; [rewrite length_app; simpl; lia|].
    split; [exact Hok|]. by exists jscpp, dbg, n.
  - intros Hno. by apply runCode_no_debugger.
Qed.

Lemma C10_cpp_frame_shapes_witness :
  let r := CppEngine.runCode sample_random None
             (CppEngine.Returns (module_of printing_debugger))
             "int main() { for (;;) putchar('x'); }" 0 in
  let out := accumulated printing_debugger 1001 in
  ∃ stepping_frames : list CppEngine.ExecutionFrame,
    Forall stepping_frame stepping_frames
    ∧ success r = true ∧ error r = None
    ∧ ((out = "" ∧ frames r = stepping_frames)
       ∨ (out ≠ ""
          ∧ ∃ f, frames r = stepping_frames ++ [f]
                 ∧ stdout_frame out f
                 ∧ CppEngine.step f = Z.of_nat 1000 + 2)).
Proof.
  exact (proj2 (proj1 (C10_cpp_frame_shapes sample_random None
                         (CppEngine.Returns (module_of printing_debugger))
                         "int main() { for (;;) putchar('x'); }" 0%nat)
                  (module_of printing_debugger) printing_debugger
                  eq_refl eq_refl)
           (Z.to_nat CppEngine.MAX_STEPS) printing_debugger_last_call).
Defined.

(** * Further properties of the code *)

(** ** The Python recorder over arbitrary event sequences *)
Section python_recorder_more.
Import PyTracer.

Lemma trace_function_target (self : CodeTracer) (fr : pyframe)
    (ev : trace_event) :
  target_filename (trace_function self fr ev).1 = target_filename self.
Proof.
  by destruct (trace_function_effect self fr ev).
Qed.

Lemma trace_function_unrecordable (self : CodeTracer) (fr : pyframe)
    (ev : trace_event) :
  recordable (target_filename self) (fr, ev) = false →
  ∃ rt, trace_function self fr ev = (self, Ok rt).
Proof.
  unfold recordable, trace_function; simpl.
  destruct (MAX_STEPS <=? step_count self); [by eexists|].
  destruct (String.eqb (co_filename fr) (target_filename self)); simpl;
    [|by eexists].
  destruct ev; try discriminate. by eexists.
Qed.

Lemma trace_function_at_ceiling (self : CodeTracer) (fr : pyframe)
    (ev : trace_event) :
  MAX_STEPS ≤ step_count self →
  trace_function self fr ev = (self, Ok ReturnNone).
Proof.
  intros Hceil. unfold trace_function.
  by destruct (Z.leb_spec MAX_STEPS (step_count self)) as [_|?]; [|lia].
Qed.

(** One call of the trace function keeps the depth from going negative and
    appends at most one frame, which is well formed and taken from the
    frame object. *)
Lemma trace_function_frame (self : CodeTracer) (fr : pyframe)
    (ev : trace_event) :
  0 ≤ call_depth self →
  0 ≤ call_depth (trace_function self fr ev).1
  ∧ (self_frames (trace_function self fr ev).1 = self_frames self
     ∨ ∃ f, self_frames (trace_function self fr ev).1
            = self_frames self ++ [f]
            ∧ well_formed f
            ∧ line f = f_lineno fr ∧ function f = co_name fr).
Proof.
  intros Hdepth. unfold trace_function.
  destruct (MAX_STEPS <=? step_count self); [by auto|].
  destruct (negb _); [by auto|].
  assert (Hno : ∀ A (x : A), ¬ is_Some (@None A) ∧ Some x ≠ None).
  { intros A x. split; [by intros [? ?]|done]. }
  destruct ev as [| |arg|ty val|name]; simpl.
  - destruct (capture_locals _); simpl; [|split; [lia|by left]].
    split; [lia|]. right. eexists. split; [reflexivity|].
    unfold well_formed; simpl. repeat split; try done; try lia;
      by intros [? ?].
  - destruct (capture_locals _); simpl; [|by auto].
    split; [lia|]. right. eexists. split; [reflexivity|].
    unfold well_formed; simpl. repeat split; try done; by intros [? ?].
  - destruct (match arg with PyNone _ => _ | _ => _ end); simpl;
      [|by auto].
    destruct (capture_locals _); simpl; [|by auto].
    split; [lia|]. right. eexists. split; [reflexivity|].
    unfold well_formed; simpl. repeat split; try done; by eexists.
  - destruct (capture_locals _); simpl; [|by auto].
    destruct (default _ val); simpl; [|by auto].
    split; [lia|]. right. eexists. split; [reflexivity|].
    unfold well_formed; simpl. repeat split; try done;
      (by intros [? ?]) || by eexists.
  - by auto.
Qed.

Lemma deliver_unrecordable (self : CodeTracer)
    (evs : list (pyframe * trace_event)) :
  deliver self evs
  = deliver self (List.filter (recordable (target_filename self)) evs).
Proof.
  revert self; induction evs as [|[fr ev] evs IH]; intros self;
    [reflexivity|].
  cbn [List.filter].
  destruct (recordable (target_filename self) (fr, ev)) eqn:Hrec.
  - cbn [deliver].
    pose proof (trace_function_target self fr ev) as Htgt.
    destruct (trace_function self fr ev) as [self' [rt|e]]; [|reflexivity].
    simpl in Htgt. rewrite IH, Htgt. reflexivity.
  - destruct (trace_function_unrecordable self fr ev Hrec) as [rt Htf].
    cbn [deliver]. rewrite Htf. apply IH.
Qed.

Lemma deliver_at_ceiling (self : CodeTracer)
    (evs : list (pyframe * trace_event)) :
  MAX_STEPS ≤ step_count self → deliver self evs = (self, None).
Proof.
  intros Hceil. induction evs as [|[fr ev] evs IH]; [reflexivity|].
  cbn [deliver]. by rewrite trace_function_at_ceiling.
Qed.

Lemma deliver_bounded (self : CodeTracer)
    (evs : list (pyframe * trace_event)) :
  step_count self = len (self_frames self) →
  step_count self ≤ MAX_STEPS →
  len (self_frames (deliver self evs).1) ≤ MAX_STEPS.
Proof.
  revert self; induction evs as [|[fr ev] evs IH]; intros self Hc Hle;
    simpl; [lia|].
  destruct (trace_function_effect self fr ev)
    as [rt|self' e Hfr _|self' f rt Hlt Hfr _ Hcount _].
  - by apply IH.
  - simpl. rewrite Hfr. lia.
  - apply IH; [|lia].
    rewrite Hcount, Hfr, Hc. unfold len. rewrite length_app. simpl. lia.
Qed.

Lemma deliver_extends (self : CodeTracer)
    (evs : list (pyframe * trace_event)) :
  self_frames self `prefix_of` self_frames (deliver self evs).1.
Proof.
  revert self; induction evs as [|[fr ev] evs IH]; intros self; simpl;
    [done|].
  destruct (trace_function_effect self fr ev)
    as [rt|self' e Hfr _|self' f rt _ Hfr _ _ _].
  - apply IH.
  - simpl. by rewrite Hfr.
  - etrans; [|apply IH]. rewrite Hfr. by apply prefix_app_r.
Qed.

Lemma deliver_well_formed (self : CodeTracer)
    (evs : list (pyframe * trace_event)) :
  0 ≤ call_depth self →
  Forall well_formed (self_frames self) →
  0 ≤ call_depth (deliver self evs).1
  ∧ Forall well_formed (self_frames (deliver self evs).1).
Proof.
  revert self; induction evs as [|[fr ev] evs IH]; intros self Hd Hwf;
    simpl; [by split|].
  destruct (trace_function_frame self fr ev Hd)
    as [Hd' [Hfr|(f & Hfr & Hf & _)]];
    destruct (trace_function self fr ev) as [self' [rt|e]]; simpl in *.
  - apply IH; [done|by rewrite Hfr].
  - split; [done|by rewrite Hfr].
  - apply IH; [done|]. rewrite Hfr. apply Forall_app. split; [done|].
    by apply Forall_singleton.
  - split; [done|]. rewrite Hfr. apply Forall_app. split; [done|].
    by apply Forall_singleton.
Qed.

End python_recorder_more.

(** ** More on the Python serializer *)
Section python_serializer_more.
Import PyTracer.

Lemma str_take_whole (n : nat) (s : string) :
  (String.length s ≤ n)%nat → str_take n s = s.
Proof.
  revert s; induction n as [|n IH]; intros [|ch s]; simpl; intros Hlen;
    try reflexivity; try lia.
  f_equal. apply IH. lia.
Qed.

Lemma serialize_value_dict (oid : Z) (entries : list (pykey * pyvalue))
    (depth : Z) :
  depth ≤ 3 →
  serialize_value (PyDict oid entries) depth
  = (serialized_dict ←
       serialize_entries (λ v, serialize_value v (depth + 1)) 0 [] entries;
     Ok (Snapshot (VEntries serialized_dict) "dict" oid (Some (len entries))
                  None)).
Proof.
  intros Hdepth. cbn [serialize_value].
  destruct (Z.ltb_spec 3 depth) as [?|_]; [lia|reflexivity].
Qed.

Lemma serialize_value_set (oid : Z) (items : list pyvalue) (depth : Z) :
  depth ≤ 3 →
  serialize_value (PySet oid items) depth
  = (serialized_items ←
       serialize_first (λ item, serialize_value item (depth + 1))
                       (Z.to_nat MAX_LIST_LENGTH) items;
     Ok (Snapshot (VItems serialized_items) "set" oid (Some (len items))
                  None)).
Proof.
  intros Hdepth. cbn [serialize_value].
  destruct (Z.ltb_spec 3 depth) as [?|_]; [lia|reflexivity].
Qed.

Lemma serialize_value_id (value : pyvalue) (depth : Z) (s : snapshot) :
  serialize_value value depth = Ok s → sv_id s = id_of value.
Proof.
  destruct (Z.ltb_spec 3 depth) as [Hdeep|Hdepth].
  { destruct value; cbn [serialize_value];
      (destruct (Z.ltb_spec 3 depth) as [_|?]; [|lia]); by intros [= <-]. }
  destruct value;
    [| | | | |rewrite serialize_value_list by done
     |rewrite serialize_value_tuple by done
     |rewrite serialize_value_dict by done
     |rewrite serialize_value_set by done|];
    try (cbn [serialize_value];
         destruct (Z.ltb_spec 3 depth) as [?|_]; [lia|]).
  1-5: by intros [= <-].
  - destruct (serialize_first _ _ _); [|discriminate]. by intros [= <-].
  - destruct (serialize_first _ _ _); [|discriminate]. by intros [= <-].
  - destruct (serialize_entries _ _ _ _); [|discriminate]. by intros [= <-].
  - destruct (serialize_first _ _ _); [|discriminate]. by intros [= <-].
  - destruct str_of; by intros [= <-].
Qed.

(** The names of a mapping after an assignment: unchanged when the name is
    there, with the name at the end otherwise. *)
Lemma dict_set_names {V : Type} (key : string) (v : V)
    (d : list (string * V)) :
  (dict_set key v d).*1
  = if bool_decide (key ∈ d.*1) then d.*1 else d.*1 ++ [key].
Proof.
  induction d as [|[k w] d IH]; [reflexivity|].
  cbn [dict_set]. destruct (String.eqb_spec k key) as [->|Hne];
    rewrite !fmap_cons; cbn [fst].
  - rewrite bool_decide_eq_true_2; [reflexivity|by left].
  - rewrite IH. destruct (bool_decide (key ∈ d.*1)) eqn:Hin.
    + apply bool_decide_eq_true_1 in Hin.
      rewrite bool_decide_eq_true_2; [reflexivity|by right].
    + apply bool_decide_eq_false_1 in Hin.
      rewrite bool_decide_eq_false_2; [reflexivity|].
      intros [?|?]%elem_of_cons; congruence.
Qed.

Lemma dict_set_NoDup {V : Type} (key : string) (v : V)
    (d : list (string * V)) :
  NoDup d.*1 → NoDup (dict_set key v d).*1.
Proof.
  intros Hd. rewrite dict_set_names.
  destruct (bool_decide (key ∈ d.*1)) eqn:Hin; [done|].
  apply bool_decide_eq_false_1 in Hin.
  apply NoDup_app. split; [done|]. split; [|apply NoDup_singleton].
  intros x Hx ->%list_elem_of_singleton. done.
Qed.

Lemma dict_set_length {V : Type} (key : string) (v : V)
    (d : list (string * V)) :
  (List.length (dict_set key v d) ≤ S (List.length d))%nat.
Proof.
  rewrite <- (length_fmap fst (dict_set key v d)), dict_set_names.
  destruct (bool_decide _); rewrite ?length_app, length_fmap; simpl; lia.
Qed.

(** The dict loop adds at most one entry per key it visits, visits none
    from the twentieth on, and keeps the names distinct. *)
Lemma serialize_entries_bounds (f : pyvalue → result snapshot) (count : Z)
    (acc d : list (string * snapshot)) (entries : list (pykey * pyvalue)) :
  serialize_entries f count acc entries = Ok d →
  NoDup acc.*1 →
  NoDup d.*1
  ∧ len d ≤ len acc + Z.max 0 (20 - count)
  ∧ len d ≤ len acc + len entries.
Proof.
  unfold len.
  revert count acc; induction entries as [|[k v] rest IH];
    intros count acc; cbn [serialize_entries].
  { intros [= <-] Hacc. split; [done|]. simpl. lia. }
  destruct (Z.leb_spec 20 count) as [Hfull|Hroom].
  { intros [= <-] Hacc. split; [done|]. simpl. lia. }
  destruct (match k with KeyStr s => Ok s | KeyOther str_of => str_of end)
    as [key_str|e]; simpl; [|discriminate].
  destruct (f v) as [shot|e]; simpl; [|discriminate].
  intros Hloop Hacc.
  destruct (IH _ _ Hloop (dict_set_NoDup key_str shot acc Hacc))
    as (Hd & Hcap & Hlen).
  pose proof (dict_set_length key_str shot acc).
  split; [done|]. simpl. lia.
Qed.




End python_serializer_more.

Lemma deliver_app (self : PyTracer.CodeTracer)
    (evs more : list (PyTracer.pyframe * PyTracer.trace_event)) :
  PyTracer.deliver self (evs ++ more)
  = match PyTracer.deliver self evs with
    | (self', None) => PyTracer.deliver self' more
    | (self', Some e) => (self', Some e)
    end.
Proof.
  revert self; induction evs as [|[fr ev] evs IH]; intros self;
    [reflexivity|].
  simpl. destruct (PyTracer.trace_function self fr ev) as [self' [rt|e]];
    [apply IH|reflexivity].
Qed.

(** X1: events of other files and events of kinds the recorder does not
    handle leave no trace: a run gives the same result as the run without
    them. *)
Theorem unrecordable_events_leave_no_trace (run : PyTracer.execution) :
  PyTracer.trace_code (PyTracer.Compiled run)
  = PyTracer.trace_code
      (PyTracer.Compiled
         {| PyTracer.events :=
              List.filter (recordable "<user_code>") (PyTracer.events run);
            PyTracer.outcome := PyTracer.outcome run |}).
Proof.
  simpl.
  by rewrite (deliver_unrecordable (PyTracer.init "<user_code>")
                (PyTracer.events run)).
Qed.

(** X2: once the step counter has reached the ceiling, whatever the
    interpreter reports afterwards changes nothing: no frame, no counter,
    and no exception from the tracer. *)
Theorem events_after_the_ceiling_are_ignored (self : PyTracer.CodeTracer)
    (evs more : list (PyTracer.pyframe * PyTracer.trace_event)) :
  PyTracer.MAX_STEPS ≤ PyTracer.step_count (PyTracer.deliver self evs).1 →
  PyTracer.deliver self (evs ++ more) = PyTracer.deliver self evs.
Proof.
  intros Hceil. rewrite deliver_app.
  destruct (PyTracer.deliver self evs) as [self' [e|]]; [reflexivity|].
  by apply deliver_at_ceiling.
Qed.

Lemma events_after_the_ceiling_are_ignored_witness :
  PyTracer.deliver (PyTracer.init "<user_code>")
    (PyTracer.events looping_run
     ++ [({| PyTracer.co_filename := "<user_code>";
             PyTracer.co_name := "<module>"; PyTracer.f_lineno := 3;
             PyTracer.f_locals := [("d", unprintable_key_dict)] |},
          PyTracer.OnLine)])
  = PyTracer.deliver (PyTracer.init "<user_code>")
                     (PyTracer.events looping_run).
Proof.
  apply events_after_the_ceiling_are_ignored. vm_compute. discriminate.
Defined.

(** What [trace_code] returns has at most [MAX_STEPS] frames, all well
    formed. *)
Lemma trace_code_frames (compiled : PyTracer.compile_result)
    (traced : TraceResult PyTracer.frame) :
  PyTracer.trace_code compiled = PyTracer.Ok traced →
  PyTracer.len (frames traced) ≤ PyTracer.MAX_STEPS
  ∧ Forall well_formed (frames traced).
Proof.
  destruct compiled as [msg lineno|run]; simpl.
  { intros [= <-]. split; [done|constructor]. }
  pose proof (deliver_bounded (PyTracer.init "<user_code>")
                (PyTracer.events run) eq_refl) as Hbound.
  destruct (deliver_well_formed (PyTracer.init "<user_code>")
              (PyTracer.events run)) as [_ Hwf];
    [done|by constructor|].
  destruct (PyTracer.outcome run); intros [= <-]; simpl;
    (split; [by apply Hbound|exact Hwf]).
Qed.

Lemma parsed_frame_well_formed (f : PyTracer.frame) :
  well_formed f → well_formed (PyTracer.parsed_frame f).
Proof.
  unfold well_formed. simpl. intros (Hdepth & Hreturn & Hexception).
  split; [exact Hdepth|]. split; [|exact Hexception].
  rewrite <- Hreturn. by destruct (PyTracer.return_value f).
Qed.

(** X3: as long as the traced program leaves the tracer alone, no run of
    the Python engine returns more than [MAX_STEPS] frames, from
    [trace_code] or through the hook, however the run ends. *)
Theorem python_trace_is_bounded :
  (∀ (compiled : PyTracer.compile_result)
     (traced : TraceResult PyTracer.frame),
     PyTracer.trace_code compiled = PyTracer.Ok traced →
     PyTracer.len (frames traced) ≤ PyTracer.MAX_STEPS)
  ∧ (∀ (pyodideRef : option PyTracer.PyodideInstance) (code : string),
       PyTracer.len (frames (PyTracer.runCode pyodideRef code))
       ≤ PyTracer.MAX_STEPS).
Proof.
  split.
  - intros compiled traced Htraced.
    by destruct (trace_code_frames compiled traced Htraced).
  - intros pyodideRef code.
    destruct (runCode_frames pyodideRef code)
      as [->|(compiled & traced & Htraced & ->)]; [done|].
    unfold PyTracer.len. rewrite length_map.
    by destruct (trace_code_frames compiled traced Htraced).
Qed.

Lemma python_trace_is_bounded_witness :
  ∃ traced,
    PyTracer.trace_code (PyTracer.Compiled looping_run) = PyTracer.Ok traced
    ∧ PyTracer.len (frames traced) ≤ PyTracer.MAX_STEPS.
Proof.
  eexists. split; [reflexivity|].
  apply (proj1 python_trace_is_bounded (PyTracer.Compiled looping_run)).
  reflexivity.
Defined.

(** X4: every frame of every run of the Python engine has a depth that is
    not negative, carries [return_value] exactly when it is a return frame
    and [exception] exactly when it is an exception frame. *)
Theorem python_frames_are_well_formed
    (pyodideRef : option PyTracer.PyodideInstance) (code : string) :
  Forall well_formed (frames (PyTracer.runCode pyodideRef code)).
Proof.
  destruct (runCode_frames pyodideRef code)
    as [->|(compiled & traced & Htraced & ->)]; [constructor|].
  destruct (trace_code_frames compiled traced Htraced) as [_ Hwf].
  change (Forall well_formed (PyTracer.parsed_frame <$> frames traced)).
  apply Forall_fmap. eapply Forall_impl; [exact Hwf|].
  intros f. apply parsed_frame_well_formed.
Qed.

(** X5: recording only appends: the frames recorded for the first events of
    an execution are the first frames recorded for the whole of it. *)
Theorem python_frames_only_grow (self : PyTracer.CodeTracer)
    (evs more : list (PyTracer.pyframe * PyTracer.trace_event)) :
  PyTracer.self_frames (PyTracer.deliver self evs).1
  `prefix_of` PyTracer.self_frames (PyTracer.deliver self (evs ++ more)).1.
Proof.
  rewrite deliver_app.
  destruct (PyTracer.deliver self evs) as [self' [e|]]; [done|].
  apply deliver_extends.
Qed.

(** X6: two bindings of a frame get snapshots with the same [id] exactly
    when they are bound to objects with the same identity. *)
Theorem snapshots_share_id_iff_values_do
    (lv : list (string * PyTracer.pyvalue))
    (vars : list (string * PyTracer.snapshot)) (n1 n2 : string)
    (v1 v2 : PyTracer.pyvalue) :
  NoDup lv.*1 →
  PyTracer.capture_locals lv = PyTracer.Ok vars →
  (n1, v1) ∈ lv → (n2, v2) ∈ lv →
  kept n1 v1 = true → kept n2 v2 = true →
  ∃ s1 s2, (n1, s1) ∈ vars ∧ (n2, s2) ∈ vars
           ∧ (PyTracer.sv_id s1 = PyTracer.sv_id s2
              ↔ PyTracer.id_of v1 = PyTracer.id_of v2).
Proof.
  intros Hdup Hcap Hin1 Hin2 Hk1 Hk2.
  destruct (capture_loop_records lv [] vars n1 v1 Hdup Hcap Hin1 Hk1)
    as (s1 & Hs1 & Hv1).
  destruct (capture_loop_records lv [] vars n2 v2 Hdup Hcap Hin2 Hk2)
    as (s2 & Hs2 & Hv2).
  exists s1, s2. split; [done|]. split; [done|].
  by rewrite (serialize_value_id _ _ _ Hs1), (serialize_value_id _ _ _ Hs2).
Qed.

Lemma snapshots_share_id_iff_values_do_witness :
  ∃ s1 s2,
    ("a", s1) ∈ [("a", PyTracer.Snapshot (PyTracer.VItems []) "list" 31
                                         (Some 0) None);
                 ("b", PyTracer.Snapshot (PyTracer.VItems []) "list" 31
                                         (Some 0) None);
                 ("c", PyTracer.Snapshot (PyTracer.VItems []) "list" 32
                                         (Some 0) None)]
    ∧ ("c", s2) ∈ [("a", PyTracer.Snapshot (PyTracer.VItems []) "list" 31
                                           (Some 0) None);
                   ("b", PyTracer.Snapshot (PyTracer.VItems []) "list" 31
                                           (Some 0) None);
                   ("c", PyTracer.Snapshot (PyTracer.VItems []) "list" 32
                                           (Some 0) None)]
    ∧ (PyTracer.sv_id s1 = PyTracer.sv_id s2
       ↔ PyTracer.id_of (PyTracer.PyList 31 [])
         = PyTracer.id_of (PyTracer.PyList 32 [])).
Proof.
  apply (snapshots_share_id_iff_values_do
           [("a", PyTracer.PyList 31 []); ("b", PyTracer.PyList 31 []);
            ("c", PyTracer.PyList 32 [])]);
    [by apply (bool_decide_unpack _)|reflexivity
    |apply list_elem_of_here
    |apply list_elem_of_further, list_elem_of_further, list_elem_of_here
    |reflexivity|reflexivity].
Defined.

(** X7: a text of at most [MAX_STRING_LENGTH] characters, also one of
    exactly that length, is returned as it is, without the marker. *)
Theorem short_text_is_kept_whole (oid : Z) (s : string) (depth : Z) :
  depth ≤ 3 →
  PyTracer.str_len s ≤ PyTracer.MAX_STRING_LENGTH →
  PyTracer.serialize_value (PyTracer.PyStr oid s) depth
  = PyTracer.Ok (PyTracer.Snapshot (PyTracer.VText s) "str" oid None None).
Proof.
  intros Hdepth Hshort. cbn [PyTracer.serialize_value].
  destruct (Z.ltb_spec 3 depth) as [?|_]; [lia|].
  destruct (Z.ltb_spec PyTracer.MAX_STRING_LENGTH (PyTracer.str_len s))
    as [?|_]; [lia|].
  rewrite str_take_whole; [reflexivity|].
  unfold PyTracer.str_len, PyTracer.MAX_STRING_LENGTH in *. lia.
Qed.

Lemma short_text_is_kept_whole_witness :
  PyTracer.serialize_value
    (PyTracer.PyStr 7 (str_take 100 long_text)) 0
  = PyTracer.Ok (PyTracer.Snapshot (PyTracer.VText (str_take 100 long_text))
                                   "str" 7 None None).
Proof.
  apply short_text_is_kept_whole; [lia|]. vm_compute. discriminate.
Defined.

(** X8: a list of at most [MAX_LIST_LENGTH] elements, also one of exactly
    that length, is serialized element by element in full, with its length
    and without the [truncated] flag. *)
Theorem short_list_is_kept_whole (oid : Z) (items : list PyTracer.pyvalue)
    (depth : Z) (s : PyTracer.snapshot) :
  depth ≤ 3 →
  PyTracer.len items ≤ PyTracer.MAX_LIST_LENGTH →
  PyTracer.serialize_value (PyTracer.PyList oid items) depth
  = PyTracer.Ok s →
  PyTracer.sv_length s = Some (PyTracer.len items)
  ∧ PyTracer.sv_truncated s = None
  ∧ ∃ shown, PyTracer.sv_value s = PyTracer.VItems shown
             ∧ List.length shown = List.length items
             ∧ mapM (λ item, PyTracer.serialize_value item (depth + 1))
                    items = PyTracer.Ok shown.
Proof.
  intros Hdepth Hshort. rewrite serialize_value_list by exact Hdepth.
  destruct (PyTracer.serialize_first _ _ items) as [shown|e] eqn:Hshown;
    simpl; [|discriminate].
  intros [= <-]. simpl.
  destruct (Z.ltb_spec PyTracer.MAX_LIST_LENGTH (PyTracer.len items))
    as [?|_]; [lia|].
  unfold PyTracer.len, PyTracer.MAX_LIST_LENGTH in *.
  repeat split. exists shown. split; [reflexivity|]. split.
  - rewrite (serialize_first_length _ _ _ _ Hshown). lia.
  - rewrite serialize_first_mapM, take_ge in Hshown; [done|lia].
Qed.

Lemma short_list_is_kept_whole_witness :
  PyTracer.sv_length
    (PyTracer.Snapshot
       (PyTracer.VItems (repeat (PyTracer.Snapshot (PyTracer.VInt 0) "int" 1
                                                   None None) 50))
       "list" 7 (Some 50) None)
  = Some (PyTracer.len (repeat (PyTracer.PyInt 1 0) 50))
  ∧ PyTracer.sv_truncated
      (PyTracer.Snapshot
         (PyTracer.VItems (repeat (PyTracer.Snapshot (PyTracer.VInt 0) "int" 1
                                                     None None) 50))
         "list" 7 (Some 50) None)
    = None.
Proof.
  destruct (short_list_is_kept_whole 7 (repeat (PyTracer.PyInt 1 0) 50) 0
              (PyTracer.Snapshot
                 (PyTracer.VItems
                    (repeat (PyTracer.Snapshot (PyTracer.VInt 0) "int" 1
                                               None None) 50))
                 "list" 7 (Some 50) None))
    as (Hlen & Hflag & _);
    [lia|vm_compute; discriminate|vm_compute; reflexivity|].
  split; [exact Hlen|exact Hflag].
Defined.

(** X9: the snapshot of a dict holds at most 20 entries, under names that
    are all different, reports the true number of entries as its length, and
    never carries the [truncated] flag. *)
Theorem dict_snapshot_is_capped (oid : Z)
    (entries : list (PyTracer.pykey * PyTracer.pyvalue)) (depth : Z)
    (s : PyTracer.snapshot) :
  depth ≤ 3 →
  PyTracer.serialize_value (PyTracer.PyDict oid entries) depth
  = PyTracer.Ok s →
  PyTracer.sv_type s = "dict"
  ∧ PyTracer.sv_length s = Some (PyTracer.len entries)
  ∧ PyTracer.sv_truncated s = None
  ∧ ∃ d, PyTracer.sv_value s = PyTracer.VEntries d
         ∧ PyTracer.len d ≤ 20
         ∧ PyTracer.len d ≤ PyTracer.len entries
         ∧ NoDup d.*1.
Proof.
  intros Hdepth. rewrite serialize_value_dict by exact Hdepth.
  destruct (PyTracer.serialize_entries _ _ _ entries) as [d|e] eqn:Hd;
    simpl; [|discriminate].
  intros [= <-]. simpl. repeat split. exists d. split; [reflexivity|].
  destruct (serialize_entries_bounds _ _ _ _ _ Hd) as (Hdup & Hcap & Hlen);
    [constructor|].
  unfold PyTracer.len in *. simpl in *. repeat split; [lia|lia|done].
Qed.

Lemma dict_snapshot_is_capped_witness :
  let entries :=
    imap (λ i v, (PyTracer.KeyOther (PyTracer.Ok (decimal (Z.of_nat i))), v))
         (repeat (PyTracer.PyInt 1 0) 25) in
  ∃ s, PyTracer.serialize_value (PyTracer.PyDict 7 entries) 0
       = PyTracer.Ok s
       ∧ PyTracer.sv_length s = Some 25
       ∧ PyTracer.sv_truncated s = None
       ∧ ∃ d, PyTracer.sv_value s = PyTracer.VEntries d
              ∧ PyTracer.len d ≤ 20.
Proof.
  intros entries.
  destruct (PyTracer.serialize_value (PyTracer.PyDict 7 entries) 0)
    as [s|e] eqn:Hs; [|by vm_compute in Hs].
  exists s. split; [reflexivity|].
  destruct (dict_snapshot_is_capped 7 entries 0 s) as
    (_ & Hlen & Hflag & d & Hd & Hcap & _); [lia|exact Hs|].
  split; [exact Hlen|]. split; [exact Hflag|].
  exists d. split; [exact Hd|exact Hcap].
Defined.



(** X11: the variables of a frame hold nothing but bindings that passed the
    filter: a captured name is a binding of the frame that is not on the
    denylist and whose value is not a callable other than a list, dict or
    set. *)
Theorem captured_names_pass_the_filter
    (lv : list (string * PyTracer.pyvalue))
    (vars : list (string * PyTracer.snapshot)) (n : string) :
  PyTracer.capture_locals lv = PyTracer.Ok vars →
  n ∈ vars.*1 →
  (n ∉ PyTracer.IGNORED_VARS)
  ∧ ∃ v, (n, v) ∈ lv
         ∧ (PyTracer.callable v = false
            ∨ PyTracer.is_list_dict_set v = true).
Proof.
  intros Hcap Hin.
  destruct (capture_loop_keys lv [] vars n Hcap Hin)
    as [?%elem_of_nil|(v & Hv & Hkept)]; [done|].
  unfold kept in Hkept. apply andb_prop in Hkept as [Hden Hcall].
  split.
  - intros Hn. by rewrite bool_decide_eq_true_2 in Hden.
  - exists v. split; [done|].
    destruct (PyTracer.callable v), (PyTracer.is_list_dict_set v); auto.
Qed.

Lemma captured_names_pass_the_filter_witness :
  ("x" ∉ PyTracer.IGNORED_VARS)
  ∧ ∃ v, (("x", v) ∈ [("tracer", PyTracer.PyInt 1 0);
                      ("f", PyTracer.PyObj 2 "function"
                              (PyTracer.Ok "<function f>") true);
                      ("x", PyTracer.PyInt 3 5)])
         ∧ (PyTracer.callable v = false
            ∨ PyTracer.is_list_dict_set v = true).
Proof.
  apply (captured_names_pass_the_filter
           [("tracer", PyTracer.PyInt 1 0);
            ("f", PyTracer.PyObj 2 "function"
                    (PyTracer.Ok "<function f>") true);
            ("x", PyTracer.PyInt 3 5)]
           [("x", PyTracer.Snapshot (PyTracer.VInt 5) "int" 3 None None)]);
    [reflexivity|apply list_elem_of_here].
Defined.

(** ** More on the C engine *)
Section cpp_engine_more.
Import CppEngine.
Context (random_id : nat → Z).

(** The loop never counts past [MAX_STEPS + 1], whatever it is allowed. *)
Lemma stepping_count (dbg : JSCPPDebugger) (fuel : nat)
    (st st' : run_state) (exit : loop_exit) :
  stepCount st ≤ MAX_STEPS →
  stepping random_id fuel dbg st = (st', exit) →
  stepCount st' ≤ MAX_STEPS + 1.
Proof.
  revert st; induction fuel as [|fuel IH]; intros st Hle;
    cbn [stepping].
  { intros [= <- _]. lia. }
  destruct (next (dbg (Z.to_nat (stepCount st)))) as [r|e].
  2:{ intros [= <- _]. simpl. lia. }
  destruct (Z.ltb_spec MAX_STEPS (stepCount st + 1)) as [Hbreak|Hbelow].
  { intros [= <- _]. simpl. lia. }
  destruct (capture_variables _ _ _) as [vars draws].
  destruct r as [|v]; [|intros [= <- _]; simpl; lia].
  destruct (negb (done _)); [|intros [= <- _]; simpl; lia].
  apply IH. simpl. lia.
Qed.

(** A loop that has ended gives the same with more iterations allowed. *)
Lemma stepping_more_fuel (dbg : JSCPPDebugger) (fuel extra : nat)
    (st st' : run_state) (exit : loop_exit) :
  stepping random_id fuel dbg st = (st', exit) →
  exit ≠ LoopRunning →
  stepping random_id (fuel + extra) dbg st = (st', exit).
Proof.
  revert st; induction fuel as [|fuel IH]; intros st;
    cbn [stepping Nat.add].
  { by intros [= _ <-]. }
  destruct (next (dbg (Z.to_nat (stepCount st)))) as [r|e]; [|done].
  destruct (MAX_STEPS <? stepCount st + 1); [done|].
  destruct (capture_variables _ _ _) as [vars draws].
  destruct r as [|v]; [|done].
  destruct (negb (done _)); [|done].
  apply IH.
Qed.

Lemma dict_set_Forall {V : Type} (P : string * V → Prop) (key : string)
    (v : V) (d : list (string * V)) :
  Forall P d → P (key, v) → Forall P (dict_set key v d).
Proof.
  intros Hd Hv. induction Hd as [|[k w] d Hkw Hd IH]; simpl.
  { by constructor. }
  destruct (String.eqb_spec k key) as [->|_]; by constructor.
Qed.

(** The variable loop stores nothing but shown variables. *)
Lemma capture_loop_shown (variables : list (string * SerializedValue))
    (draws : nat) (entries : list (string * jsvalue)) :
  Forall shown_variable variables →
  Forall shown_variable (capture_loop random_id variables draws entries).1.
Proof.
  revert variables draws; induction entries as [|[name varData] rest IH];
    intros variables draws Hvars; cbn [capture_loop]; [done|].
  destruct (String.prefix "_" name || String.eqb name "this") eqn:Hname;
    [by apply IH|].
  destruct (bool_decide (name ∈ STDLIB_FUNCTIONS)) eqn:Hstd;
    [by apply IH|].
  destruct (isFunction varData) as [[|]|e]; [by apply IH| |done].
  destruct (serializeValue random_id varData "unknown" draws)
    as [serialized draws'].
  destruct (is_skipped_struct serialized) eqn:Hskip; [by apply IH|].
  destruct (String.eqb_spec (sv_type serialized) "null") as [?|Hnull];
    [by apply IH|].
  apply IH, dict_set_Forall; [exact Hvars|].
  unfold shown_variable, shown_name; cbn [fst snd].
  rewrite Hname, Hstd. repeat split; [exact Hnull|exact Hskip].
Qed.

Lemma capture_variables_shown (variable : completion jsvalue) (draws : nat) :
  Forall shown_variable (capture_variables random_id variable draws).1.
Proof.
  unfold capture_variables. destruct variable as [allVars|e]; [|done].
  destruct (_ && _); [|done].
  destruct (Object_entries allVars); [|done].
  by apply capture_loop_shown.
Qed.

Lemma stepping_shown (dbg : JSCPPDebugger) (fuel : nat)
    (st st' : run_state) (exit : loop_exit) :
  Forall (λ f, Forall shown_variable (variables f)) (capturedFrames st) →
  stepping random_id fuel dbg st = (st', exit) →
  Forall (λ f, Forall shown_variable (variables f)) (capturedFrames st').
Proof.
  revert st; induction fuel as [|fuel IH]; intros st Hst;
    cbn [stepping].
  { by intros [= <- _]. }
  destruct (next (dbg (Z.to_nat (stepCount st)))) as [r|e];
    [|by intros [= <- _]].
  destruct (MAX_STEPS <? stepCount st + 1); [by intros [= <- _]|].
  pose proof (capture_variables_shown
                (variable (dbg (Z.to_nat (stepCount st))))
                (random_draws st)) as Hvars.
  destruct (capture_variables _ _ _) as [vars draws]. simpl in Hvars.
  set (fs := if (0 <? _) || (0 <? _) then capturedFrames st ++ _
             else capturedFrames st).
  assert (Hfs : Forall (λ f, Forall shown_variable (variables f)) fs).
  { subst fs. destruct (_ || _); [|done].
    apply Forall_app. split; [done|]. by apply Forall_singleton. }
  destruct r as [|v]; [|by intros [= <- _]].
  destruct (negb (done _)); [|by intros [= <- _]].
  by apply IH.
Qed.

(** The array branch: one entry per element, numbered from the id of the
    array. *)
Lemma serialize_items_entries (id : Z) (items : list jsvalue) (idx : Z)
    (entries : list item_entry) :
  serialize_items id items idx = Returns entries →
  List.length entries = List.length items
  ∧ ∀ (i : nat) (entry : item_entry),
      entries !! i = Some entry → item_id entry = id + (idx + Z.of_nat i) + 1.
Proof.
  revert idx entries; induction items as [|item rest IH];
    intros idx entries; cbn [serialize_items].
  { intros [= <-]. split; [done|]. intros i entry Hi.
    by rewrite lookup_nil in Hi. }
  destruct (serialize_item id item idx) as [entry0|e] eqn:Hitem; simpl;
    [|discriminate].
  destruct (serialize_items id rest (idx + 1)) as [more|e] eqn:Hrest; simpl;
    [|discriminate].
  intros [= <-]. destruct (IH _ _ Hrest) as [Hlen Hids].
  split; [simpl; by rewrite Hlen|].
  intros [|i] entry; simpl.
  - intros [= <-]. unfold serialize_item in Hitem.
    destruct (_ && has_prop "v" item);
      [destruct (get_prop "v" item); [|discriminate]|];
      injection Hitem as <-; simpl; lia.
  - intros Hi. rewrite (Hids i entry Hi). lia.
Qed.

Lemma with_prop_found {R : Type} (key : string) (found : jsprop → R)
    (missing : R) (props : list (string * jsprop)) (v : jsvalue) :
  with_prop key (λ _, true) false props = true →
  with_prop key (λ p, match p with
                      | Data v => Returns v
                      | Getter e => Throws e
                      end) (Returns JsUndefined) props = Returns v →
  with_prop key found missing props = found (Data v).
Proof.
  induction props as [|[k p] rest IH]; simpl; [discriminate|].
  destruct (String.eqb k key); [|exact IH].
  destruct p; [|discriminate]. by intros _ [= ->].
Qed.

End cpp_engine_more.

(** X12: no run of the C engine returns more than [MAX_STEPS + 1] frames. *)
Theorem cpp_trace_is_bounded (random_id : nat → Z)
    (cache : option CppEngine.JSCPPModule)
    (imp : CppEngine.completion CppEngine.JSCPPModule) (code : string)
    (draws : nat) :
  Z.of_nat (List.length
              (frames (CppEngine.runCode random_id cache imp code draws)))
  ≤ CppEngine.MAX_STEPS + 1.
Proof.
  destruct (CppEngine.loadJSCPP cache imp) as [jscpp|err] eqn:Hload.
  2:{ unfold CppEngine.runCode. by rewrite Hload. }
  destruct (CppEngine.run jscpp code) as [[n|dbg]|err] eqn:Hrun.
  2:{ destruct (runCode_debugger random_id cache imp code draws jscpp dbg
                  Hload Hrun)
        as (st & calls & Hst & _ & [[err ->]|[[_ ->]|[_ ->]]]); simpl;
        pose proof (stepped_length st Hst); [lia|lia|].
      rewrite length_app. simpl. lia. }
  all: unfold CppEngine.runCode; by rewrite Hload, Hrun.
Qed.

(** X13: the stepping loop ends by itself, for every debugger, within
    [MAX_STEPS + 1] calls of [next()]: allowed more iterations than that, it
    returns the same state, and it has never counted further. *)
Theorem stepping_loop_ends_by_itself (random_id : nat → Z)
    (dbg : CppEngine.JSCPPDebugger) (draws fuel : nat) :
  (CppEngine.loop_bound ≤ fuel)%nat →
  CppEngine.stepping random_id fuel dbg (CppEngine.initial_state draws)
  = CppEngine.stepping random_id CppEngine.loop_bound dbg
                       (CppEngine.initial_state draws)
  ∧ (CppEngine.stepping random_id fuel dbg
                        (CppEngine.initial_state draws)).2
    ≠ CppEngine.LoopRunning
  ∧ CppEngine.stepCount
      (CppEngine.stepping random_id fuel dbg
                          (CppEngine.initial_state draws)).1
    ≤ CppEngine.MAX_STEPS + 1.
Proof.
  intros Hfuel.
  destruct (CppEngine.stepping random_id CppEngine.loop_bound dbg
              (CppEngine.initial_state draws)) as [st exit] eqn:Hloop.
  destruct (stepping_spec random_id dbg CppEngine.loop_bound _ st exit
              (initial_state_stepped draws) eq_refl)
    as (Hexit & _ & _); [by unfold CppEngine.MAX_STEPS|done|exact Hloop|].
  replace fuel with (CppEngine.loop_bound + (fuel - CppEngine.loop_bound))%nat
    by lia.
  rewrite (stepping_more_fuel random_id dbg _ _ _ _ _ Hloop Hexit).
  split; [reflexivity|]. split; [exact Hexit|]. simpl.
  by apply (stepping_count random_id dbg CppEngine.loop_bound
              (CppEngine.initial_state draws) st exit).
Qed.

Lemma stepping_loop_ends_by_itself_witness :
  CppEngine.stepping sample_random 5000 printing_debugger
                     (CppEngine.initial_state 0)
  = CppEngine.stepping sample_random CppEngine.loop_bound printing_debugger
                       (CppEngine.initial_state 0).
Proof.
  apply (stepping_loop_ends_by_itself sample_random printing_debugger
           0 5000).
  vm_compute. lia.
Defined.

(** X14: every variable in every frame of a run of the C engine has a name
    that does not start with an underscore, is not [this] and is not one of
    the library names, and a snapshot that is neither of type [null] nor a
    dropped struct. *)
Theorem cpp_variables_are_filtered (random_id : nat → Z)
    (cache : option CppEngine.JSCPPModule)
    (imp : CppEngine.completion CppEngine.JSCPPModule) (code : string)
    (draws : nat) :
  Forall (λ f, Forall shown_variable (CppEngine.variables f))
         (frames (CppEngine.runCode random_id cache imp code draws)).
Proof.
  unfold CppEngine.runCode.
  destruct (CppEngine.loadJSCPP cache imp) as [jscpp|err]; [|by constructor].
  destruct (CppEngine.run jscpp code) as [[n|dbg]|err];
    [by constructor| |by constructor].
  destruct (CppEngine.stepping random_id CppEngine.loop_bound dbg
              (CppEngine.initial_state draws)) as [st exit] eqn:Hloop.
  pose proof (stepping_shown random_id dbg CppEngine.loop_bound
                (CppEngine.initial_state draws) st exit
                (Forall_nil_2 _) Hloop) as Hshown.
  destruct exit; simpl; try done;
    (destruct (negb _); [|done]; apply Forall_app; split; [done|];
     apply Forall_singleton; constructor).
Qed.

(** X15: the C engine never cuts an array: the snapshot of an array whose
    elements can be read has one entry per element, reports that number as
    its length, and numbers the entries from the id of the array on. *)
Theorem cpp_array_is_kept_whole (random_id : nat → Z)
    (items : list CppEngine.jsvalue) (type : string) (draws draws' : nat)
    (sv : CppEngine.SerializedValue) :
  CppEngine.serializeValue random_id (CppEngine.JsArray items) type draws
  = (sv, draws') →
  CppEngine.sv_type sv = "array" →
  CppEngine.sv_length sv = Some (Z.of_nat (List.length items))
  ∧ ∃ entries, CppEngine.sv_value sv = CppEngine.PItems entries
               ∧ List.length entries = List.length items
               ∧ ∀ (i : nat) (entry : CppEngine.item_entry),
                   entries !! i = Some entry →
                   CppEngine.item_id entry
                   = CppEngine.sv_id sv + Z.of_nat i + 1.
Proof.
  cbn [CppEngine.serializeValue].
  destruct (CppEngine.serialize_items (random_id draws) items 0)
    as [entries|e] eqn:Hitems.
  2:{ intros [= <- _]. discriminate. }
  intros [= <- _] _. simpl. split; [reflexivity|].
  destruct (serialize_items_entries _ _ _ _ Hitems) as [Hlen Hids].
  exists entries. split; [reflexivity|]. split; [exact Hlen|].
  intros i entry Hi. rewrite (Hids i entry Hi). lia.
Qed.

Lemma cpp_array_is_kept_whole_witness :
  let items := repeat (int_variable 7) 60 in
  ∃ sv draws',
    CppEngine.serializeValue sample_random (CppEngine.JsArray items)
                             "unknown" 0 = (sv, draws')
    ∧ CppEngine.sv_length sv = Some 60.
Proof.
  intros items.
  destruct (CppEngine.serializeValue sample_random (CppEngine.JsArray items)
              "unknown" 0) as [sv draws'] eqn:Hsv.
  exists sv, draws'. split; [reflexivity|].
  apply (cpp_array_is_kept_whole sample_random items "unknown" 0%nat draws'
           sv Hsv).
  by vm_compute in Hsv; injection Hsv as <- _.
Defined.

(** X16: the type tag of a wrapped number follows its value, not the type
    JSCPP declares for it: a wrapper around a number is reported as [int]
    when the number is an integer and as [float] otherwise, under the id of
    the draw made for the number. *)
Theorem cpp_number_tag_follows_the_value (random_id : nat → Z)
    (props : list (string * CppEngine.jsprop))
    (json : CppEngine.completion string) (n : CppEngine.jsnum)
    (name : CppEngine.jsvalue) (type : string) (draws : nat) :
  CppEngine.has_prop "v" (CppEngine.JsObject props json) = true →
  CppEngine.get_prop "v" (CppEngine.JsObject props json)
  = CppEngine.Returns (CppEngine.JsNumber n) →
  (t ← CppEngine.get_prop "t" (CppEngine.JsObject props json);
   CppEngine.get_prop_opt "name" t) = CppEngine.Returns name →
  CppEngine.serializeValue random_id (CppEngine.JsObject props json)
                           type draws
  = ({| CppEngine.sv_value := CppEngine.PNumber n;
        CppEngine.sv_type :=
          if CppEngine.isInteger n then "int" else "float";
        CppEngine.sv_id := random_id (S draws);
        CppEngine.sv_length := None |}, S (S draws)).
Proof.
  intros Hhas Hget Hname. cbn [CppEngine.serializeValue].
  rewrite (with_prop_found _ _ _ _ _ Hhas Hget).
  cbn [CppEngine.typeof String.eqb]. simpl String.eqb.
  by rewrite Hname.
Qed.

Lemma cpp_number_tag_follows_the_value_witness :
  CppEngine.serializeValue sample_random
    (CppEngine.JsObject
       [("t", CppEngine.Data
                (CppEngine.JsObject
                   [("type", CppEngine.Data (CppEngine.JsString "primitive"));
                    ("name", CppEngine.Data (CppEngine.JsString "double"))]
                   (CppEngine.Returns "{}")));
        ("v", CppEngine.Data (CppEngine.JsNumber (CppEngine.Int 2)))]
       (CppEngine.Returns "{}"))
    "unknown" 0
  = ({| CppEngine.sv_value := CppEngine.PNumber (CppEngine.Int 2);
        CppEngine.sv_type := "int"; CppEngine.sv_id := sample_random 1;
        CppEngine.sv_length := None |}, 2%nat).
Proof.
  apply (cpp_number_tag_follows_the_value sample_random _ _
           (CppEngine.Int 2) (CppEngine.JsString "double"));
    reflexivity.
Defined.

(** ** The hooks between calls *)

Lemma usePyodide_runCode_result (h : UsePyodide.hook) (code : string) :
  (UsePyodide.runCode h code).1
  = PyTracer.runCode (UsePyodide.pyodideRef h) code.
Proof.
  unfold UsePyodide.runCode, PyTracer.runCode.
  destruct (UsePyodide.pyodideRef h) as [pyodide|]; [|reflexivity].
  by destruct (PyTracer.try_block _ _).
Qed.

(** With the call read and the tracer returning, the [try] block ends as
    [JSON.parse] does. *)
Lemma try_block_through_json (pyodide : PyTracer.PyodideInstance)
    (code source : string) (traced : TraceResult PyTracer.frame) :
  PyTracer.read_call pyodide (PyTracer.pythonCall code)
  = PyTracer.Ok source →
  PyTracer.trace_code (PyTracer.interpret pyodide source)
  = PyTracer.Ok traced →
  PyTracer.try_block pyodide code = PyTracer.through_json traced.
Proof.
  intros Hread Htraced. unfold PyTracer.try_block.
  by rewrite Hread, Htraced.
Qed.

Lemma useCpp_runCode_result (random_id : nat → Z) (h : UseCpp.hook)
    (imp : CppEngine.completion CppEngine.JSCPPModule) (code : string) :
  (UseCpp.runCode random_id h imp code).1
  = CppEngine.runCode random_id (UseCpp.JSCPP h) imp code (UseCpp.draws h).
Proof.
  unfold UseCpp.runCode, CppEngine.runCode.
  destruct (CppEngine.loadJSCPP _ _) as [jscpp|err]; [|reflexivity].
  destruct (CppEngine.run jscpp code) as [[n|dbg]|err]; try reflexivity.
  destruct (CppEngine.stepping _ _ _ _) as [st [|err|]]; reflexivity.
Qed.

Lemma useCpp_runCode_cache (random_id : nat → Z) (h : UseCpp.hook)
    (imp : CppEngine.completion CppEngine.JSCPPModule) (code : string) :
  UseCpp.JSCPP (UseCpp.runCode random_id h imp code).2
  = UseCpp.cache_after (UseCpp.JSCPP h) imp.
Proof.
  unfold UseCpp.runCode.
  destruct (CppEngine.loadJSCPP _ _) as [jscpp|err]; [|reflexivity].
  destruct (CppEngine.run jscpp code) as [[n|dbg]|err]; try reflexivity.
  destruct (CppEngine.stepping _ _ _ _) as [st [|err|]]; reflexivity.
Qed.

(** X17: initializing is idempotent: once a call of [initialize] has stored
    an instance, a further call changes nothing, whatever its awaited steps
    would come to. *)
Theorem initialize_is_idempotent (h : UsePyodide.hook)
    (pyodide : PyTracer.PyodideInstance)
    (outcome : UsePyodide.init_outcome) :
  UsePyodide.initializingRef h = false →
  UsePyodide.initialize
    (UsePyodide.initialize h (UsePyodide.Initialized pyodide)) outcome
  = UsePyodide.initialize h (UsePyodide.Initialized pyodide).
Proof.
  intros Hidle. destruct h as [loading ready err fs ref starting].
  simpl in Hidle. subst starting. by destruct ref.
Qed.

Lemma initialize_is_idempotent_witness :
  UsePyodide.initialize
    (UsePyodide.initialize UsePyodide.mounted
       (UsePyodide.Initialized rejecting_pyodide))
    (UsePyodide.InitFailed CppEngine.ThrowOther)
  = UsePyodide.initialize UsePyodide.mounted
      (UsePyodide.Initialized rejecting_pyodide).
Proof. apply initialize_is_idempotent. reflexivity. Defined.

(** X18: what a run gets after an initialization of a hook without an
    instance. After a failed one the hook holds the message and every run
    is rejected, and a later call of [initialize] is not held back and can
    store an instance. After a successful one the hook is ready and a run
    goes to that instance: a run that gets as far as [setFrames] leaves its
    frames in the hook, and a run that is caught, as one whose result holds
    a float that is not finite is, leaves the hook as it was. *)
Theorem run_follows_initialization (h : UsePyodide.hook)
    (outcome : UsePyodide.init_outcome) (code : string) :
  UsePyodide.pyodideRef h = None →
  UsePyodide.initializingRef h = false →
  let h' := UsePyodide.initialize h outcome in
  match outcome with
  | UsePyodide.InitFailed err =>
      UsePyodide.error h' = Some (UsePyodide.errorMessage err)
      ∧ UsePyodide.isReady h' = UsePyodide.isReady h
      ∧ UsePyodide.runCode h' code
        = (trace_result false (Some "Pyodide is not initialized") [], h')
      ∧ ∀ pyodide,
          UsePyodide.pyodideRef
            (UsePyodide.initialize h' (UsePyodide.Initialized pyodide))
          = Some pyodide
  | UsePyodide.Initialized pyodide =>
      UsePyodide.isReady h' = true
      ∧ (UsePyodide.runCode h' code).1
        = PyTracer.runCode (Some pyodide) code
      ∧ (∀ r, PyTracer.try_block pyodide code = PyTracer.TryReturns r →
              (UsePyodide.runCode h' code).1 = r
              ∧ UsePyodide.frames (UsePyodide.runCode h' code).2
                = Some (frames r))
      ∧ (∀ err, PyTracer.try_block pyodide code = PyTracer.TryThrows err →
                UsePyodide.runCode h' code
                = (trace_result false
                     (Some (PyTracer.errorMessage pyodide code err)) [], h'))
      ∧ (∀ source traced,
           PyTracer.read_call pyodide (PyTracer.pythonCall code)
           = PyTracer.Ok source →
           PyTracer.trace_code (PyTracer.interpret pyodide source)
           = PyTracer.Ok traced →
           UsePyodide.frames (UsePyodide.runCode h' code).2
           = if PyTracer.dumps_returns traced
                && PyTracer.parse_returns traced
             then Some (frames (PyTracer.parsed traced))
             else UsePyodide.frames h)
  end.
Proof.
  intros Href Hidle h'. subst h'.
  destruct h as [loading ready err fs ref starting].
  simpl in Href, Hidle. subst ref starting.
  destruct outcome as [pyodide|thrown]; simpl.
  - split; [reflexivity|]. split.
    { by rewrite usePyodide_runCode_result. }
    split; [|split].
    + intros r Hr. unfold UsePyodide.runCode. simpl. by rewrite Hr.
    + intros e He. unfold UsePyodide.runCode. simpl. by rewrite He.
    + intros source traced Hread Htraced.
      unfold UsePyodide.runCode. simpl.
      rewrite (try_block_through_json _ _ _ _ Hread Htraced).
      unfold PyTracer.through_json.
      destruct (PyTracer.dumps_returns traced); [|reflexivity].
      by destruct (PyTracer.parse_returns traced).
  - repeat split.
Qed.

Lemma run_follows_initialization_witness :
  UsePyodide.runCode
    (UsePyodide.initialize UsePyodide.mounted
       (UsePyodide.InitFailed
          (CppEngine.ThrowError "Failed to load Pyodide script")))
    "x = 1"
  = (trace_result false (Some "Pyodide is not initialized") [],
     UsePyodide.initialize UsePyodide.mounted
       (UsePyodide.InitFailed
          (CppEngine.ThrowError "Failed to load Pyodide script"))).
Proof.
  apply (run_follows_initialization UsePyodide.mounted
           (UsePyodide.InitFailed
              (CppEngine.ThrowError "Failed to load Pyodide script"))
           "x = 1" eq_refl eq_refl).
Defined.

(** X19: the JSCPP module is imported once: after a run whose import
    returned a module, the module is in the cache, and what a later run does
    no longer depends on what an import would give; after a run whose
    import threw, the cache is still empty. *)
Theorem jscpp_is_imported_once (random_id : nat → Z) (h : UseCpp.hook)
    (imp : CppEngine.completion CppEngine.JSCPPModule) (code : string) :
  UseCpp.JSCPP h = None →
  let h' := (UseCpp.runCode random_id h imp code).2 in
  match imp with
  | CppEngine.Returns module =>
      UseCpp.JSCPP h' = Some module
      ∧ ∀ imp1 imp2 code',
          UseCpp.runCode random_id h' imp1 code'
          = UseCpp.runCode random_id h' imp2 code'
  | CppEngine.Throws err =>
      UseCpp.JSCPP h' = None
      ∧ UseCpp.error h' = Some (CppEngine.errorMessage err)
  end.
Proof.
  intros Hcache h'.
  pose proof (useCpp_runCode_cache random_id h imp code) as Hafter.
  fold h' in Hafter. rewrite Hcache in Hafter.
  destruct imp as [module|err]; simpl in Hafter.
  - split; [exact Hafter|]. intros imp1 imp2 code'.
    unfold UseCpp.runCode. by rewrite Hafter.
  - split; [exact Hafter|]. subst h'. unfold UseCpp.runCode.
    by rewrite Hcache.
Qed.

Lemma jscpp_is_imported_once_witness :
  let h := {| UseCpp.isLoading := false; UseCpp.error := None;
              UseCpp.frames := None; UseCpp.JSCPP := None;
              UseCpp.draws := 0 |} in
  UseCpp.JSCPP
    (UseCpp.runCode sample_random h
       (CppEngine.Returns (module_of skipping_debugger)) "int main() {}").2
  = Some (module_of skipping_debugger).
Proof.
  intros h.
  apply (jscpp_is_imported_once sample_random h
           (CppEngine.Returns (module_of skipping_debugger))
           "int main() {}" eq_refl).
Defined.

(** X20: the frames the router hands on are those of the Python hook as
    soon as a Python run has got as far as [setFrames], also after later
    runs on the C engine. *)
Theorem python_frames_shadow_cpp_frames (pyodide : UsePyodide.hook)
    (instance : PyTracer.PyodideInstance) (code : string)
    (r : TraceResult PyTracer.frame) (random_id : nat → Z)
    (cpp : UseCpp.hook)
    (imp : CppEngine.completion CppEngine.JSCPPModule) (code' : string) :
  UsePyodide.pyodideRef pyodide = Some instance →
  PyTracer.try_block instance code = PyTracer.TryReturns r →
  UseCodeRunner.frames (UsePyodide.runCode pyodide code).2
                       (UseCpp.runCode random_id cpp imp code').2
  = Some (inl (frames r)).
Proof.
  intros Href Hr. unfold UseCodeRunner.frames, UsePyodide.runCode.
  by rewrite Href, Hr.
Qed.

Lemma python_frames_shadow_cpp_frames_witness :
  let pyodide :=
    UsePyodide.initialize UsePyodide.mounted
      (UsePyodide.Initialized rejecting_pyodide) in
  let cpp := {| UseCpp.isLoading := false; UseCpp.error := None;
                UseCpp.frames := None; UseCpp.JSCPP := None;
                UseCpp.draws := 0 |} in
  UseCodeRunner.frames
    (UsePyodide.runCode pyodide "def f(:").2
    (UseCpp.runCode sample_random cpp
       (CppEngine.Returns (module_of skipping_debugger))
       "int main() { int x = 5; }").2
  = Some (inl []).
Proof.
  intros pyodide cpp.
  apply (python_frames_shadow_cpp_frames pyodide rejecting_pyodide "def f(:"
           (trace_result false
              (Some "SyntaxError: invalid syntax at line 1") []));
    reflexivity.
Defined.

(** ** The cursor of the application *)
Section app_cursor.
Import App.

Lemma setCurrentStep_in_range (update : Z → Z → Z) (st : state) :
  cursor_in_range st →
  (∀ r, result st = Some r → 0 < frame_count r →
        0 ≤ currentStep st < frame_count r →
        0 ≤ update (frame_count r) (currentStep st) < frame_count r) →
  cursor_in_range (setCurrentStep update st).
Proof.
  unfold cursor_in_range, setCurrentStep. intros Hst Hupdate.
  destruct (result st) as [r|] eqn:Hr; [|by rewrite Hr].
  destruct (Z.ltb_spec 0 (frame_count r)) as [Hpos|Hnone]; simpl.
  - destruct (Z.ltb_spec 0 (frame_count r)) as [_|?]; [|lia].
    by apply Hupdate.
  - rewrite Hr. by destruct (Z.ltb_spec 0 (frame_count r)) as [?|_]; [lia|].
Qed.

Lemma handle_in_range (first_sample : Language → string) (st : state)
    (a : action) :
  cursor_in_range st → in_range st a →
  cursor_in_range (handle first_sample st a).
Proof.
  intros Hst Ha. destruct a as [l|text|pyodide cpp| | | | |value];
    cbn [handle].
  - reflexivity.
  - exact Hst.
  - unfold cursor_in_range, handleRunCode. simpl.
    destruct (Z.ltb_spec 0 (frame_count (runCode pyodide cpp (code st)
                                           (language st)))); lia.
  - apply setCurrentStep_in_range; [exact Hst|]. intros; lia.
  - apply setCurrentStep_in_range; [exact Hst|]. intros; lia.
  - apply setCurrentStep_in_range; [exact Hst|]. intros; lia.
  - apply setCurrentStep_in_range; [exact Hst|]. intros; lia.
  - apply setCurrentStep_in_range; [exact Hst|].
    intros r Hr Hpos _. simpl in Ha. rewrite Hr in Ha. lia.
Qed.

Lemma currentFrame_defined (st : state) :
  cursor_in_range st → timeline_shown st = true →
  is_Some (currentFrame st).
Proof.
  unfold cursor_in_range, timeline_shown, currentFrame.
  destruct (result st) as [r|]; [|discriminate].
  intros Hst Hshown. rewrite Hshown in Hst.
  destruct (Z.ltb_spec (currentStep st) 0) as [?|_]; [lia|].
  destruct r as [r|r]; simpl in Hst; apply fmap_is_Some, lookup_lt_is_Some;
    lia.
Qed.

End app_cursor.

(** X21: in every state the application can get into, the cursor is 0 when
    there is no frame to show and an index into the frames otherwise, so
    that the frame on display exists whenever the timeline is shown. *)
Theorem cursor_stays_in_range (first_sample : Language → string)
    (st : App.state) :
  App.reachable first_sample st →
  App.cursor_in_range st
  ∧ (App.timeline_shown st = true → is_Some (App.currentFrame st)).
Proof.
  intros Hreach.
  assert (Hst : App.cursor_in_range st).
  { induction Hreach as [|st a _ IH Ha]; [reflexivity|].
    by apply handle_in_range. }
  split; [exact Hst|]. by apply currentFrame_defined.
Qed.

Lemma cursor_stays_in_range_witness :
  let first_sample := λ _ : Language, "x = 1" in
  let pyodide := {| isReady := true;
                    pyodideRef :=
                      Some (instance_of (PyTracer.Compiled short_run)) |} in
  let cpp := {| random_id := sample_random; JSCPP := None;
                import_JSCPP :=
                  CppEngine.Returns (module_of skipping_debugger);
                random_draws := 0 |} in
  let st :=
    App.handle first_sample
      (App.handle first_sample
         (App.handle first_sample (App.initial first_sample)
            (App.RunCode pyodide cpp))
         App.Next)
      (App.Slider 2) in
  App.cursor_in_range st
  ∧ (App.timeline_shown st = true → is_Some (App.currentFrame st)).
Proof.
  intros first_sample pyodide cpp st.
  apply (cursor_stays_in_range first_sample st). subst st.
  refine (App.reachable_handle first_sample _ (App.Slider 2)
            (App.reachable_handle first_sample _ App.Next
               (App.reachable_handle first_sample _
                  (App.RunCode pyodide cpp)
                  (App.reachable_initial first_sample) I) I) _).
  vm_compute. split; discriminate.
Defined.

(** X22: stepping forward and back on the timeline: from a frame that is
    not the last, Next followed by Prev comes back to the same state; on
    the last frame Next changes nothing, and on the first frame Prev changes
    nothing. *)
Theorem next_and_prev_on_the_timeline (st : App.state) :
  App.cursor_in_range st →
  App.timeline_shown st = true →
  (∀ r, App.result st = Some r →
        App.currentStep st < App.frame_count r - 1 →
        App.pressPrev (App.pressNext st) = st
        ∧ App.currentStep (App.pressNext st) = App.currentStep st + 1)
  ∧ (∀ r, App.result st = Some r →
          App.currentStep st = App.frame_count r - 1 →
          App.pressNext st = st)
  ∧ (App.currentStep st = 0 → App.pressPrev st = st).
Proof.
  destruct st as [lang text res step].
  unfold App.cursor_in_range, App.timeline_shown, App.pressPrev,
    App.pressNext, App.setCurrentStep; simpl.
  destruct res as [r|]; [|discriminate]. intros Hst Hshown.
  rewrite Hshown in Hst |- *. simpl. rewrite Hshown.
  split; [|split].
  - intros ? [= <-] Hlt. split; [f_equal|]; lia.
  - intros ? [= <-] Hlast. f_equal. lia.
  - intros ->. reflexivity.
Qed.

Lemma next_and_prev_on_the_timeline_witness :
  let st := {| App.language := python; App.code := "x = 1";
               App.result :=
                 Some (inl (PyTracer.runCode
                              (Some (instance_of
                                       (PyTracer.Compiled short_run)))
                              "x = 1"));
               App.currentStep := 1 |} in
  App.pressPrev (App.pressNext st) = st
  ∧ App.currentStep (App.pressNext st) = App.currentStep st + 1.
Proof.
  intros st.
  assert (Hst : App.cursor_in_range st) by (vm_compute; by split).
  apply (proj1 (next_and_prev_on_the_timeline st Hst eq_refl) _ eq_refl).
  vm_compute. reflexivity.
Defined.

(** X23: what the application shows after a Python run on a ready engine.
    After a run that the hook caught, and after a compile fault, there is no
    timeline and the error box is shown. After a run that ended with an
    exception but recorded a frame, the result is a failure with the message
    of the exception, and yet the error box is not shown: the timeline is;
    unless the recorded frames do not get through [json.dumps] and
    [JSON.parse], as frames holding a float that is not finite do not: then
    the run is caught and the error box is shown. *)
Theorem error_box_after_a_python_run (pyodide : PyodideHook) (cpp : CppHook)
    (st : App.state) (instance : PyTracer.PyodideInstance) :
  App.language st = python →
  isReady pyodide = true →
  pyodideRef pyodide = Some instance →
  let st' := App.handleRunCode pyodide cpp st in
  (∀ err,
     PyTracer.try_block instance (App.code st) = PyTracer.TryThrows err →
     App.result st'
     = Some (inl (trace_result false
                    (Some (PyTracer.errorMessage instance (App.code st) err))
                    []))
     ∧ App.error_box_shown st' = true ∧ App.timeline_shown st' = false)
  ∧ (∀ source msg lineno,
       PyTracer.read_call instance (PyTracer.pythonCall (App.code st))
       = PyTracer.Ok source →
       PyTracer.interpret instance source
       = PyTracer.SyntaxError msg lineno →
       App.error_box_shown st' = true ∧ App.timeline_shown st' = false)
  ∧ (∀ source run e,
       PyTracer.read_call instance (PyTracer.pythonCall (App.code st))
       = PyTracer.Ok source →
       PyTracer.interpret instance source = PyTracer.Compiled run →
       PyTracer.outcome run = PyTracer.RaisesException e →
       let traced :=
         trace_result false
           (Some (PyTracer.exc_type_name e +:+ ": " +:+ PyTracer.exc_text e))
           (PyTracer.self_frames
              (PyTracer.deliver (PyTracer.init "<user_code>")
                                (PyTracer.events run)).1) in
       frames traced ≠ [] →
       if PyTracer.dumps_returns traced && PyTracer.parse_returns traced
       then App.result st' = Some (inl (PyTracer.parsed traced))
            ∧ App.error_box_shown st' = false
            ∧ App.timeline_shown st' = true
       else App.error_box_shown st' = true
            ∧ App.timeline_shown st' = false).
Proof.
  intros Hlang Hready Href st'. subst st'.
  unfold App.handleRunCode, App.error_box_shown, App.timeline_shown, runCode.
  rewrite Hlang, Hready, Href. cbn [negb App.result].
  unfold PyTracer.runCode. split; [|split].
  - intros err ->. by simpl.
  - intros source msg lineno Hread Hsyn.
    unfold PyTracer.try_block. rewrite Hread, Hsyn. by simpl.
  - intros source run e Hread Hrun Hout.
    set (traced := trace_result false _ _). intros Hframes.
    assert (Htraced : PyTracer.trace_code (PyTracer.interpret instance source)
                      = PyTracer.Ok traced).
    { rewrite Hrun. simpl. by rewrite Hout. }
    rewrite (try_block_through_json _ _ _ _ Hread Htraced).
    unfold PyTracer.through_json.
    destruct (PyTracer.dumps_returns traced); [|by simpl].
    destruct (PyTracer.parse_returns traced); [|by simpl].
    simpl. split; [reflexivity|].
    unfold result_frames, result_success. simpl. rewrite length_map.
    subst traced. simpl in Hframes.
    destruct (PyTracer.self_frames _) as [|f fs]; [done|]. by simpl.
Qed.

Lemma error_box_after_a_python_run_witness :
  let failing_run (x : PyTracer.pyvalue) :=
    {| PyTracer.events :=
         [({| PyTracer.co_filename := "<user_code>";
              PyTracer.co_name := "<module>"; PyTracer.f_lineno := 2;
              PyTracer.f_locals := [("x", x)] |}, PyTracer.OnLine)];
       PyTracer.outcome :=
         PyTracer.RaisesException
           (PyTracer.PyExc "ZeroDivisionError" "division by zero") |} in
  let pressed (x : PyTracer.pyvalue) :=
    App.handleRunCode
      {| isReady := true;
         pyodideRef :=
           Some (instance_of (PyTracer.Compiled (failing_run x))) |}
      {| random_id := sample_random; JSCPP := None;
         import_JSCPP := CppEngine.Returns (module_of skipping_debugger);
         random_draws := 0 |}
      {| App.language := python; App.code := "x = 1 / 0";
         App.result := None; App.currentStep := 0 |} in
  (App.error_box_shown (pressed (PyTracer.PyInt 11 1)) = false
   ∧ App.timeline_shown (pressed (PyTracer.PyInt 11 1)) = true)
  ∧ (App.error_box_shown
       (pressed (PyTracer.PyFloat 13
                   (PyTracer.PyFloatBits (PyTracer.infinity_bits false))))
     = true
     ∧ App.timeline_shown
         (pressed (PyTracer.PyFloat 13
                     (PyTracer.PyFloatBits (PyTracer.infinity_bits false))))
       = false).
Proof.
  intros failing_run pressed.
  assert (Hrun : ∀ x,
    let traced :=
      trace_result false (Some "ZeroDivisionError: division by zero")
        (PyTracer.self_frames
           (PyTracer.deliver (PyTracer.init "<user_code>")
                             (PyTracer.events (failing_run x))).1) in
    frames traced ≠ [] →
    if PyTracer.dumps_returns traced && PyTracer.parse_returns traced
    then App.result (pressed x) = Some (inl (PyTracer.parsed traced))
         ∧ App.error_box_shown (pressed x) = false
         ∧ App.timeline_shown (pressed x) = true
    else App.error_box_shown (pressed x) = true
         ∧ App.timeline_shown (pressed x) = false).
  { intros x.
    exact (proj2 (proj2 (error_box_after_a_python_run
                    {| isReady := true;
                       pyodideRef :=
                         Some (instance_of
                                 (PyTracer.Compiled (failing_run x))) |}
                    {| random_id := sample_random; JSCPP := None;
                       import_JSCPP :=
                         CppEngine.Returns (module_of skipping_debugger);
                       random_draws := 0 |}
                    {| App.language := python; App.code := "x = 1 / 0";
                       App.result := None; App.currentStep := 0 |}
                    (instance_of (PyTracer.Compiled (failing_run x)))
                    eq_refl eq_refl eq_refl))
             "x = 1 / 0" (failing_run x)
             (PyTracer.PyExc "ZeroDivisionError" "division by zero")
             eq_refl eq_refl eq_refl). }
  split.
  - refine (proj2 (Hrun (PyTracer.PyInt 11 1) _)). discriminate.
  - refine (Hrun (PyTracer.PyFloat 13
                    (PyTracer.PyFloatBits (PyTracer.infinity_bits false)))
                 _). discriminate.
Defined.
